(** * Care-Cast: the per-patient monitoring scheduler

    A shallow embedding of the scheduling core of the Care-Cast bot:
    the escalation table and the scheduling helpers of [queue.js], the
    fire handlers of the health-cron worker, the poll-response
    interpreter and handler of the webhook server, and the AI symptom
    monitoring scheduler.  JavaScript strings are sequences of UTF-16
    code units, asynchronous code is a state-and-exception monad over
    the job queues, and every call that leaves the process (Redis,
    Twilio, the database) may throw. *)

From Stdlib Require Import ZArith NArith List String Ascii Bool Lia.
From Stdlib Require Import DecimalString.
Import ListNotations.

Local Open Scope Z_scope.

(* ================================================================== *)
(** * JavaScript strings *)

(** A JavaScript string is a sequence of UTF-16 code units. *)
Definition jsstring := list N.

(** The code units of an ASCII literal. *)
Definition lit (s : string) : jsstring :=
  map N_of_ascii (list_ascii_of_string s).

Fixpoint jseqb (a b : jsstring) : bool :=
  match a, b with
  | [], [] => true
  | x :: a', y :: b' => N.eqb x y && jseqb a' b'
  | _, _ => false
  end.

(** [String.prototype.toLowerCase], one code unit at a time.  The model
    is exact on ASCII; U+212A KELVIN SIGN is the only other character
    whose lower case is made of ASCII units alone.  Every other
    non-ASCII character is left as it is: JavaScript maps it to a
    sequence that still holds a unit above 127, and no pattern below
    holds such a unit. *)
Definition toLowerUnit (c : N) : N :=
  if (N.leb 65 c && N.leb c 90)%bool then (c + 32)%N
  else if N.eqb c 8490 then 107%N
  else c.

Definition toLowerCase (s : jsstring) : jsstring := map toLowerUnit s.

(** WhiteSpace and LineTerminator code units, as [trim] strips them. *)
Definition isWhiteSpace (c : N) : bool :=
  existsb (N.eqb c)
    [9; 10; 11; 12; 13; 32; 160; 5760; 8232; 8233; 8239; 8287; 12288; 65279]%N
  || (N.leb 8192 c && N.leb c 8202).

Fixpoint trimStart (s : jsstring) : jsstring :=
  match s with
  | c :: s' => if isWhiteSpace c then trimStart s' else s
  | [] => []
  end.

Definition trimEnd (s : jsstring) : jsstring := rev (trimStart (rev s)).

Definition trim (s : jsstring) : jsstring := trimEnd (trimStart s).

(** [haystack.includes(needle)]. *)
Fixpoint startsWith (needle s : jsstring) : bool :=
  match needle, s with
  | [], _ => true
  | x :: n', y :: s' => N.eqb x y && startsWith n' s'
  | _ :: _, [] => false
  end.

Fixpoint includes (needle s : jsstring) : bool :=
  startsWith needle s ||
  match s with
  | [] => false
  | _ :: s' => includes needle s'
  end.

(** [array.includes(text)] on an array of strings. *)
Definition arrayIncludes (xs : list jsstring) (text : jsstring) : bool :=
  existsb (jseqb text) xs.

(* ================================================================== *)
(** * Regular expressions of the response interpreter *)

(** The fragment of regular expressions [detectPollResponse] uses:
    literal characters, a character range, an optional group, an
    alternation and concatenation.  Every pattern of the source is
    anchored at both ends. *)
Inductive regex : Type :=
| Chars (p : jsstring)
| Range (lo hi : N)
| Opt (r : regex)
| Alt (r1 r2 : regex)
| Cat (r1 r2 : regex).

(** Canonicalize of the [i] flag (no [u] flag): upper case of a single
    unit, never from a non-ASCII unit to an ASCII one. *)
Definition canonicalize (c : N) : N :=
  if (N.leb 97 c && N.leb c 122)%bool then (c - 32)%N else c.

Fixpoint matchChars (p s : jsstring) : option jsstring :=
  match p, s with
  | [], _ => Some s
  | x :: p', y :: s' =>
      if N.eqb (canonicalize x) (canonicalize y) then matchChars p' s' else None
  | _ :: _, [] => None
  end.

(** Backtracking matcher: [matchFrom r s k] holds when [r] matches a
    prefix of [s] whose remainder satisfies the continuation [k]. *)
Fixpoint matchFrom (r : regex) (s : jsstring) (k : jsstring -> bool) : bool :=
  match r with
  | Chars p =>
      match matchChars p s with
      | Some rest => k rest
      | None => false
      end
  | Range lo hi =>
      match s with
      | c :: rest => N.leb lo c && N.leb c hi && k rest
      | [] => false
      end
  | Opt r1 => matchFrom r1 s k || k s
  | Alt r1 r2 => matchFrom r1 s k || matchFrom r2 s k
  | Cat r1 r2 => matchFrom r1 s (fun rest => matchFrom r2 rest k)
  end.

Definition atEnd (s : jsstring) : bool :=
  match s with
  | [] => true
  | _ :: _ => false
  end.

(** [/^r$/i.test(s)]. *)
Definition test (r : regex) (s : jsstring) : bool := matchFrom r s atEnd.

(* ================================================================== *)
(** * Response interpreter: [detectPollResponse] *)

Definition much_better : jsstring := lit "much_better".
Definition slightly_better : jsstring := lit "slightly_better".
Definition same_symptoms : jsstring := lit "same_symptoms".
Definition worse_condition : jsstring := lit "worse_condition".
Definition emergency_help : jsstring := lit "emergency_help".

(** [responseMap[text]] for the object literal with keys 1 to 5. *)
Definition responseMap (text : jsstring) : option jsstring :=
  if jseqb text (lit "1") then Some much_better
  else if jseqb text (lit "2") then Some slightly_better
  else if jseqb text (lit "3") then Some same_symptoms
  else if jseqb text (lit "4") then Some worse_condition
  else if jseqb text (lit "5") then Some emergency_help
  else None.

Definition buttonIds : list jsstring :=
  [much_better; slightly_better; same_symptoms; worse_condition; emergency_help].

(** [/^[1-5]$/] *)
Definition re_digit : regex := Range 49 53.
(** [/^(much )?better$/i] and [/^feeling (much )?better$/i] *)
Definition re_better : regex := Cat (Opt (Chars (lit "much "))) (Chars (lit "better")).
Definition re_feeling_better : regex :=
  Cat (Chars (lit "feeling ")) (Cat (Opt (Chars (lit "much "))) (Chars (lit "better"))).
(** [/^slightly better$/i] and [/^a (little|bit) better$/i] *)
Definition re_slightly_better : regex := Chars (lit "slightly better").
Definition re_a_bit_better : regex :=
  Cat (Chars (lit "a "))
      (Cat (Alt (Chars (lit "little")) (Chars (lit "bit"))) (Chars (lit " better"))).
(** [/^(the )?same$/i], [/^no change$/i] and [/^unchanged$/i] *)
Definition re_same : regex := Cat (Opt (Chars (lit "the "))) (Chars (lit "same")).
Definition re_no_change : regex := Chars (lit "no change").
Definition re_unchanged : regex := Chars (lit "unchanged").
(** [/^worse$/i], [/^getting worse$/i] and [/^feeling worse$/i] *)
Definition re_worse : regex := Chars (lit "worse").
Definition re_getting_worse : regex := Chars (lit "getting worse").
Definition re_feeling_worse : regex := Chars (lit "feeling worse").
(** [/^(call )?911$/i], [/^emergency$/i] and [/^need help now$/i] *)
Definition re_911 : regex := Cat (Opt (Chars (lit "call "))) (Chars (lit "911")).
Definition re_emergency : regex := Chars (lit "emergency").
Definition re_need_help_now : regex := Chars (lit "need help now").

(** The result is a string or [null] ([None]). *)
Definition detectPollResponse (messageText : jsstring) : option jsstring :=
  let text := trim (toLowerCase messageText) in
  if test re_digit text then responseMap text
  else if arrayIncludes buttonIds text then Some text
  else if test re_better text || test re_feeling_better text then Some much_better
  else if test re_slightly_better text || test re_a_bit_better text
       then Some slightly_better
  else if test re_same text || test re_no_change text || test re_unchanged text
       then Some same_symptoms
  else if test re_worse text || test re_getting_worse text || test re_feeling_worse text
       then Some worse_condition
  else if test re_911 text || test re_emergency text || test re_need_help_now text
       then Some emergency_help
  else None.

(** The interpreter as the specification words it: the classification
    of a normalised reply is a lookup in a fixed table of exact
    strings; anything else is unclassified. *)
Inductive PollResponse : Type :=
| MuchBetter | SlightlyBetter | SameSymptoms | WorseCondition | EmergencyHelp.

Definition token (r : PollResponse) : jsstring :=
  match r with
  | MuchBetter => much_better
  | SlightlyBetter => slightly_better
  | SameSymptoms => same_symptoms
  | WorseCondition => worse_condition
  | EmergencyHelp => emergency_help
  end.

Definition replyTable : list (string * PollResponse) :=
  [ ("1", MuchBetter); ("2", SlightlyBetter); ("3", SameSymptoms);
    ("4", WorseCondition); ("5", EmergencyHelp);
    ("much_better", MuchBetter); ("slightly_better", SlightlyBetter);
    ("same_symptoms", SameSymptoms); ("worse_condition", WorseCondition);
    ("emergency_help", EmergencyHelp);
    ("better", MuchBetter); ("much better", MuchBetter);
    ("feeling better", MuchBetter); ("feeling much better", MuchBetter);
    ("slightly better", SlightlyBetter); ("a little better", SlightlyBetter);
    ("a bit better", SlightlyBetter);
    ("same", SameSymptoms); ("the same", SameSymptoms);
    ("no change", SameSymptoms); ("unchanged", SameSymptoms);
    ("worse", WorseCondition); ("getting worse", WorseCondition);
    ("feeling worse", WorseCondition);
    ("911", EmergencyHelp); ("call 911", EmergencyHelp);
    ("emergency", EmergencyHelp); ("need help now", EmergencyHelp) ]%string.

Fixpoint lookupReply (t : list (string * PollResponse)) (text : jsstring)
  : option PollResponse :=
  match t with
  | [] => None
  | (k, r) :: t' => if jseqb text (lit k) then Some r else lookupReply t' text
  end.

Definition classifyResponse (messageText : jsstring) : option PollResponse :=
  lookupReply replyTable (trim (toLowerCase messageText)).

(* ================================================================== *)
(** * Object literals used as tables *)

(** What a property read on an object literal of numbers can yield: an
    own number, a member inherited from [Object.prototype] (a function,
    or the prototype object itself for [__proto__]), or [undefined]. *)
Inductive jsval : Type :=
| VNum (n : Z)
| VInherited (key : string)
| VUndefined.

(** [Object.getOwnPropertyNames(Object.prototype)]. *)
Definition objectPrototypeKeys : list string :=
  [ "constructor"; "__defineGetter__"; "__defineSetter__"; "hasOwnProperty";
    "__lookupGetter__"; "__lookupSetter__"; "isPrototypeOf";
    "propertyIsEnumerable"; "toString"; "valueOf"; "__proto__";
    "toLocaleString" ]%string.

Fixpoint ownProperty (table : list (string * Z)) (key : string) : option Z :=
  match table with
  | [] => None
  | (k, v) :: table' => if String.eqb key k then Some v else ownProperty table' key
  end.

(** [table[key]]: own properties first, then the prototype chain. *)
Definition getProperty (table : list (string * Z)) (key : string) : jsval :=
  match ownProperty table key with
  | Some n => VNum n
  | None =>
      if existsb (String.eqb key) objectPrototypeKeys then VInherited key
      else VUndefined
  end.

Definition truthy (v : jsval) : bool :=
  match v with
  | VNum n => negb (n =? 0)
  | VInherited _ => true
  | VUndefined => false
  end.

(** [a || b] *)
Definition orElse (a b : jsval) : jsval := if truthy a then a else b.

(** JavaScript numbers as far as the scheduler computes with them. *)
Inductive jsnum : Type :=
| Fin (z : Z)
| NaN.

(** [v * k] for a table value [v]: a function, an object or
    [undefined] converts to [NaN]. *)
Definition times (v : jsval) (k : Z) : jsnum :=
  match v with
  | VNum n => Fin (n * k)
  | VInherited _ | VUndefined => NaN
  end.

(* ================================================================== *)
(** * Escalation policy ([queue.js]) *)

Definition monitoringIntervals : list (string * Z) :=
  [ ("critical", 2); ("high", 5); ("medium", 15); ("low", 60);
    ("emergency", 1) ]%string.

(** [monitoringIntervals[riskLevel] || monitoringIntervals.medium] *)
Definition intervalMinutesFor (riskLevel : string) : jsval :=
  orElse (getProperty monitoringIntervals riskLevel)
         (getProperty monitoringIntervals "medium").

Definition weatherIntervals : list (string * Z) :=
  [ ("emergency", 15); ("high", 30); ("routine", 60) ]%string.

(** [weatherIntervals[waveStatus.urgency] || 60] *)
Definition weatherIntervalFor (urgency : string) : jsval :=
  orElse (getProperty weatherIntervals urgency) (VNum 60).

(* ================================================================== *)
(** * Jobs, queues and the world *)

Record WaveStatus : Type := {
  urgency : string;
  waveType : string
}.

Record PatientData : Type := {
  firstName : string;
  age : Z;
  zipcode : string
}.

(** The payload of a health-cron job, as a JavaScript object: a field
    that a job does not carry reads as [undefined] ([None]). *)
Record JobData : Type := {
  phoneNumber : string;
  symptom : option string;
  riskLevel : option string;
  intervalMinutes : option jsval;
  checkNumber : option Z;
  totalChecks : option Z;
  startTime : option Z;
  tag : option string;
  checkTime : option Z;
  checkType : option string;
  waveStatus : option WaveStatus;
  patientData : option PatientData
}.

Record Job : Type := {
  name : string;
  data : JobData;
  delay : jsnum;
  jobId : string;
  repeatEvery : option Z
}.

(** The message templates of the source, by identity rather than by
    their wording. *)
Inductive Msg : Type :=
| RecurringCheckMsg (level : option string) (number : option Z)
| WeatherCheckinMsg (senior : bool)
| DailyRoutineMsg
| DailyHealthMsg
| AISymptomCheckMsg (level : option string) (number total : option Z)
| LegacyPollMsg
| OnboardingMsg
| NotUnderstoodMsg
| EmergencyCallMsg
| AIResponseMsg (text : string)
| EmergencyFollowupMsg.

Record WaJob : Type := {
  to : string;
  message : Msg;
  waDelay : option Z
}.

(** Observable effects. [CronAdded id clash] records a successful
    [healthCronQueue.add]; [clash] tells whether a pending job already
    had that id. *)
Inductive Event : Type :=
| TwilioSent (recipient : string) (m : Msg)
| WhatsappQueued (recipient : string) (m : Msg)
| CronAdded (id : string) (clash : bool)
| CronAddFailed (id : string).

(** [now] is the clock, in milliseconds of local wall-clock time (a
    fixed offset from UTC); [faults k] tells whether the [k]-th call
    that leaves the process throws; the two queues hold the pending
    (delayed or waiting) jobs, oldest first. *)
Record World : Type := {
  now : Z;
  tick : nat;
  faults : nat -> bool;
  healthCronQueue : list Job;
  whatsappQueue : list WaJob;
  trace : list Event
}.

Definition setCron (q : list Job) (w : World) : World :=
  {| now := now w; tick := tick w; faults := faults w;
     healthCronQueue := q; whatsappQueue := whatsappQueue w; trace := trace w |}.

Definition setWhatsapp (q : list WaJob) (w : World) : World :=
  {| now := now w; tick := tick w; faults := faults w;
     healthCronQueue := healthCronQueue w; whatsappQueue := q; trace := trace w |}.

Definition emit (e : Event) (w : World) : World :=
  {| now := now w; tick := tick w; faults := faults w;
     healthCronQueue := healthCronQueue w; whatsappQueue := whatsappQueue w;
     trace := trace w ++ [e] |}.

Definition bump (w : World) : World :=
  {| now := now w; tick := S (tick w); faults := faults w;
     healthCronQueue := healthCronQueue w; whatsappQueue := whatsappQueue w;
     trace := trace w |}.

(* ================================================================== *)
(** * The monad of asynchronous code *)

Inductive Err : Type :=
| StoreError
| TwilioError
| DbError
| ServiceError
| TypeError
| ReferenceError
| AnalysisRequired.

Inductive outcome (A : Type) : Type :=
| Ret (a : A)
| Raise (e : Err).

Arguments Ret {A} a.
Arguments Raise {A} e.

(** A computation returns or throws, and the world it leaves is kept in
    both cases: what was done before a throw stays done. *)
Definition M (A : Type) : Type := World -> outcome A * World.

Definition ret {A} (a : A) : M A := fun w => (Ret a, w).

Definition throw {A} (e : Err) : M A := fun w => (Raise e, w).

Definition bind {A B} (m : M A) (k : A -> M B) : M B :=
  fun w =>
    match m w with
    | (Ret a, w') => k a w'
    | (Raise e, w') => (Raise e, w')
    end.

(** [try { m } catch (error) { h error }] *)
Definition catch {A} (m : M A) (h : Err -> M A) : M A :=
  fun w =>
    match m w with
    | (Ret a, w') => (Ret a, w')
    | (Raise e, w') => h e w'
    end.

Declare Scope async_scope.
Delimit Scope async_scope with async.
Notation "x <- m ;; k" := (bind m (fun x => k))
  (at level 61, m at next level, right associativity) : async_scope.
Notation "m ;; k" := (bind m (fun _ => k))
  (at level 61, right associativity) : async_scope.
Local Open Scope async_scope.

Definition gets {A} (f : World -> A) : M A := fun w => (Ret (f w), w).

Definition modify (f : World -> World) : M unit := fun w => (Ret tt, f w).

(** [for (const x of xs) { await body(x) }] *)
Fixpoint forEach {A} (xs : list A) (body : A -> M unit) : M unit :=
  match xs with
  | [] => ret tt
  | x :: xs' => body x ;; forEach xs' body
  end.

(** A call that leaves the process: it throws [e] when the fault
    schedule says so. *)
Definition call (e : Err) : M unit :=
  fun w => if faults w (tick w) then (Raise e, bump w) else (Ret tt, bump w).

(* ================================================================== *)
(** * The JobStore (BullMQ queues over Redis) *)

(** The store is the BullMQ library, an external collaborator of the
    source.  Its model keeps the pending jobs in a list, oldest first,
    and does not enforce that an id is unique: that an identity has one
    job is what the callers' cancel-before-enqueue protocol has to
    establish. *)

Definition hasId (id : string) (j : Job) : bool := String.eqb (jobId j) id.

Fixpoint removeFirst (id : string) (q : list Job) : list Job :=
  match q with
  | [] => []
  | j :: q' => if hasId id j then q' else j :: removeFirst id q'
  end.

(** Modelled from the spec: the lookup of a pending job by its id,
    [healthCronQueue.getJob(id)] of the BullMQ library. *)
Definition getJob (id : string) : M (option Job) :=
  call StoreError ;; gets (fun w => find (hasId id) (healthCronQueue w)).

(** Modelled from the spec: [cancel(id)] of the JobStore, [job.remove()]
    of the BullMQ library, on the job a lookup returned. *)
Definition removeJob (j : Job) : M unit :=
  call StoreError ;;
  modify (fun w => setCron (removeFirst (jobId j) (healthCronQueue w)) w).

(** Modelled from the spec: the listing of pending jobs,
    [healthCronQueue.getJobs(["delayed", "waiting"], start, end)] of
    the BullMQ library, both bounds included. *)
Definition getJobs (first last : nat) : M (list Job) :=
  call StoreError ;;
  gets (fun w => firstn (S last - first) (skipn first (healthCronQueue w))).

(** Modelled from the spec: [enqueue(id, payload, delay|repeatSpec)] of
    the JobStore, [healthCronQueue.add(name, data, opts)] of the BullMQ
    library.  The job is appended whatever ids are pending, and the
    trace records whether a pending job already had the id, so that a
    result can state that this never happened. *)
Definition cronAdd (j : Job) : M unit :=
  fun w =>
    if faults w (tick w) then (Raise StoreError, emit (CronAddFailed (jobId j)) (bump w))
    else
      (Ret tt,
       emit (CronAdded (jobId j) (existsb (hasId (jobId j)) (healthCronQueue w)))
            (setCron (healthCronQueue w ++ [j]) (bump w))).

(** [whatsappQueue.add("send-whatsapp", { to, message }, { delay })] *)
Definition whatsappAdd (recipient : string) (m : Msg) (d : option Z) : M unit :=
  call StoreError ;;
  modify (fun w =>
    emit (WhatsappQueued recipient m)
         (setWhatsapp (whatsappQueue w ++ [{| to := recipient; message := m; waDelay := d |}]) w)).

(** [twilio.messages.create({ body, from, to })] *)
Definition twilioCreate (recipient : string) (m : Msg) : M unit :=
  call TwilioError ;; modify (emit (TwilioSent recipient m)).

(** [prisma.message.create(...)] and the other database writes. *)
Definition prismaCreate : M unit := call DbError.

(* ================================================================== *)
(** * Scheduling helpers ([queue.js]) *)

(** A number inside a template literal. *)
Definition decimal (z : Z) : string := NilZero.string_of_int (Z.to_int z).

(** The [getJob]-then-[remove] idiom of [cancelHealthCheckups]. *)
Definition cancelJobById (id : string) : M unit :=
  job <- getJob id ;;
  match job with
  | Some j => removeJob j
  | None => ret tt
  end.

(** The legacy ids of the backwards-compatibility loop; every
    iteration has a [try]/[catch] of its own. *)
Definition legacyIntervals : list Z := [1; 2; 5; 10; 15; 60].

Definition legacyJobId (phone tagName : string) (interval : Z) : string :=
  ("health-checkup-" ++ phone ++ "-" ++ tagName ++ "-" ++ decimal interval ++ "min")%string.

Definition cancelLegacy (phone tagName : string) : M unit :=
  forEach legacyIntervals (fun interval =>
    catch (cancelJobById (legacyJobId phone tagName interval)) (fun _ => ret tt)).

(** The id under which a tag's job is looked up by
    [cancelHealthCheckups]. *)
Definition cancelId (phone tagName : string) : string :=
  if String.eqb tagName "daily" then ("daily-checkup-" ++ phone)%string
  else if String.eqb tagName "symptom" then ("recurring-monitor-" ++ phone ++ "-symptom")%string
  else if String.eqb tagName "weather-alert" then ("weather-alert-" ++ phone)%string
  else ("recurring-monitor-" ++ phone ++ "-" ++ tagName)%string.

(** The body of [cancelHealthCheckups] for a tag other than ["all"]. *)
Definition cancelTagged (phone tagName : string) : M unit :=
  cancelJobById (cancelId phone tagName) ;;
  cancelLegacy phone tagName.

Definition jobTypes : list string := ["symptom"; "daily"; "weather-alert"]%string.

(** [cancelHealthCheckups(phoneNumber, tag)].  The whole body sits in a
    [try] whose [catch] logs the error and returns; the recursive calls
    for ["all"] are calls with a tag other than ["all"]. *)
Definition cancelHealthCheckups (phone tagName : string) : M unit :=
  catch
    (if String.eqb tagName "all"
     then forEach jobTypes (fun jobTag =>
            catch (cancelTagged phone jobTag) (fun _ => ret tt))
     else cancelTagged phone tagName)
    (fun _ => ret tt).

Definition orDefault (o : option string) (d : string) : string :=
  match o with
  | Some s => s
  | None => d
  end.

Definition recurringJob (phone : string) (sym : option string) (level tagName : string)
    (interval : jsval) (clock : Z) : Job :=
  {| name := "recurring-health-monitor";
     data := {| phoneNumber := phone; symptom := sym; riskLevel := Some level;
                intervalMinutes := Some interval; checkNumber := Some 1;
                totalChecks := None; startTime := Some clock; tag := Some tagName;
                checkTime := None; checkType := None; waveStatus := None;
                patientData := None |};
     delay := times interval (60 * 1000);
     jobId := ("recurring-monitor-" ++ phone ++ "-" ++ tagName)%string;
     repeatEvery := None |}.

(** [scheduleHealthCheckup(phoneNumber, symptom, riskLevel = "medium",
    tag = "symptom")] *)
Definition scheduleHealthCheckup (phone : string) (sym : option string)
    (level tagName : option string) : M unit :=
  let level := orDefault level "medium" in
  let tagName := orDefault tagName "symptom" in
  cancelHealthCheckups phone tagName ;;
  let interval := intervalMinutesFor level in
  clock <- gets now ;;
  cronAdd (recurringJob phone sym level tagName interval clock).

Definition weatherJob (phone : string) (ws : WaveStatus) (pd : option PatientData)
    (interval : option jsval) (number : Z) (started : option Z) : Job :=
  {| name := "weather-alert-checkin";
     data := {| phoneNumber := phone; symptom := None; riskLevel := None;
                intervalMinutes := interval; checkNumber := Some number;
                totalChecks := None; startTime := started; tag := Some "weather-alert"%string;
                checkTime := None; checkType := None; waveStatus := Some ws;
                patientData := pd |};
     delay := match interval with
              | Some v => times v (60 * 1000)
              | None => NaN
              end;
     jobId := ("weather-alert-" ++ phone)%string;
     repeatEvery := None |}.

Definition alertUrgency (ws : WaveStatus) : bool :=
  String.eqb (urgency ws) "emergency" || String.eqb (urgency ws) "high".

(** [scheduleWeatherAlertCheckin(phoneNumber, waveStatus, patientData)] *)
Definition scheduleWeatherAlertCheckin (phone : string) (ws : WaveStatus)
    (pd : PatientData) : M unit :=
  cancelHealthCheckups phone "weather-alert" ;;
  let interval := weatherIntervalFor (urgency ws) in
  if alertUrgency ws then
    clock <- gets now ;;
    cronAdd (weatherJob phone ws (Some pd) (Some interval) 1 (Some clock))
  else ret tt.

Definition msPerDay : Z := 24 * 60 * 60 * 1000.

(** [next9AM]: today's 09:00:00.000 by [setHours(9, 0, 0, 0)], moved
    to tomorrow by [setDate(getDate() + 1)] when [now >= next9AM].
    Both [Date] objects are taken to read the same instant, and a day
    has 24 hours (no daylight-saving shift). *)
Definition next9AM (clock : Z) : Z :=
  let today9 := (clock / msPerDay) * msPerDay + 9 * 60 * 60 * 1000 in
  if today9 <=? clock then today9 + msPerDay else today9.

Definition dailyJob (phone : string) (clock : Z) : Job :=
  {| name := "daily-health-checkup";
     data := {| phoneNumber := phone; symptom := None; riskLevel := None;
                intervalMinutes := None; checkNumber := None; totalChecks := None;
                startTime := None; tag := Some "daily"%string;
                checkTime := Some (next9AM clock); checkType := None;
                waveStatus := None; patientData := None |};
     delay := Fin (next9AM clock - clock);
     jobId := ("daily-checkup-" ++ phone)%string;
     repeatEvery := Some msPerDay |}.

(** [scheduleDailyCheckup(phoneNumber)] *)
Definition scheduleDailyCheckup (phone : string) : M unit :=
  cancelHealthCheckups phone "daily" ;;
  clock <- gets now ;;
  cronAdd (dailyJob phone clock).

(** [updateMonitoringFrequency(phoneNumber, newRiskLevel, tag = "symptom")]:
    the body sits in a [try] whose [catch] only logs. *)
Definition updateMonitoringFrequency (phone : string) (newRiskLevel : string)
    (tagName : option string) : M unit :=
  let tagName := orDefault tagName "symptom" in
  catch
    (cancelHealthCheckups phone tagName ;;
     if String.eqb tagName "symptom"
     then scheduleHealthCheckup phone (Some "updated"%string) (Some newRiskLevel) (Some tagName)
     else ret tt)
    (fun _ => ret tt).

(* ================================================================== *)
(** * AI symptom monitoring ([MonitoringScheduler]) *)

Record MonitoringPattern : Type := {
  intervals : list Z;
  duration : Z
}.

Definition AI_CRITICAL : MonitoringPattern :=
  {| intervals := [30; 60; 120; 240]; duration := 4 * 60 |}.
Definition AI_HIGH : MonitoringPattern :=
  {| intervals := [120; 240; 480; 720]; duration := 12 * 60 |}.
Definition AI_MODERATE : MonitoringPattern :=
  {| intervals := [360; 720; 1080; 1440]; duration := 24 * 60 |}.

Record SymptomAnalysis : Type := {
  suggestedMonitoring : MonitoringPattern;
  analysisRiskLevel : string
}.

(** [MONITORING_TYPES.AI_SYMPTOM] *)
Definition AI_SYMPTOM : string := "ai_symptom_monitoring".

Definition isAIJobOf (phone : string) (j : Job) : bool :=
  String.eqb (phoneNumber (data j)) phone && String.eqb (name j) AI_SYMPTOM.

(** [cancelAIMonitoring(phoneNumber)] *)
Definition cancelAIMonitoring (phone : string) : M unit :=
  catch
    (jobs <- getJobs 0 100 ;;
     forEach jobs (fun job => if isAIJobOf phone job then removeJob job else ret tt))
    (fun _ => ret tt).

Definition aiJob (phone : string) (pd : PatientData) (a : SymptomAnalysis)
    (baseJobId : string) (i : nat) (delayMinutes : Z) : Job :=
  {| name := AI_SYMPTOM;
     data := {| phoneNumber := phone; symptom := None;
                riskLevel := Some (analysisRiskLevel a); intervalMinutes := None;
                checkNumber := Some (Z.of_nat i + 1);
                totalChecks := Some (Z.of_nat (List.length (intervals (suggestedMonitoring a))));
                startTime := None; tag := None; checkTime := None;
                checkType := Some "ai_symptom"%string; waveStatus := None;
                patientData := Some pd |};
     delay := Fin (delayMinutes * 60 * 1000);
     jobId := (baseJobId ++ "-" ++ decimal (Z.of_nat i + 1))%string;
     repeatEvery := None |}.

(** The [for] loop over [suggestedMonitoring.intervals], from index [i]. *)
Fixpoint scheduleAIFrom (phone : string) (pd : PatientData) (a : SymptomAnalysis)
    (baseJobId : string) (i : nat) (rest : list Z) : M unit :=
  match rest with
  | [] => ret tt
  | delayMinutes :: rest' =>
      cronAdd (aiJob phone pd a baseJobId i delayMinutes) ;;
      scheduleAIFrom phone pd a baseJobId (S i) rest'
  end.

(** [scheduleAISymptomMonitoring(phoneNumber, patientData, analysis)] *)
Definition scheduleAISymptomMonitoring (phone : string) (pd : PatientData)
    (a : SymptomAnalysis) : M unit :=
  clock <- gets now ;;
  let baseJobId := ("ai-symptom-" ++ phone ++ "-" ++ decimal clock)%string in
  cancelAIMonitoring phone ;;
  scheduleAIFrom phone pd a baseJobId 0 (intervals (suggestedMonitoring a)).

(* ================================================================== *)
(** * The health-cron worker and its fire handlers *)

(** The worker module imports neither [whatsappQueue] nor
    [healthCronQueue]: both names are free in it, and evaluating a free
    identifier throws a ReferenceError.  The scope is a parameter, so
    that a result can be stated for the module as it is
    ([workerScope]) and for a module in which the names are bound. *)
Record Scope : Type := {
  whatsappQueueBound : bool;
  healthCronQueueBound : bool
}.

Definition workerScope : Scope :=
  {| whatsappQueueBound := false; healthCronQueueBound := false |}.

Definition identifier (bound : bool) : M unit :=
  if bound then ret tt else throw ReferenceError.

(** [try { m } catch (error) { console.error(...); throw error; }] *)
Definition rethrowing {A} (m : M A) : M A := catch m (fun e => throw e).

(** [patientData.firstName] and the like: reading a property of
    [undefined] throws a TypeError. *)
Definition defined {A} (o : option A) : M A :=
  match o with
  | Some a => ret a
  | None => throw TypeError
  end.

(** [processDailyHealthCheck(job)] *)
Definition processDailyHealthCheck (job : Job) : M unit :=
  let d := data job in
  rethrowing
    (_ <- defined (patientData d) ;;
     twilioCreate (phoneNumber d) DailyHealthMsg ;;
     prismaCreate).

(** [processAISymptomCheck(job)] *)
Definition processAISymptomCheck (job : Job) : M unit :=
  let d := data job in
  rethrowing
    (_ <- defined (patientData d) ;;
     twilioCreate (phoneNumber d)
       (AISymptomCheckMsg (riskLevel d) (checkNumber d) (totalChecks d)) ;;
     prismaCreate).

(** [(checkNumber || 1) + 1] *)
Definition nextCheckNumber (n : option Z) : Z :=
  match n with
  | Some k => (if k =? 0 then 1 else k) + 1
  | None => 1 + 1
  end.

(** [processWeatherAlertCheckin(job)] *)
Definition processWeatherAlertCheckin (sc : Scope) (job : Job) : M unit :=
  let d := data job in
  rethrowing
    (ws <- defined (waveStatus d) ;;
     pd <- defined (patientData d) ;;
     (if 65 <=? age pd then call ServiceError else ret tt) ;;
     identifier (whatsappQueueBound sc) ;;
     whatsappAdd (phoneNumber d) (WeatherCheckinMsg (65 <=? age pd)) None ;;
     if alertUrgency ws then
       identifier (healthCronQueueBound sc) ;;
       cronAdd (weatherJob (phoneNumber d) ws (Some pd) (intervalMinutes d)
                  (nextCheckNumber (checkNumber d)) (startTime d))
     else ret tt).

(** [processDailyRoutineCheckup(job)] *)
Definition processDailyRoutineCheckup (job : Job) : M unit :=
  let d := data job in
  rethrowing
    (twilioCreate (phoneNumber d) DailyRoutineMsg ;;
     prismaCreate).

(** [processRecurringHealthMonitor(job)] *)
Definition processRecurringHealthMonitor (job : Job) : M unit :=
  let d := data job in
  rethrowing
    (twilioCreate (phoneNumber d) (RecurringCheckMsg (riskLevel d) (checkNumber d)) ;;
     prismaCreate ;;
     scheduleHealthCheckup (phoneNumber d) (symptom d) (riskLevel d) (tag d)).

(** [processLegacySymptomCheck(job)] *)
Definition processLegacySymptomCheck (job : Job) : M unit :=
  let d := data job in
  rethrowing
    (twilioCreate (phoneNumber d) LegacyPollMsg ;;
     prismaCreate).

(** The branch the worker takes on [job.name]. *)
Inductive Handler : Type :=
| DailyHealthCheck
| DailyRoutineCheckup
| WeatherMonitoring
| HeatWaveMonitoring
| AISymptomCheck
| WeatherAlertCheckin
| RecurringHealthMonitor
| LegacySymptomCheck.

Definition route (jobName : string) : Handler :=
  if String.eqb jobName "daily_health_check" then DailyHealthCheck
  else if String.eqb jobName "daily-health-checkup" then DailyRoutineCheckup
  else if String.eqb jobName "weather-monitoring" then WeatherMonitoring
  else if String.eqb jobName "heat-wave-monitoring" then HeatWaveMonitoring
  else if String.eqb jobName "ai_symptom" then AISymptomCheck
  else if String.eqb jobName "weather-alert-checkin" then WeatherAlertCheckin
  else if String.eqb jobName "recurring-health-monitor" then RecurringHealthMonitor
  else LegacySymptomCheck.

(** The processor of the health-cron worker on a check-in job.  The two
    periodic sweeps (weather and heat-wave monitoring) are not check-in
    jobs and are outside this model ([None]). *)
Definition healthCronWorker (sc : Scope) (job : Job) : option (M unit) :=
  match route (name job) with
  | DailyHealthCheck => Some (processDailyHealthCheck job)
  | DailyRoutineCheckup => Some (processDailyRoutineCheckup job)
  | WeatherMonitoring => None
  | HeatWaveMonitoring => None
  | AISymptomCheck => Some (processAISymptomCheck job)
  | WeatherAlertCheckin => Some (processWeatherAlertCheckin sc job)
  | RecurringHealthMonitor => Some (processRecurringHealthMonitor job)
  | LegacySymptomCheck => Some (processLegacySymptomCheck job)
  end.

(** The processor of the WhatsApp worker: send, log, and on an error
    log the failure and throw again. *)
Definition whatsappWorker (job : WaJob) : M unit :=
  catch
    (twilioCreate (to job) (message job) ;; prismaCreate)
    (fun e => prismaCreate ;; throw e).

(* ================================================================== *)
(** * Delivery of due jobs by the JobStore *)

Fixpoint removeNth {A} (i : nat) (q : list A) : list A :=
  match q, i with
  | [], _ => []
  | _ :: q', O => q'
  | x :: q', S i' => x :: removeNth i' q'
  end.

(** A job with a [repeat] option stays in the store, re-armed for its
    next occurrence one period later. *)
Definition rearm (every : Z) (j : Job) : Job :=
  {| name := name j; data := data j; delay := Fin every; jobId := jobId j;
     repeatEvery := repeatEvery j |}.

Fixpoint rearmNth (every : Z) (i : nat) (q : list Job) : list Job :=
  match q, i with
  | [], _ => []
  | j :: q', O => rearm every j :: q'
  | j :: q', S i' => j :: rearmNth every i' q'
  end.

(** Modelled from the spec: the delivery of a due job by the JobStore.
    The store hands the [i]-th pending job to the worker: a one-shot
    job leaves the pending set, a repeating one is re-armed, and the
    processor runs once.  Retries of a failed processor and the timing
    of the delivery are not modelled. *)
Definition fire (sc : Scope) (i : nat) : M unit :=
  fun w =>
    match nth_error (healthCronQueue w) i with
    | None => (Ret tt, w)
    | Some job =>
        let q := match repeatEvery job with
                 | Some every => rearmNth every i (healthCronQueue w)
                 | None => removeNth i (healthCronQueue w)
                 end in
        match healthCronWorker sc job with
        | Some handler => handler (setCron q w)
        | None => (Ret tt, setCron q w)
        end
    end.

Definition fireWhatsapp (i : nat) : M unit :=
  fun w =>
    match nth_error (whatsappQueue w) i with
    | None => (Ret tt, w)
    | Some job => whatsappWorker job (setWhatsapp (removeNth i (whatsappQueue w)) w)
    end.



(* ================================================================== *)
(** * Poll replies in the webhook server *)

(** What [analyzeSymptoms] hands back, as far as [handlePollResponse]
    reads it; a field holds [None] or [false] when it is falsy. *)
Record AIAnalysis : Type := {
  smsMessage : option string;
  advice : option string;
  recommendsEmergency : bool;
  recommendsEscalate : bool;
  emergencyAlert : bool;
  escalationLevel : option string
}.

(** An argument in the [userExists] position, which the body never
    reads. *)
Inductive jsarg : Type :=
| ABool (b : bool)
| AString (s : jsstring).

Definition isSome {A} (o : option A) : bool :=
  match o with
  | Some _ => true
  | None => false
  end.

(** The negation of [!aiAnalysis || (!aiAnalysis.smsMessage && !aiAnalysis.advice)]. *)
Definition hasReply (ai : option AIAnalysis) : bool :=
  match ai with
  | Some a => isSome (smsMessage a) || isSome (advice a)
  | None => false
  end.

(** [aiAnalysis.smsMessage || aiAnalysis.advice] *)
Definition replyText (a : AIAnalysis) : string :=
  match smsMessage a with
  | Some s => s
  | None => match advice a with
            | Some s => s
            | None => EmptyString
            end
  end.

Definition validResponses : list jsstring :=
  [much_better; slightly_better; same_symptoms; worse_condition; emergency_help].

Inductive MonitoringAction : Type :=
| ContinueAction
| ReduceAction
| EscalateAction
| EmergencyAction.

Definition flag (ai : option AIAnalysis) (f : AIAnalysis -> bool) : bool :=
  match ai with
  | Some a => f a
  | None => false
  end.

(** The [if]/[else if] chain that sets [monitoringAction]. *)
Definition monitoringAction (ai : option AIAnalysis) (pollResponse : jsstring)
  : MonitoringAction :=
  if flag ai recommendsEmergency || flag ai emergencyAlert then EmergencyAction
  else if flag ai recommendsEscalate || jseqb pollResponse worse_condition
       then EscalateAction
  else if jseqb pollResponse much_better then ReduceAction
  else if jseqb pollResponse emergency_help then EmergencyAction
  else ContinueAction.

(** [aiAnalysis?.escalationLevel || "urgent"] (both arms of the inner
    conditional are ["urgent"]). *)
Definition chosenEscalationLevel (ai : option AIAnalysis) : string :=
  match ai with
  | Some a => orDefault (escalationLevel a) "urgent"
  | None => "urgent"%string
  end.

Definition nonEmpty (o : option jsstring) : bool :=
  match o with
  | Some (_ :: _) => true
  | _ => false
  end.

(** The [switch (monitoringAction)] of [handlePollResponse]. *)
Definition executeMonitoringAction (phone : string) (aiAnalysis : option AIAnalysis)
    (action : MonitoringAction) : M unit :=
  match action with
  | ReduceAction => cancelHealthCheckups phone "symptom"
  | EscalateAction =>
      updateMonitoringFrequency phone (chosenEscalationLevel aiAnalysis)
                                (Some "symptom"%string)
  | EmergencyAction =>
      cancelHealthCheckups phone "symptom" ;;
      whatsappAdd phone EmergencyFollowupMsg (Some (5 * 60 * 1000))
  | ContinueAction => ret tt
  end.

(** The choice of [finalMessage]: the reply of the analysis when there
    is one; otherwise the emergency wording when the reply is
    [emergency_help] or the original text contains "911", and an error
    in every other case. *)
Definition chooseFinalMessage (aiAnalysis : option AIAnalysis) (pollResponse : jsstring)
    (originalMessage : option jsstring) : M Msg :=
  if hasReply aiAnalysis then
    match aiAnalysis with
    | Some a => ret (AIResponseMsg (replyText a))
    | None => ret EmergencyCallMsg
    end
  else
    isEmergency <-
      (if jseqb pollResponse emergency_help then ret true
       else
         m <- defined originalMessage ;;
         ret (includes (lit "911") (toLowerCase m))) ;;
    if isEmergency then ret EmergencyCallMsg else throw AnalysisRequired.

(** [handlePollResponse(phoneNumber, userExists = false, pollResponse,
    originalMessage)].  [found] tells whether the patient lookup finds
    a record, and [analysis] is what [analyzeSymptoms] returns ([None]
    when it throws); both are answers of external services. *)
Definition handlePollResponse (found : bool) (analysis : option AIAnalysis)
    (phone : string) (userExists : jsarg) (pollResponse : jsstring)
    (originalMessage : option jsstring) : M unit :=
  catch
    (call DbError ;;
     if found then ret tt
     else (call DbError ;; whatsappAdd phone OnboardingMsg None))
    (fun _ => ret tt) ;;
  aiAnalysis <-
    (if nonEmpty originalMessage then
       match analysis with
       | Some a =>
           catch (if hasReply (Some a) then prismaCreate else throw AnalysisRequired)
                 (fun _ => ret tt) ;;
           ret (Some a)
       | None => ret None
       end
     else ret None) ;;
  if negb (arrayIncludes validResponses pollResponse) then
    whatsappAdd phone NotUnderstoodMsg None
  else
    finalMessage <- chooseFinalMessage aiAnalysis pollResponse originalMessage ;;
    whatsappAdd phone finalMessage None ;;
    executeMonitoringAction phone aiAnalysis (monitoringAction aiAnalysis pollResponse) ;;
    prismaCreate.

(** The poll branch of the webhook: [detectPollResponse(messageText)]
    and, on a hit, [handlePollResponse(phoneNumber, pollResponse,
    messageText)].  The call passes three arguments to the four
    parameters, so [userExists] receives the classification,
    [pollResponse] the text, and [originalMessage] is [undefined].
    [None] stands for the other branches of the webhook. *)
Definition webhookPollBranch (found : bool) (analysis : option AIAnalysis)
    (phone : string) (body : jsstring) : option (M unit) :=
  let messageText := toLowerCase body in
  match detectPollResponse messageText with
  | Some pollResponse =>
      Some (handlePollResponse found analysis phone (AString pollResponse) messageText None)
  | None => None
  end.

(* ================================================================== *)
(** * Identities and serialized operations *)

Inductive MonitoringTrack : Type :=
| Daily
| Symptom
| WeatherAlert
| AISymptom.

Definition track_eqb (a b : MonitoringTrack) : bool :=
  match a, b with
  | Daily, Daily | Symptom, Symptom | WeatherAlert, WeatherAlert
  | AISymptom, AISymptom => true
  | _, _ => false
  end.

(** The track a pending job belongs to, by the name it was enqueued
    under. *)
Definition trackOf (j : Job) : option MonitoringTrack :=
  if String.eqb (name j) "daily-health-checkup" then Some Daily
  else if String.eqb (name j) "recurring-health-monitor" then Some Symptom
  else if String.eqb (name j) "weather-alert-checkin" then Some WeatherAlert
  else if String.eqb (name j) AI_SYMPTOM then Some AISymptom
  else None.

Definition ofIdentity (phone : string) (t : MonitoringTrack) (j : Job) : bool :=
  String.eqb (phoneNumber (data j)) phone &&
  match trackOf j with
  | Some t' => track_eqb t' t
  | None => false
  end.

(** The pending jobs of an identity [(patientId, track)]. *)
Definition pendingFor (phone : string) (t : MonitoringTrack) (w : World) : list Job :=
  filter (ofIdentity phone t) (healthCronQueue w).




(** A store that answers every call, and one that answers none. *)
Definition reachable (w : World) : Prop := forall k, faults w k = false.

Definition unreachable (w : World) : Prop := forall k, faults w k = true.


(* ================================================================== *)
(** * Notions the statements are written with *)

(** A code unit that is not an ASCII capital. *)
Definition notUpper (c : N) : Prop := (c < 65 \/ 90 < c)%N.

Definition lowerText (s : jsstring) : Prop := Forall notUpper s.

Definition notUpperb (c : N) : bool := N.ltb c 65 || N.ltb 90 c.

(** A pattern written without capitals. *)
Fixpoint lowerPattern (r : regex) : bool :=
  match r with
  | Chars p => forallb notUpperb p
  | Range lo hi => true
  | Opt r1 => lowerPattern r1
  | Alt r1 r2 | Cat r1 r2 => lowerPattern r1 && lowerPattern r2
  end.

Fixpoint unitsFrom (lo : N) (n : nat) : list N :=
  match n with
  | O => []
  | S n' => lo :: unitsFrom (N.succ lo) n'
  end.

(** The finite language of a pattern. *)
Fixpoint lang (r : regex) : list jsstring :=
  match r with
  | Chars p => [p]
  | Range lo hi => map (fun c => [c]) (unitsFrom lo (N.to_nat (hi + 1 - lo)))
  | Opt r1 => lang r1 ++ [[]]
  | Alt r1 r2 => lang r1 ++ lang r2
  | Cat r1 r2 => flat_map (fun p => map (app p) (lang r2)) (lang r1)
  end.

(** [runs m w a w']: from [w] the computation returns [a] and leaves [w']. *)
Definition runs {A} (m : M A) (w : World) (a : A) (w' : World) : Prop :=
  m w = (Ret a, w').

(** Clock and fault schedule are those of [w]. *)
Definition sameEnv (w w' : World) : Prop :=
  faults w' = faults w /\ now w' = now w.

(** Nothing but the health-cron queue and the call counter changed. *)
Definition quiet (w w' : World) : Prop :=
  sameEnv w w' /\ whatsappQueue w' = whatsappQueue w /\ trace w' = trace w.

Definition removeIds (ids : list string) (q : list Job) : list Job :=
  fold_left (fun q' id => removeFirst id q') ids q.

(** The ids [cancelHealthCheckups] looks up for a tag other than
    ["all"]: the tag's own id, then the legacy ids. *)
Definition cancelIds (phone tagName : string) : list string :=
  cancelId phone tagName :: map (legacyJobId phone tagName) legacyIntervals.

(** The pending jobs a successful [cancelHealthCheckups] leaves. *)
Definition cancelled (phone tagName : string) (q : list Job) : list Job :=
  if String.eqb tagName "all"
  then removeIds (flat_map (cancelIds phone) jobTypes) q
  else removeIds (cancelIds phone tagName) q.

(** [stable P m]: whatever [m] does, returning or throwing, it keeps
    [P] true of the world. *)
Definition stable (P : World -> Prop) {A} (m : M A) : Prop :=
  forall w, P w -> P (snd (m w)).

(** The tag under which [cancelHealthCheckups] knows a track of
    [queue.js], and the job id of an identity. *)
Definition trackTag (t : MonitoringTrack) : string :=
  match t with
  | Daily => "daily"
  | Symptom => "symptom"
  | WeatherAlert => "weather-alert"
  | AISymptom => "ai-symptom"
  end.

Definition identityKey (phone : string) (t : MonitoringTrack) : string :=
  cancelId phone (trackTag t).

(** A pending job as the schedulers of [queue.js] build it: it belongs
    to one of the three tracks, sits under the id of its identity, and
    only the daily job repeats. *)
Definition canonicalJob (j : Job) : Prop :=
  exists t, trackOf j = Some t /\ t <> AISymptom /\
            jobId j = identityKey (phoneNumber (data j)) t /\
            (t = Symptom -> tag (data j) = Some "symptom"%string) /\
            (t <> Daily -> repeatEvery j = None).

(** The ids of the AI symptom monitoring: ["ai-symptom-..."]. *)
Definition aiId (id : string) : bool := String.prefix "ai-symptom-" id.

(** A job under a key of [queue.js], as opposed to an AI monitoring id. *)
Definition keyed (j : Job) : bool := negb (aiId (jobId j)).

(** A pending job as [scheduleAISymptomMonitoring] builds it. *)
Definition aiShaped (j : Job) : Prop :=
  name j = AI_SYMPTOM /\ aiId (jobId j) = true /\ repeatEvery j = None.

Definition wellFormedJob (j : Job) : Prop := canonicalJob j \/ aiShaped j.

(** No enqueue under a key of [queue.js] landed on an id that still
    had a pending job. *)
Definition noClash (evs : list Event) : Prop :=
  forall id, In (CronAdded id true) evs -> aiId id = true.

Definition uniqueIds (q : list Job) : Prop := NoDup (map jobId q).

(** The pending jobs are those the schedulers build, and the jobs of
    the three tracks of [queue.js] have pairwise different ids. *)
Definition invariant (w : World) : Prop :=
  uniqueIds (filter keyed (healthCronQueue w)) /\
  Forall wellFormedJob (healthCronQueue w) /\
  noClash (trace w).

(** The invariant on a store that answers. *)
Definition kept (w : World) : Prop := reachable w /\ invariant w.

(** [triple P m Q]: from a world with [P], whatever [m] does, returning
    or throwing, it leaves a world with [Q]. *)
Definition triple (P : World -> Prop) {A} (m : M A) (Q : World -> Prop) : Prop :=
  forall w, P w -> Q (snd (m w)).


(** A notification handed to the dispatcher for [phone]: sent through
    Twilio, or queued on the WhatsApp queue. *)
Definition isDispatchTo (phone : string) (e : Event) : Prop :=
  match e with
  | TwilioSent r _ | WhatsappQueued r _ => r = phone
  | CronAdded _ _ | CronAddFailed _ => False
  end.

(** An attempt to enqueue a check-in job, successful or not. *)
Definition isEnqueueAttempt (e : Event) : Prop :=
  match e with
  | CronAdded _ _ | CronAddFailed _ => True
  | TwilioSent _ _ | WhatsappQueued _ _ => False
  end.

(** In [evs], every attempt to enqueue comes after a dispatch to
    [phone]. *)
Definition dispatchedFirst (phone : string) (evs : list Event) : Prop :=
  forall pre e post, evs = pre ++ e :: post -> isEnqueueAttempt e ->
                     exists d, In d pre /\ isDispatchTo phone d.

(** Nothing was emitted since the trace [t0]. *)
Definition silentSince (t0 : list Event) (w : World) : Prop := trace w = t0.

(** The first event emitted since [t0] is a dispatch to [phone]. *)
Definition dispatchedSince (phone : string) (t0 : list Event) (w : World) : Prop :=
  exists d evs, trace w = t0 ++ d :: evs /\ isDispatchTo phone d.



(** The jobs the loop of [scheduleAISymptomMonitoring] builds. *)
Fixpoint aiJobsFrom (phone : string) (pd : PatientData) (a : SymptomAnalysis)
    (baseJobId : string) (i : nat) (rest : list Z) : list Job :=
  match rest with
  | [] => []
  | delayMinutes :: rest' =>
      aiJob phone pd a baseJobId i delayMinutes
      :: aiJobsFrom phone pd a baseJobId (S i) rest'
  end.






(* ================================================================== *)
(** * Sample inputs *)

Definition samplePatient : PatientData :=
  {| firstName := "Ada"; age := 70; zipcode := "10001" |}.

Definition sampleAnalysis : SymptomAnalysis :=
  {| suggestedMonitoring := AI_CRITICAL; analysisRiskLevel := "CRITICAL" |}.


(** A store that answers every call, and one that answers none. *)
Definition answering : nat -> bool := fun _ => false.
Definition silent : nat -> bool := fun _ => true.

(** A patient on a High symptom chain (5 minutes), at 09:05 local time
    of day 0. *)
Definition onHighChain (f : nat -> bool) : World :=
  {| now := 9 * 3600000 + 5 * 60000; tick := O; faults := f;
     healthCronQueue :=
       [recurringJob "+15550100" (Some "dizzy"%string) "high" "symptom" (VNum 5) 0];
     whatsappQueue := []; trace := [] |}.

(** An analysis that answers and recommends escalation to "urgent". *)
Definition urgentAnalysis : AIAnalysis :=
  {| smsMessage := Some "Rest in a cool place and drink water."%string; advice := None;
     recommendsEmergency := false; recommendsEscalate := true;
     emergencyAlert := false; escalationLevel := Some "urgent"%string |}.


(** A senior patient under a heat emergency, third check-in pending. *)
Definition heatEmergency : WaveStatus :=
  {| urgency := "emergency"; waveType := "extreme_heat" |}.

Definition onWeatherChain (f : nat -> bool) : World :=
  {| now := 0; tick := O; faults := f;
     healthCronQueue :=
       [weatherJob "+15550100" heatEmergency (Some samplePatient) (Some (VNum 15)) 3 (Some 0)];
     whatsappQueue := []; trace := [] |}.

Definition importingScope : Scope :=
  {| whatsappQueueBound := true; healthCronQueueBound := true |}.

(* ================================================================== *)
(** * More of JavaScript strings *)

(** [String.prototype.toLowerCase] as far as ASCII code units and the
    length of the result go: U+0130 is the one character whose lower
    case has two code units ("i" and U+0307), the rest is as in
    [toLowerUnit]. *)
Definition lowerUnits (c : N) : jsstring :=
  if N.eqb c 304 then [105; 775]%N else [toLowerUnit c].

Definition lowerCase (s : jsstring) : jsstring := flat_map lowerUnits s.

(** [array.some(word => text.includes(word))] *)
Definition includesAny (words : list jsstring) (text : jsstring) : bool :=
  existsb (fun word => includes word text) words.

(** [s.replace(pattern, replacement)] with a string pattern and a
    replacement without [$]: the first occurrence is replaced. *)
Fixpoint replaceFirst (pattern replacement s : jsstring) : jsstring :=
  if startsWith pattern s then replacement ++ skipn (List.length pattern) s
  else match s with
       | [] => []
       | c :: s' => c :: replaceFirst pattern replacement s'
       end.

(** [\d], and [\D] as its complement. *)
Definition isDigit (c : N) : bool := N.leb 48 c && N.leb c 57.

(** [\w] without the [u] and [i] flags. *)
Definition isWordUnit (c : N) : bool :=
  isDigit c || (N.leb 65 c && N.leb c 90) || (N.leb 97 c && N.leb c 122) || N.eqb c 95.

(** [s.split("\n")]: the pieces between line feeds, at least one. *)
Fixpoint splitLines (s : jsstring) : list jsstring :=
  match s with
  | [] => [[]]
  | c :: s' =>
      if N.eqb c 10 then [] :: splitLines s'
      else match splitLines s' with
           | line :: rest => (c :: line) :: rest
           | [] => [[c]]
           end
  end.

(** [s.replace(/\s+/g, " ")]: every maximal run of white space becomes
    one space.  [inRun] tells that the unit before was white space. *)
Fixpoint collapseFrom (inRun : bool) (s : jsstring) : jsstring :=
  match s with
  | [] => []
  | c :: s' =>
      if isWhiteSpace c
      then (if inRun then collapseFrom true s' else 32%N :: collapseFrom true s')
      else c :: collapseFrom false s'
  end.

Definition collapseSpaces (s : jsstring) : jsstring := collapseFrom false s.

(** [parts.join(separator)] *)
Fixpoint join (separator : jsstring) (parts : list jsstring) : jsstring :=
  match parts with
  | [] => []
  | [p] => p
  | p :: rest => p ++ separator ++ join separator rest
  end.

(** The code points of a UTF-8 byte sequence (well-formed input). *)
Fixpoint utf8Decode (bytes : list N) : list N :=
  match bytes with
  | [] => []
  | b0 :: rest0 =>
      if N.ltb b0 128 then b0 :: utf8Decode rest0
      else match rest0 with
           | [] => [b0]
           | b1 :: rest1 =>
               if N.ltb b0 224
               then ((b0 - 192) * 64 + (b1 - 128))%N :: utf8Decode rest1
               else match rest1 with
                    | [] => [b0; b1]
                    | b2 :: rest2 =>
                        if N.ltb b0 240
                        then ((b0 - 224) * 4096 + (b1 - 128) * 64 + (b2 - 128))%N
                               :: utf8Decode rest2
                        else match rest2 with
                             | [] => [b0; b1; b2]
                             | b3 :: rest3 =>
                                 ((b0 - 240) * 262144 + (b1 - 128) * 4096
                                  + (b2 - 128) * 64 + (b3 - 128))%N
                                   :: utf8Decode rest3
                             end
                    end
           end
  end.

(** The UTF-16 code units of a code point. *)
Definition utf16Units (cp : N) : jsstring :=
  if N.ltb cp 65536 then [cp]
  else [(55296 + (cp - 65536) / 1024)%N; (56320 + (cp - 65536) mod 1024)%N].

(** The JavaScript string of a literal of the source, which is written
    in UTF-8. *)
Definition text (s : string) : jsstring :=
  flat_map utf16Units (utf8Decode (map N_of_ascii (list_ascii_of_string s))).

(** The code points of a sequence of UTF-16 code units; a surrogate
    without its partner stands for itself. *)
Fixpoint codePoints (s : jsstring) : list N :=
  match s with
  | [] => []
  | hi :: rest =>
      match rest with
      | lo :: rest' =>
          if (N.leb 55296 hi && N.leb hi 56319 && N.leb 56320 lo && N.leb lo 57343)%bool
          then (65536 + (hi - 55296) * 1024 + (lo - 56320))%N :: codePoints rest'
          else hi :: codePoints rest
      | [] => [hi]
      end
  end.

Definition utf8Bytes (cp : N) : list N :=
  if N.ltb cp 128 then [cp]
  else if N.ltb cp 2048 then [192 + cp / 64; 128 + cp mod 64]%N
  else if N.ltb cp 65536
       then [224 + cp / 4096; 128 + (cp / 64) mod 64; 128 + cp mod 64]%N
       else [240 + cp / 262144; 128 + (cp / 4096) mod 64;
             128 + (cp / 64) mod 64; 128 + cp mod 64]%N.

(** A JavaScript string written out in UTF-8, the form in which the
    model stores a text inside a job or a message. *)
Definition utf8 (s : jsstring) : string :=
  string_of_list_ascii (map ascii_of_N (flat_map utf8Bytes (codePoints s))).

(** A line feed and a double quote inside a literal. *)
Definition nl : jsstring := [10%N].
Definition dq : jsstring := [34%N].

(** [/r/i.test(s)] for a pattern without anchors: a match may start at
    any unit and end anywhere. *)
Fixpoint search (r : regex) (s : jsstring) : bool :=
  matchFrom r s (fun _ => true) ||
  match s with
  | [] => false
  | _ :: s' => search r s'
  end.

(** [a|b|c] *)
Definition alternatives (first : string) (others : list string) : regex :=
  fold_left (fun r w => Alt r (Chars (lit w))) others (Chars (lit first)).

(* ================================================================== *)
(** * JavaScript numbers *)

From Stdlib Require Floats.

Module JSNumber.
Import PrimFloat.

(** A JavaScript number is an IEEE 754 binary64 value, which is what
    [float] is; [undefined] in a numeric comparison converts to NaN. *)
Definition jsnumber : Type := float.

(** [x >= y], [x > y], [x <= y], [x < y] on numbers. *)
Definition numGe (x y : jsnumber) : bool := leb y x.
Definition numGt (x y : jsnumber) : bool := ltb y x.
Definition numLe (x y : jsnumber) : bool := leb x y.
Definition numLt (x y : jsnumber) : bool := ltb x y.

Definition isNaN (x : jsnumber) : bool := negb (eqb x x).

(** Truthiness of a number: neither zero nor NaN. *)
Definition numTruthy (x : jsnumber) : bool := negb (eqb x 0) && negb (isNaN x).

(** [x || y] on numbers. *)
Definition numOr (x y : jsnumber) : jsnumber := if numTruthy x then x else y.

(** The number of an integer. *)
Definition ofZ (n : Z) : jsnumber :=
  FloatOps.SF2Prim (SpecFloat.binary_normalize FloatOps.prec FloatOps.emax n 0 false).

(** [Math.round(x)]: the integer closest to [x], a tie going up; an
    integral, infinite or NaN argument is returned as it is, and a
    result of zero keeps the sign of the argument. *)
Definition mathRound (x : jsnumber) : jsnumber :=
  match FloatOps.Prim2SF x with
  | SpecFloat.S754_finite s m e =>
      if (0 <=? e)%Z then x
      else
        let signed := if s then Z.neg m else Z.pos m in
        let n := Z.div (2 * signed + 2 ^ (- e)) (2 ^ (- e + 1)) in
        if (n =? 0)%Z then (if s then (-0)%float else 0%float) else ofZ n
  | _ => x
  end.

(** [Math.max(x, y)]: NaN if an argument is NaN, and [+0] above [-0]. *)
Definition mathMax (x y : jsnumber) : jsnumber :=
  if isNaN x then x
  else if isNaN y then y
  else if ltb x y then y
  else if ltb y x then x
  else if ltb (1 / x) 0 then y else x.

(** [Math.min(x, y)]: NaN if an argument is NaN, and [-0] below [+0]. *)
Definition mathMin (x y : jsnumber) : jsnumber :=
  if isNaN x then x
  else if isNaN y then y
  else if ltb x y then x
  else if ltb y x then y
  else if ltb (1 / x) 0 then x else y.

End JSNumber.
Import JSNumber.

(* ================================================================== *)
(** * Phone numbers ([services/index.js] and the onboarding endpoint) *)

Definition whatsappPrefix : jsstring := lit "whatsapp:".

(** [whatsappConfig.formatPhoneNumber(phoneNumber)] *)
Definition formatPhoneNumber (phoneNumber : jsstring) : jsstring :=
  if startsWith whatsappPrefix phoneNumber then phoneNumber
  else whatsappPrefix ++ phoneNumber.

(** [whatsappConfig.extractPhoneNumber(whatsappNumber)] *)
Definition extractPhoneNumber (whatsappNumber : jsstring) : jsstring :=
  replaceFirst whatsappPrefix [] whatsappNumber.

(** [phoneNumber.replace(/\D/g, "")] *)
Definition cleanPhone (phoneNumber : jsstring) : jsstring :=
  filter isDigit phoneNumber.

(** [formattedPhone] of [POST /api/onboarding]. *)
Definition formattedPhone (phoneNumber : jsstring) : jsstring :=
  let clean := cleanPhone phoneNumber in
  if startsWith (lit "1") clean then lit "+" ++ clean else lit "+1" ++ clean.

(** A message with the given body. *)
Definition textMsg (body : jsstring) : Msg := AIResponseMsg (utf8 body).

(* ================================================================== *)
(** * The HeatCare risk model ([services/heatcareAI.js]) *)

Module HeatCareAI.
Import PrimFloat.
#[local] Set Warnings "-inexact-float".
Local Open Scope float_scope.

Definition maxResponseLength : nat := 160.

(** [RISK_THRESH] *)
Definition RISK_THRESH_MED : jsnumber := 0.45.
Definition RISK_THRESH_HIGH : jsnumber := 0.7.

Definition HEAT_WAVE_THRESHOLD : jsnumber := 95.
Definition EXTREME_HEAT_THRESHOLD : jsnumber := 105.
Definition COLD_WAVE_THRESHOLD : jsnumber := 32.
Definition EXTREME_COLD_THRESHOLD : jsnumber := 10.

Definition EMERGENCY_EN : jsstring :=
  text "Please seek help now. If severe (fainting, confusion, trouble breathing), call 911. While waiting: move to AC, loosen clothes, and sip water.".

Inductive Band : Type :=
| HIGH
| MED
| LOW.

(** [band.toLowerCase()] *)
Definition lowerBand (b : Band) : string :=
  match b with
  | HIGH => "high"
  | MED => "med"
  | LOW => "low"
  end.

Record Risk : Type := {
  score : jsnumber;
  band : Band
}.

(** [age !== null && age >= 65]; [None] is [null]. *)
Definition senior (age : option jsnumber) : bool :=
  match age with
  | Some a => numGe a 65
  | None => false
  end.

(** The sum [riskScore] accumulates, before it is rounded. *)
Definition rawScore (age : option jsnumber) (feelsLike : jsnumber)
    (hasSymptom severe : bool) : jsnumber :=
  let score := 0.1 in
  let score :=
    if numGe feelsLike 105 then score + 0.35
    else if numGe feelsLike 100 then score + 0.25
    else if numGe feelsLike 95 then score + 0.15
    else score in
  let score := if senior age then score + 0.2 else score in
  let score := if hasSymptom then score + 0.2 else score in
  if severe then score + 0.3 else score.

(** [riskScore(age, feelsLike, hasSymptom, severe)] *)
Definition riskScore (age : option jsnumber) (feelsLike : jsnumber)
    (hasSymptom severe : bool) : Risk :=
  let score := rawScore age feelsLike hasSymptom severe in
  {| score := mathRound (score * 100) / 100;
     band := if numGe score RISK_THRESH_HIGH then HIGH
             else if numGe score RISK_THRESH_MED then MED
             else LOW |}.

(** The keys of [keywords], in the order of the object literal. *)
Inductive Category : Type :=
| Dizziness
| Headache
| Nausea
| Cramps
| Weakness
| Confusion
| Breathing
| Fainting
| Fever.

Definition categoryName (c : Category) : string :=
  match c with
  | Dizziness => "dizziness"
  | Headache => "headache"
  | Nausea => "nausea"
  | Cramps => "cramps"
  | Weakness => "weakness"
  | Confusion => "confusion"
  | Breathing => "breathing"
  | Fainting => "fainting"
  | Fever => "fever"
  end.

Definition keywordOrder : list Category :=
  [Dizziness; Headache; Nausea; Cramps; Weakness; Confusion; Breathing; Fainting; Fever].

Definition keywords (c : Category) : list jsstring :=
  match c with
  | Dizziness => [lit "dizzy"; lit "lightheaded"; lit "light-headed"; lit "vertigo"]
  | Headache => [lit "headache"; lit "migraine"]
  | Nausea => [lit "nausea"; lit "nauseous"; lit "vomit"; lit "throwing up"]
  | Cramps => [lit "cramp"; lit "muscle spasm"; lit "spasm"]
  | Weakness => [lit "weak"; lit "fatigued"; lit "exhausted"; lit "tired"]
  | Confusion => [lit "confused"; lit "disoriented"; lit "can't think"]
  | Breathing => [lit "trouble breathing"; lit "short of breath"; lit "can't breathe"]
  | Fainting => [lit "faint"; lit "passed out"; lit "feel faint"]
  | Fever => [lit "fever"; lit "hot to touch"]
  end.

Definition sameCategory (a b : Category) : bool :=
  String.eqb (categoryName a) (categoryName b).

Definition hasCategory (c : Category) (cs : list Category) : bool :=
  existsb (sameCategory c) cs.

(** The number of matches of [/\w+/g]: the maximal runs of word
    units. *)
Fixpoint countWords (inWord : bool) (s : jsstring) : nat :=
  match s with
  | [] => O
  | c :: s' =>
      if isWordUnit c
      then (if inWord then countWords true s' else S (countWords true s'))
      else countWords false s'
  end.

(** [array.sort()] on category names: an insertion sort by the order
    of their code units. *)
Fixpoint insertCategory (c : Category) (sorted : list Category) : list Category :=
  match sorted with
  | [] => [c]
  | d :: rest =>
      if String.leb (categoryName c) (categoryName d) then c :: sorted
      else d :: insertCategory c rest
  end.

Definition sortCategories (cs : list Category) : list Category :=
  fold_right insertCategory [] cs.

Definition severeCategories : list Category := [Confusion; Breathing; Fainting].

Record Extraction : Type := {
  has_symptom : bool;
  severe : bool;
  categories : list Category
}.

(** [heuristicExtractor(text)]; a missing text reads as the empty
    string. *)
Definition heuristicExtractor (symptomText : jsstring) : Extraction :=
  let t := trim (lowerCase symptomText) in
  let wordLike := countWords false t in
  let has := (12 <=? List.length t)%nat || (2 <=? wordLike)%nat in
  let found := filter (fun c => includesAny (keywords c) t) keywordOrder in
  {| has_symptom := has || (0 <? List.length found)%nat;
     severe := existsb (fun c => hasCategory c found) severeCategories;
     categories := sortCategories found |}.

(** [formatForSMS(text)]; a missing text is the empty string. *)
Definition isMarkdown (c : N) : bool := existsb (N.eqb c) [42; 95; 126; 96]%N.

Definition fallbackAdvice : jsstring :=
  text "Please seek medical attention if symptoms persist.".

Definition formatForSMS (message : jsstring) : jsstring :=
  match message with
  | [] => fallbackAdvice
  | _ :: _ =>
      let message :=
        if (maxResponseLength <? List.length message)%nat
        then firstn (maxResponseLength - 3) message ++ text "..."
        else message in
      let message := filter (fun c => negb (isMarkdown c)) message in
      trim (collapseSpaces message)
  end.

Section Rendering.

(** The decimal text of a number inside a template literal
    ([Number::toString]), which the model leaves open. *)
Variable toString : jsnumber -> jsstring.

Definition perSymptom (c : Category) : option jsstring :=
  match c with
  | Dizziness => Some (text "Lie down or sit, cool your body (cool cloths/tepid shower).")
  | Headache => Some (text "Dim lights and cool down; small sips if nausea.")
  | Nausea => Some (text "Small, frequent sips; avoid caffeine/alcohol.")
  | Cramps => Some (text "Gently stretch and take electrolytes if available.")
  | Weakness => Some (text "Sit or lie down; avoid exertion and heat exposure.")
  | Fever => Some (text "Cool cloths/tepid shower; avoid ice baths.")
  | _ => None
  end.

Definition snippets (cs : list Category) : list jsstring :=
  flat_map (fun c => match perSymptom c with
                     | Some s => [s]
                     | None => []
                     end) cs.

(** [composeSymptomAdvice(feelsLike, band, categories)] *)
Definition composeSymptomAdvice (feelsLike : jsnumber) (b : Band)
    (cs : list Category) : jsstring :=
  let base := text "Feels-like " ++ toString feelsLike ++ text "°F. " in
  let core := text "Sip water or oral rehydration, rest in AC or a cool place." in
  let severeAlert := text "If confusion, fainting, or trouble breathing, call 911." in
  let chosen := firstn 2 (snippets cs) in
  let sentence := trim (join (text " ") (core :: chosen)) in
  let sentence :=
    match b with
    | HIGH => sentence ++ text " If you feel worse or can't keep fluids down, seek urgent care."
    | _ => sentence
    end in
  let hasSevere := existsb (fun c => hasCategory c cs) severeCategories in
  trim (base ++ sentence ++ (if hasSevere then text " " ++ severeAlert else [])).

Record MedicalResponse : Type := {
  smsMessage : jsstring;
  riskLevel : string;
  urgency : string;
  emergencyAlert : bool;
  escalationLevel : string;
  nextCheckInHours : jsnumber;
  confidence : jsnumber;
  monitoringRecommendation : string;
  advice : jsstring
}.

(** [generateMedicalResponse(patientData, symptomText, weatherContext)]
    once [feelsLike] is known: it is [weatherContext.feelsLike] or the
    estimate of the weather service. *)
Definition generateMedicalResponse (age : option jsnumber) (symptomText : jsstring)
    (feelsLike : jsnumber) : MedicalResponse :=
  let symptomResult := heuristicExtractor symptomText in
  if severe symptomResult then
    {| smsMessage := EMERGENCY_EN; riskLevel := "emergency"; urgency := "emergency";
       emergencyAlert := true; escalationLevel := "emergency";
       nextCheckInHours := 0.5; confidence := 0.95;
       monitoringRecommendation := "immediate"; advice := EMERGENCY_EN |}
  else
    let risk := riskScore age feelsLike (has_symptom symptomResult) (severe symptomResult) in
    let isHigh := match band risk with HIGH => true | _ => false end in
    let message :=
      if has_symptom symptomResult
      then composeSymptomAdvice feelsLike (band risk) (categories symptomResult)
      else text "Today's peak feels-like ~" ++ toString feelsLike
             ++ text "°F. Plan errands early/late, drink water often, and find AC." in
    let hours :=
      if has_symptom symptomResult
      then match band risk with HIGH => 2 | MED => 3 | LOW => 6 end
      else 24 in
    {| smsMessage := formatForSMS message;
       riskLevel := lowerBand (band risk);
       urgency := if has_symptom symptomResult && isHigh then "urgent" else "routine";
       emergencyAlert := false;
       escalationLevel :=
         if has_symptom symptomResult
         then (if isHigh then "urgent" else "monitor")
         else "none";
       nextCheckInHours := hours;
       confidence := 0.9;
       monitoringRecommendation :=
         match band risk with HIGH => "frequent" | MED => "standard" | LOW => "minimal" end;
       advice := formatForSMS message |}.

End Rendering.

End HeatCareAI.

(* ================================================================== *)
(** * The guard rails of [analyzeSymptoms] ([utils/medgemmaAnalysis]) *)

(** [toLowerCase] on a token written in ASCII. *)
Definition lowerAscii (c : ascii) : ascii :=
  let n := nat_of_ascii c in
  if ((65 <=? n) && (n <=? 90))%nat then ascii_of_nat (n + 32) else c.

Fixpoint lowerToken (s : string) : string :=
  match s with
  | EmptyString => EmptyString
  | String c s' => String (lowerAscii c) (lowerToken s')
  end.

Module MedGemmaAnalysis.
Import PrimFloat.
#[local] Set Warnings "-inexact-float".
Local Open Scope float_scope.

(** The reply of the Gemini service, as far as it is read; a missing
    message is the empty string and a missing confidence is NaN. *)
Record GeminiResponse : Type := {
  geminiMessage : jsstring;
  geminiConfidence : jsnumber
}.

(** The object [aiResponse] that the guard rails update in place. *)
Record AiResponse : Type := {
  smsMessage : jsstring;
  riskLevel : string;
  urgency : string;
  confidence : jsnumber;
  emergencyAlert : bool;
  monitoringRecommendation : string;
  escalationLevel : string;
  nextCheckInHours : jsnumber
}.

Definition combine (gemini : GeminiResponse) (heatcare : HeatCareAI.MedicalResponse)
  : AiResponse :=
  {| smsMessage := geminiMessage gemini;
     riskLevel := HeatCareAI.riskLevel heatcare;
     urgency := HeatCareAI.urgency heatcare;
     confidence := mathMax (numOr (geminiConfidence gemini) 0.8)
                           (numOr (HeatCareAI.confidence heatcare) 0.8);
     emergencyAlert := HeatCareAI.emergencyAlert heatcare;
     monitoringRecommendation := HeatCareAI.monitoringRecommendation heatcare;
     escalationLevel := HeatCareAI.escalationLevel heatcare;
     nextCheckInHours := HeatCareAI.nextCheckInHours heatcare |}.

Definition emergencyKeywords : list jsstring :=
  [lit "911"; lit "emergency"; lit "call doctor"; lit "hospital"; lit "ambulance"].

Definition urgentHeatSymptoms : list jsstring :=
  [lit "dizzy"; lit "dizziness"; lit "dizzy spells"; lit "drowsy"; lit "drowsiness";
   lit "sleepy"; lit "weak"; lit "weakness"; lit "feel weak"; lit "faint";
   lit "fainting"; lit "feel faint"; lit "nauseous"; lit "nausea"; lit "feel sick";
   lit "tired"; lit "exhausted"; lit "fatigue"].

Definition severeSymptoms : list jsstring :=
  [lit "chest pain"; lit "can't breathe"; lit "trouble breathing"; lit "confused";
   lit "confusion"; lit "disoriented"].

(** Override on an emergency keyword. *)
Definition keywordRail (userInput : jsstring) (r : AiResponse) : AiResponse :=
  if includesAny emergencyKeywords (lowerCase userInput)
     && negb (String.eqb (urgency r) "emergency")
  then {| smsMessage := smsMessage r; riskLevel := riskLevel r;
          urgency := "emergency"; confidence := confidence r;
          emergencyAlert := true;
          monitoringRecommendation := monitoringRecommendation r;
          escalationLevel := "emergency";
          nextCheckInHours := nextCheckInHours r |}
  else r.

(** Forced urgency on a heat symptom. *)
Definition urgentRail (userInput : jsstring) (r : AiResponse) : AiResponse :=
  if includesAny urgentHeatSymptoms (lowerCase userInput)
     && (String.eqb (riskLevel r) "low" || String.eqb (urgency r) "routine")
  then {| smsMessage := smsMessage r; riskLevel := "high";
          urgency := "urgent"; confidence := confidence r;
          emergencyAlert := emergencyAlert r;
          monitoringRecommendation := monitoringRecommendation r;
          escalationLevel := "urgent";
          nextCheckInHours := 0.5 |}
  else r.

(** Forced emergency on a severe symptom. *)
Definition severeRail (userInput : jsstring) (r : AiResponse) : AiResponse :=
  if includesAny severeSymptoms (lowerCase userInput)
     && negb (String.eqb (riskLevel r) "emergency")
  then {| smsMessage := smsMessage r; riskLevel := "emergency";
          urgency := "emergency"; confidence := confidence r;
          emergencyAlert := emergencyAlert r;
          monitoringRecommendation := monitoringRecommendation r;
          escalationLevel := "emergency";
          nextCheckInHours := nextCheckInHours r |}
  else r.

Definition guardRails (userInput : jsstring) (r : AiResponse) : AiResponse :=
  severeRail userInput (urgentRail userInput (keywordRail userInput r)).

Record RiskSummary : Type := {
  level : string;
  band : string;
  score : jsnumber
}.

Record Recommendations : Type := {
  escalate : bool;
  emergency : bool;
  continueMonitoring : bool
}.

Record Analysis : Type := {
  analysisMessage : jsstring;
  advice : jsstring;
  risk : RiskSummary;
  analysisUrgency : string;
  analysisEmergencyAlert : bool;
  analysisEscalationLevel : string;
  monitoringInterval : jsnumber;
  timestamp : Z;
  usedMedGemma : bool;
  recommendations : Recommendations
}.

Definition summarize (clock : Z) (r : AiResponse) : Analysis :=
  {| analysisMessage := smsMessage r;
     advice := smsMessage r;
     risk := {| level := lowerToken (riskLevel r); band := riskLevel r;
                score := confidence r |};
     analysisUrgency := urgency r;
     analysisEmergencyAlert := emergencyAlert r;
     analysisEscalationLevel := escalationLevel r;
     monitoringInterval := numOr (nextCheckInHours r * 60) 1440;
     timestamp := clock;
     usedMedGemma := true;
     recommendations :=
       {| escalate := String.eqb (urgency r) "urgent" || String.eqb (urgency r) "emergency";
          emergency := emergencyAlert r;
          continueMonitoring := negb (String.eqb (monitoringRecommendation r) "minimal") |} |}.

(** [analyzeSymptoms(userInput, patientData, weatherData)] on the
    replies of the two services; [None] for a service that throws, and
    [None] as a result when the function throws. *)
Definition analyzeSymptoms (clock : Z) (userInput : jsstring)
    (gemini : option GeminiResponse) (heatcare : option HeatCareAI.MedicalResponse)
  : option Analysis :=
  match gemini, heatcare with
  | Some g, Some h =>
      let aiResponse := combine g h in
      match smsMessage aiResponse with
      | [] => None
      | _ :: _ => Some (summarize clock (guardRails userInput aiResponse))
      end
  | _, _ => None
  end.

End MedGemmaAnalysis.

(* ================================================================== *)
(** * The message branches of the WhatsApp webhook *)

Module Webhook.

Definition healthSymptoms : list jsstring :=
  [lit "dizzy"; lit "dizziness"; lit "headache"; lit "nausea"; lit "vomiting";
   lit "chest pain"; lit "difficulty breathing"; lit "confused"; lit "weak";
   lit "faint"; lit "tired"; lit "hot"; lit "fever"; lit "sick"; lit "pain";
   lit "hurt"; lit "sweating"; lit "thirsty"].

Definition emergencyKeywords : list jsstring :=
  [lit "911"; lit "emergency"; lit "chest pain"; lit "can't breathe"; lit "fainting"].

Definition helpText : jsstring :=
  text "🌡️ *Climate Health Alerts Help* 📱" ++ nl ++ nl ++ text "Available commands:" ++
  nl ++ text "• Send symptoms for health guidance" ++ nl ++
  text "• 'status' - Check your health status" ++ nl ++
  text "• 'stop' - Pause all alerts" ++ nl ++
  text "• 'stop daily' - Disable daily checkups" ++ nl ++
  text "• 'start' - Resume alerts" ++ nl ++
  text "• 'start daily' - Enable daily checkups" ++ nl ++ nl ++
  text "🆘 Emergency: Call 911" ++ nl ++
  text "💡 Tips: Stay hydrated, seek shade, avoid heavy activity during heat waves.".

Definition dailyDisabledText : jsstring :=
  text "⏸️ Daily checkups disabled." ++ nl ++ nl ++
  text "💡 You'll still receive symptom-based monitoring if needed." ++ nl ++ nl ++
  text "Send 'start daily' to re-enable daily checkups.".

Definition dailyEnabledText : jsstring :=
  text "✅ Daily checkups enabled!" ++ nl ++ nl ++
  text "🌅 You'll receive a daily health check at 9:00 AM." ++ nl ++ nl ++
  text "This is separate from any symptom monitoring.".

Definition pausedText : jsstring :=
  text "⏸️ All health alerts paused." ++ nl ++ nl ++
  text "Send 'start' to resume alerts anytime." ++ nl ++ nl ++
  text "⚠️ Remember: This doesn't affect emergency services. Call 911 for emergencies.".

Definition resumedText : jsstring :=
  text "✅ Health alerts resumed!" ++ nl ++ nl ++
  text "🌅 Daily checkups enabled at 9:00 AM" ++ nl ++
  text "💡 Symptom monitoring will activate as needed" ++ nl ++ nl ++
  text "Stay safe! 🌡️💙".

Definition unavailableText : jsstring :=
  text "⚠️ Service temporarily unavailable. For health emergencies, call 911. Please try again in a few minutes.".

Definition emergencyDetectedText : jsstring :=
  text "🚨 EMERGENCY DETECTED: Call 911 immediately if you're having chest pain, trouble breathing, or fainting. Get medical help now!".

Definition healthUnavailableText : jsstring :=
  text "⚠️ Health service temporarily unavailable. If this is urgent, call 911. For non-urgent symptoms, please try again in a few minutes.".

(** The branch the webhook takes on a non-empty [Body], once the
    registration patterns have not answered the message. *)
Inductive Branch : Type :=
| PollReply (pollResponse : jsstring)
| HealthReport
| Help
| StopDaily
| StartDaily
| StopAll
| StartAll
| General.

Definition messageBranch (body : jsstring) : Branch :=
  match detectPollResponse (toLowerCase body) with
  | Some pollResponse => PollReply pollResponse
  | None =>
      let messageText := lowerCase body in
      if includesAny healthSymptoms messageText then HealthReport
      else if includes (lit "help") messageText || includes (lit "info") messageText
           then Help
      else if includes (lit "stop daily") messageText then StopDaily
      else if includes (lit "start daily") messageText then StartDaily
      else if includes (lit "stop") messageText then StopAll
      else if includes (lit "start") messageText then StartAll
      else General
  end.

(** [updatePatientRiskData]: an update, a lookup and an insert in a
    [try] whose [catch] only logs. *)
Definition updatePatientRiskData : M unit :=
  catch (call DbError ;; call DbError ;; call DbError) (fun _ => ret tt).

(** [aiAnalysis.smsMessage || aiAnalysis.advice] *)
Definition responseMessage (a : MedGemmaAnalysis.Analysis) : jsstring :=
  match MedGemmaAnalysis.analysisMessage a with
  | [] => MedGemmaAnalysis.advice a
  | _ :: _ => MedGemmaAnalysis.analysisMessage a
  end.

(** [aiAnalysis.escalationLevel || (aiAnalysis.emergencyAlert ?
    "emergency" : "medium")] *)
Definition chosenLevel (a : MedGemmaAnalysis.Analysis) : string :=
  match MedGemmaAnalysis.analysisEscalationLevel a with
  | EmptyString =>
      if MedGemmaAnalysis.analysisEmergencyAlert a then "emergency" else "medium"
  | level => level
  end.

(** The [try] of the two branches that call [analyzeSymptoms];
    [analysis] is what the call returns, [None] when it throws. *)
Definition analysed (analysis : option MedGemmaAnalysis.Analysis)
  : M MedGemmaAnalysis.Analysis :=
  match analysis with
  | Some a =>
      match responseMessage a with
      | [] => throw ServiceError
      | _ :: _ => ret a
      end
  | None => throw ServiceError
  end.

(** The branch of a message that names a health symptom. *)
Definition healthReport (analysis : option MedGemmaAnalysis.Analysis)
    (phone : string) (body : jsstring) : M unit :=
  catch
    (a <- analysed analysis ;;
     updatePatientRiskData ;;
     whatsappAdd phone (textMsg (responseMessage a)) None ;;
     scheduleHealthCheckup phone (Some (utf8 body)) (Some (chosenLevel a))
                           (Some "symptom"%string))
    (fun _ =>
       whatsappAdd phone
         (textMsg (if includesAny emergencyKeywords (lowerCase body)
                   then emergencyDetectedText else healthUnavailableText)) None ;;
       scheduleHealthCheckup phone (Some (utf8 body)) (Some "medium"%string)
                             (Some "symptom"%string)).

(** The last branch: a reply of the analysis and nothing else. *)
Definition generalReply (analysis : option MedGemmaAnalysis.Analysis)
    (phone : string) : M unit :=
  catch
    (a <- analysed analysis ;;
     whatsappAdd phone (textMsg (responseMessage a)) None)
    (fun _ => whatsappAdd phone (textMsg unavailableText) None).

(** [if (Body) { ... }] of the webhook.  [found] is the answer of the
    patient lookup inside [handlePollResponse]. *)
Definition processMessageContent (found : bool)
    (analysis : option MedGemmaAnalysis.Analysis) (phone : string) (body : jsstring)
  : M unit :=
  match body with
  | [] => ret tt
  | _ :: _ =>
      match messageBranch body with
      | PollReply pollResponse =>
          handlePollResponse found None phone (AString pollResponse) (toLowerCase body) None
      | HealthReport => healthReport analysis phone body
      | Help => whatsappAdd phone (textMsg helpText) None
      | StopDaily =>
          cancelHealthCheckups phone "daily" ;;
          whatsappAdd phone (textMsg dailyDisabledText) None
      | StartDaily =>
          scheduleDailyCheckup phone ;;
          whatsappAdd phone (textMsg dailyEnabledText) None
      | StopAll =>
          prismaCreate ;;
          cancelHealthCheckups phone "all" ;;
          whatsappAdd phone (textMsg pausedText) None
      | StartAll =>
          prismaCreate ;;
          scheduleDailyCheckup phone ;;
          whatsappAdd phone (textMsg resumedText) None
      | General => generalReply analysis phone
      end
  end.

End Webhook.

(* ================================================================== *)
(** * Heat alerts for seniors ([services/seniorHeatAlerts.js]) *)

Module SeniorHeatAlerts.
Import PrimFloat.
Local Open Scope float_scope.

Definition SENIOR_HEAT_THRESHOLD : jsnumber := 90.
Definition SENIOR_EXTREME_THRESHOLD : jsnumber := 100.

(** [SENIOR_CHECKIN_INTERVALS], in minutes. *)
Definition INTERVAL_extreme : Z := 15.
Definition INTERVAL_high : Z := 30.
Definition INTERVAL_warning : Z := 60.
Definition INTERVAL_normal : Z := 240.

(** What these functions read of the heat-wave report. *)
Record HeatWaveData : Type := {
  maxFeelsLike : jsnumber
}.

(** The senior: the patient record of the scheduler, and the two
    arrays that say what the senior suffers from and takes. *)
Record SeniorData : Type := {
  patient : PatientData;
  chronicConditions : option (list string);
  medications : option (list string)
}.

(** The [for] loop of [formatForSMS]: lines are added while the text
    with the next line stays within 280 units. *)
Fixpoint takeLines (truncated : jsstring) (lines : list jsstring) : jsstring :=
  match lines with
  | [] => truncated
  | line :: rest =>
      if (280 <? List.length (truncated ++ line))%nat then truncated
      else takeLines (truncated ++ line ++ nl) rest
  end.

(** [formatForSMS(message)] *)
Definition formatForSMS (message : jsstring) : jsstring :=
  if (300 <? List.length message)%nat
  then trim (takeLines [] (splitLines message)) ++ text "..."
  else message.

Definition highRiskConditions : list string :=
  ["heart_disease"; "diabetes"; "kidney_disease"; "copd"]%string.

Definition riskPoints (heatWave : HeatWaveData) (senior : SeniorData) : Z :=
  let riskScore := 0%Z in
  let riskScore :=
    if (75 <=? age (patient senior))%Z then (riskScore + 3)%Z
    else if (65 <=? age (patient senior))%Z then (riskScore + 2)%Z
    else riskScore in
  let riskScore :=
    match chronicConditions senior with
    | Some conditions =>
        (riskScore
         + Z.of_nat (List.length
                       (filter (fun condition =>
                                  existsb (String.eqb condition) highRiskConditions)
                               conditions)))%Z
    | None => riskScore
    end in
  let riskScore :=
    match medications senior with
    | Some meds => if (2 <? List.length meds)%nat then (riskScore + 1)%Z else riskScore
    | None => riskScore
    end in
  if numGe (maxFeelsLike heatWave) SENIOR_EXTREME_THRESHOLD then (riskScore + 3)%Z
  else if numGe (maxFeelsLike heatWave) SENIOR_HEAT_THRESHOLD then (riskScore + 2)%Z
  else riskScore.

(** [assessSeniorHeatRisk(heatWaveData, seniorData)] *)
Definition assessSeniorHeatRisk (heatWave : HeatWaveData) (senior : SeniorData) : string :=
  let riskScore := riskPoints heatWave senior in
  if (6 <=? riskScore)%Z then "critical"
  else if (4 <=? riskScore)%Z then "high"
  else if (2 <=? riskScore)%Z then "medium"
  else "low".

Record Alert : Type := {
  message : jsstring;
  alertUrgency : string;
  riskLevel : string;
  checkInMinutes : Z;
  heatWaveData : option HeatWaveData;
  seniorSpecific : bool
}.

(** [getSafetyFallbackMessage(seniorData)] *)
Definition getSafetyFallbackMessage (senior : SeniorData) : Alert :=
  {| message :=
       formatForSMS
         (text "Hi " ++ text (firstName (patient senior))
          ++ text "! Weather system unavailable. SAFETY REMINDER: Stay indoors during hot weather, drink water hourly, and call 911 if you feel unwell. Stay safe!");
     alertUrgency := "routine";
     riskLevel := "unknown";
     checkInMinutes := INTERVAL_normal;
     heatWaveData := None;
     seniorSpecific := true |}.

Record Response : Type := {
  responseMessage : jsstring;
  nextCheckInMinutes : Z;
  responseUrgency : string;
  escalate : bool
}.

(** [processSeniorHealthResponse(response, heatWaveData, seniorData)] *)
Definition processSeniorHealthResponse (response : jsstring) (heatWave : HeatWaveData)
    (senior : SeniorData) : Response :=
  let name := text (firstName (patient senior)) in
  let feelsLike := maxFeelsLike heatWave in
  let extremeHeat := numGe feelsLike SENIOR_EXTREME_THRESHOLD in
  let heat := numGe feelsLike SENIOR_HEAT_THRESHOLD in
  let reply :=
    if jseqb response (lit "1") then
      (text "Wonderful " ++ name ++ text "! Keep staying cool and hydrated. "
       ++ (if heat
           then text "Continue avoiding outdoor activity during peak heat (11am-6pm)."
           else []),
       if heat then INTERVAL_high else INTERVAL_normal,
       "routine"%string)
    else if jseqb response (lit "2") then
      (text "Thanks for the update " ++ name
       ++ text ". Stay in the coolest room, drink water frequently. "
       ++ (if extremeHeat
           then text "Consider calling a family member to check on you."
           else []),
       if extremeHeat then INTERVAL_extreme else INTERVAL_high,
       if extremeHeat then "high"%string else "medium"%string)
    else if jseqb response (lit "3") then
      (name ++ text ", I'm concerned about you. "
       ++ (if extremeHeat
           then text "🚨 PLEASE CALL 911 if you feel dizzy, confused, or nauseous. Get to AC immediately and have someone check on you."
           else text "Move to the coolest place available, drink cool water, and consider contacting your doctor or a family member."),
       if extremeHeat then INTERVAL_extreme else INTERVAL_high,
       if extremeHeat then "emergency"%string else "high"%string)
    else
      (name ++ text ", I didn't understand your response. Please reply 1, 2, or 3 to let me know how you're feeling.",
       INTERVAL_high,
       "medium"%string) in
  {| responseMessage := formatForSMS (fst (fst reply));
     nextCheckInMinutes := snd (fst reply);
     responseUrgency := snd reply;
     escalate := jseqb response (lit "3") && extremeHeat |}.

Section Rendering.

(** [Number::toString], left open. *)
Variable toString : jsnumber -> jsstring.

(** [generateSeniorHealthCheckin(heatWaveData, seniorData)] *)
Definition generateSeniorHealthCheckin (heatWave : HeatWaveData) (senior : SeniorData)
  : jsstring :=
  let feelsLike := maxFeelsLike heatWave in
  let opening :=
    text "Hi " ++ text (firstName (patient senior)) ++ text "! Heat safety check ("
    ++ toString feelsLike ++ text "°F feels like):" ++ nl ++ nl in
  formatForSMS
    (opening ++
     if numGe feelsLike SENIOR_EXTREME_THRESHOLD then
       text "🚨 URGENT CHECK-IN:" ++ nl ++
       text "Are you safe and cool right now?" ++ nl ++ nl ++
       text "Reply:" ++ nl ++
       text "1 = Yes, I'm cool & safe" ++ nl ++
       text "2 = I'm warm but OK" ++ nl ++
       text "3 = I need help/feel unwell"
     else if numGe feelsLike SENIOR_HEAT_THRESHOLD then
       text "⚠️ HEAT WAVE CHECK-IN:" ++ nl ++
       text "How are you feeling in this heat?" ++ nl ++ nl ++
       text "Reply:" ++ nl ++
       text "1 = Great, staying cool" ++ nl ++
       text "2 = A little warm" ++ nl ++
       text "3 = Not feeling well"
     else
       text "☀️ DAILY WELLNESS CHECK:" ++ nl ++
       text "How are you feeling today?" ++ nl ++ nl ++
       text "Reply:" ++ nl ++
       text "1 = Feeling great" ++ nl ++
       text "2 = Doing OK" ++ nl ++
       text "3 = Could be better").

(** [generateSeniorHeatAlert(zipcode, seniorData)]; [report] is what
    [weatherService.detectHeatWave(zipcode)] answers, [None] when it
    throws. *)
Definition generateSeniorHeatAlert (report : option HeatWaveData) (zipcode : jsstring)
    (senior : SeniorData) : Alert :=
  match report with
  | None => getSafetyFallbackMessage senior
  | Some heatWave =>
      let feelsLike := maxFeelsLike heatWave in
      let shown := toString feelsLike in
      let extremeHeat := numGe feelsLike SENIOR_EXTREME_THRESHOLD in
      let heat := numGe feelsLike SENIOR_HEAT_THRESHOLD in
      let greeting := text "Hi " ++ text (firstName (patient senior)) ++ text "! " in
      let body :=
        if extremeHeat then
          text "🚨 EXTREME HEAT EMERGENCY: " ++ shown ++ text "°F in ZIP " ++ zipcode
          ++ text "!" ++ nl ++ nl ++
          text "💡 IMMEDIATE ACTIONS:" ++ nl ++
          text "• Stay indoors with AC/fan" ++ nl ++
          text "• Drink water every 15 mins" ++ nl ++
          text "• Call 911 if dizzy/confused" ++ nl ++
          text "• Have emergency contact ready"
        else if heat then
          text "⚠️ HEAT WAVE ALERT: " ++ shown ++ text "°F feels like in ZIP " ++ zipcode
          ++ text "." ++ nl ++ nl ++
          text "🛡️ SENIOR SAFETY PLAN:" ++ nl ++
          text "• Stay cool indoors 11am-6pm" ++ nl ++
          text "• Drink water hourly" ++ nl ++
          text "• Check on neighbors" ++ nl ++
          text "• Wear light colors if outside"
        else
          text "🌤️ Weather check for ZIP " ++ zipcode ++ text ": " ++ shown
          ++ text "°F expected today." ++ nl ++ nl ++
          text "☀️ DAILY REMINDERS:" ++ nl ++
          text "• Stay hydrated" ++ nl ++
          text "• Take breaks in shade" ++ nl ++
          text "• Have a great day!" in
      let takesMedication :=
        match medications senior with
        | Some meds => (0 <? List.length meds)%nat
        | None => false
        end in
      let note :=
        if takesMedication && heat
        then nl ++ nl ++ text "💊 NOTE: Heat may affect your medications. Stay extra cool!"
        else [] in
      {| message := formatForSMS (greeting ++ body ++ note);
         alertUrgency := if extremeHeat then "emergency"
                         else if heat then "high" else "routine";
         riskLevel := assessSeniorHeatRisk heatWave senior;
         checkInMinutes := if extremeHeat then INTERVAL_extreme
                           else if heat then INTERVAL_high else INTERVAL_normal;
         heatWaveData := Some heatWave;
         seniorSpecific := true |}
  end.

(** An answer of the weather service, or its failure. *)
Definition reading (report : option HeatWaveData) : M HeatWaveData :=
  match report with
  | Some heatWave => ret heatWave
  | None => throw ServiceError
  end.

(** [scheduleSeniorHeatMonitoring(phoneNumber, zipcode, seniorData)].
    The weather service is asked twice, here and inside
    [generateSeniorHeatAlert]: [first] and [second] are its answers. *)
Definition scheduleSeniorHeatMonitoring (first second : option HeatWaveData)
    (phone : string) (zipcode : jsstring) (senior : SeniorData) : M (option Alert) :=
  rethrowing
    (heatWave <- reading first ;;
     if numGe (maxFeelsLike heatWave) SENIOR_HEAT_THRESHOLD then
       let alert := generateSeniorHeatAlert second zipcode senior in
       scheduleWeatherAlertCheckin phone
         {| urgency := alertUrgency alert; waveType := "senior_heat_monitoring" |}
         (patient senior) ;;
       ret (Some alert)
     else ret None).

End Rendering.

End SeniorHeatAlerts.

(* ================================================================== *)
(** * The symptom analyzer of the AI monitoring ([AISymptomAnalyzer]) *)

Module AISymptomAnalyzer.
Import PrimFloat.
#[local] Set Warnings "-inexact-float".
Local Open Scope float_scope.

(** An entry of [AI_MONITORING_PATTERNS]: the pattern the scheduler
    reads, and its description. *)
Record Suggestion : Type := {
  pattern : MonitoringPattern;
  description : jsstring;
  triggers : list string
}.

Definition CRITICAL : Suggestion :=
  {| pattern := AI_CRITICAL;
     description := text "Critical symptoms detected - intensive monitoring";
     triggers := ["severe_heat_exhaustion"; "heat_stroke_signs"; "dehydration_severe"]%string |}.

Definition HIGH : Suggestion :=
  {| pattern := AI_HIGH;
     description := text "Concerning symptoms - frequent monitoring";
     triggers := ["moderate_heat_stress"; "persistent_symptoms"; "vulnerable_population"]%string |}.

Definition MODERATE : Suggestion :=
  {| pattern := AI_MODERATE;
     description := text "Mild symptoms - standard monitoring";
     triggers := ["mild_heat_symptoms"; "prevention_mode"; "at_risk_conditions"]%string |}.

(** A pattern of [symptomPatterns]: its source text and what it
    matches. *)
Record SymptomPattern : Type := {
  source : string;
  expression : regex
}.

Definition oneOf (first : string) (others : list string) (src : string) : SymptomPattern :=
  {| source := src; expression := alternatives first others |}.

Definition criticalPatterns : list SymptomPattern :=
  [oneOf "confusion" ["disoriented"; "can't think"; "mental fog"]
         "confusion|disoriented|can't think|mental fog";
   oneOf "trouble breathing" ["short of breath"; "gasping"]
         "trouble breathing|short of breath|gasping";
   oneOf "faint" ["fainting"; "passed out"; "lost consciousness"]
         "faint|fainting|passed out|lost consciousness";
   oneOf "severe headache" ["pounding head"; "splitting headache"]
         "severe headache|pounding head|splitting headache";
   {| source := "high fever|burning up|temperature (over|above) 103";
      expression :=
        Alt (Alt (Chars (lit "high fever")) (Chars (lit "burning up")))
            (Cat (Chars (lit "temperature "))
                 (Cat (Alt (Chars (lit "over")) (Chars (lit "above")))
                      (Chars (lit " 103")))) |};
   oneOf "stopped sweating" ["no sweat"; "dry skin"]
         "stopped sweating|no sweat|dry skin"]%string.

Definition highPatterns : list SymptomPattern :=
  [oneOf "dizzy" ["dizziness"; "lightheaded"; "vertigo"]
         "dizzy|dizziness|lightheaded|vertigo";
   oneOf "nausea" ["nauseous"; "vomiting"; "throwing up"]
         "nausea|nauseous|vomiting|throwing up";
   oneOf "weak" ["weakness"; "exhausted"; "drained"]
         "weak|weakness|exhausted|drained";
   oneOf "severe headache" ["migraine"; "head pain"]
         "severe headache|migraine|head pain";
   oneOf "profuse sweating" ["drenched"; "soaked"]
         "profuse sweating|drenched|soaked";
   oneOf "muscle cramps" ["cramping"; "spasm"]
         "muscle cramps|cramping|spasm"]%string.

Definition moderatePatterns : list SymptomPattern :=
  [oneOf "tired" ["fatigue"; "sluggish"; "low energy"]
         "tired|fatigue|sluggish|low energy";
   oneOf "mild headache" ["slight headache"]
         "mild headache|slight headache";
   oneOf "thirsty" ["dehydrated"; "dry mouth"]
         "thirsty|dehydrated|dry mouth";
   oneOf "warm" ["hot"; "overheating"]
         "warm|hot|overheating";
   oneOf "sweating" ["sweaty"]
         "sweating|sweaty"]%string.

(** [symptomPatterns], in the order of [Object.entries]. *)
Definition symptomPatterns : list (string * (list SymptomPattern * jsnumber)) :=
  [("critical", (criticalPatterns, 0.8));
   ("high", (highPatterns, 0.6));
   ("moderate", (moderatePatterns, 0.3))]%string.

Record Detected : Type := {
  severity : string;
  matched : string;
  weight : jsnumber
}.

(** The two nested [forEach] loops: the symptoms detected, oldest
    first, and the weight they add up to. *)
Definition scanGroup (symptomsText : jsstring) (group : string * (list SymptomPattern * jsnumber))
    (state : list Detected * jsnumber) : list Detected * jsnumber :=
  fold_left
    (fun st p =>
       if search (expression p) symptomsText
       then (fst st ++ [{| severity := fst group; matched := source p;
                           weight := snd (snd group) |}],
             snd st + snd (snd group))
       else st)
    (fst (snd group)) state.

Definition scan (symptomsText : jsstring) : list Detected * jsnumber :=
  fold_left (fun st group => scanGroup symptomsText group st) symptomPatterns ([], 0).

Definition riskConditions : list jsstring :=
  [lit "diabetes"; lit "heart disease"; lit "kidney disease"; lit "copd"].

Section Rendering.

(** [Number::toString], left open. *)
Variable toString : jsnumber -> jsstring.

(** [currentTemperature && currentTemperature >= bound]; [None] is
    [null]. *)
Definition atLeast (currentTemperature : option jsnumber) (bound : jsnumber) : bool :=
  match currentTemperature with
  | Some t => numTruthy t && numGe t bound
  | None => false
  end.

Definition shownTemperature (currentTemperature : option jsnumber) : jsstring :=
  match currentTemperature with
  | Some t => toString t
  | None => text "null"
  end.

(** The risk factors: the multiplier and the reasons, in the order
    they are pushed.  [conditions] is [patientData.conditions], which
    the patient record of the scheduler does not carry. *)
Definition riskFactors (pd : PatientData) (conditions : option jsstring)
    (currentTemperature : option jsnumber) : jsnumber * list jsstring :=
  let st := (1, []) in
  let st :=
    if (65 <=? age pd)%Z
    then (fst st + 0.3, snd st ++ [text "Senior citizen - increased heat vulnerability"])
    else st in
  let st :=
    if atLeast currentTemperature 100
    then (fst st + 0.4,
          snd st ++ [text "Extreme heat warning - " ++ shownTemperature currentTemperature
                     ++ text "°F"])
    else if atLeast currentTemperature 95
    then (fst st + 0.2,
          snd st ++ [text "High temperature - " ++ shownTemperature currentTemperature
                     ++ text "°F"])
    else st in
  match conditions with
  | Some (c :: cs) =>
      if includesAny riskConditions (lowerCase (c :: cs))
      then (fst st + 0.2,
            snd st ++ [text "Pre-existing medical conditions increase risk"])
      else st
  | _ => st
  end.

Record Result : Type := {
  symptomsDetected : list Detected;
  riskLevel : string;
  suggested : Suggestion;
  reasoning : list jsstring;
  immediateActions : list jsstring;
  confidence : jsnumber
}.

(** [analyzeSymptoms(symptomsText, patientData, currentTemperature)] *)
Definition analyzeSymptoms (symptomsText : jsstring) (pd : PatientData)
    (conditions : option jsstring) (currentTemperature : option jsnumber) : Result :=
  let found := scan symptomsText in
  let totalWeight := snd found in
  let factors := riskFactors pd conditions currentTemperature in
  let riskMultiplier := fst factors in
  let finalRiskScore := totalWeight * riskMultiplier in
  if numGe finalRiskScore 0.7 then
    {| symptomsDetected := fst found; riskLevel := "CRITICAL"; suggested := CRITICAL;
       reasoning := snd factors;
       immediateActions :=
         [text "Move to air conditioning immediately"; text "Apply cool water to skin";
          text "Call 911 if symptoms worsen"; text "Have someone stay with patient"];
       confidence := mathMin 0.95 finalRiskScore |}
  else if numGe finalRiskScore 0.4 then
    {| symptomsDetected := fst found; riskLevel := "HIGH"; suggested := HIGH;
       reasoning := snd factors;
       immediateActions :=
         [text "Rest in cool, shaded area"; text "Drink water slowly";
          text "Monitor symptoms closely";
          text "Contact healthcare provider if worsening"];
       confidence := mathMin 0.95 finalRiskScore |}
  else
    {| symptomsDetected := fst found; riskLevel := "MODERATE"; suggested := MODERATE;
       reasoning := snd factors;
       immediateActions :=
         [text "Stay hydrated"; text "Avoid outdoor activities during peak heat";
          text "Rest as needed"];
       confidence := mathMin 0.95 finalRiskScore |}.

(** What the scheduler reads of the analysis. *)
Definition forScheduler (analysis : Result) : SymptomAnalysis :=
  {| suggestedMonitoring := pattern (suggested analysis);
     analysisRiskLevel := riskLevel analysis |}.

Definition bullets (items : list jsstring) : jsstring :=
  flat_map (fun item => text "• " ++ item ++ nl) items.

(** [Math.round(duration / 60)] on a whole number of minutes. *)
Definition roundedHours (minutes : Z) : Z := ((2 * minutes + 60) / 120)%Z.

(** [generatePersonalizedResponse(analysis, patientData)].  The patient
    record of the scheduler has no [name], so the greeting falls back
    from [firstName] to "there". *)
Definition generatePersonalizedResponse (analysis : Result) (pd : PatientData) : jsstring :=
  let patientName :=
    match firstName pd with
    | EmptyString => text "there"
    | name => text name
    end in
  let level := riskLevel analysis in
  text "Hi " ++ patientName ++ text "! 🏥" ++ nl ++ nl
  ++ (if String.eqb level "CRITICAL" then
        text "🚨 *CRITICAL HEALTH ALERT*" ++ nl ++
        text "AI analysis indicates severe heat-related symptoms." ++ nl ++ nl
      else if String.eqb level "HIGH" then
        text "⚠️ *HIGH RISK DETECTED*" ++ nl ++
        text "AI analysis shows concerning heat stress symptoms." ++ nl ++ nl
      else if String.eqb level "MODERATE" then
        text "💡 *HEALTH GUIDANCE*" ++ nl ++
        text "AI analysis of your symptoms suggests preventive care." ++ nl ++ nl
      else [])
  ++ (match reasoning analysis with
      | [] => []
      | reasons => text "*Risk Factors Identified:*" ++ nl ++ bullets reasons ++ nl
      end)
  ++ text "*Recommended Actions:*" ++ nl ++ bullets (immediateActions analysis) ++ nl
  ++ text "*AI Monitoring Plan:*" ++ nl
  ++ text "📊 Level: " ++ text level ++ nl
  ++ text "⏰ Check-ins: " ++ description (suggested analysis) ++ nl
  ++ text "🔄 I'll monitor you for the next "
  ++ text (decimal (roundedHours (duration (pattern (suggested analysis)))))
  ++ text " hours" ++ nl ++ nl
  ++ (if String.eqb level "CRITICAL"
      then text "🚨 *IMPORTANT*: If symptoms worsen, call 911 immediately!"
      else text "💬 Reply anytime if you feel worse or have questions.").

(** [logAnalysis(phoneNumber, symptomsText, analysis)]: one insert in a
    [try] whose [catch] only logs. *)
Definition logAnalysis : M unit := catch prismaCreate (fun _ => ret tt).

(** [processSymptomReport(phoneNumber, symptomsText, patientData,
    currentTemperature)] of the monitoring scheduler. *)
Definition processSymptomReport (phone : string) (symptomsText : jsstring)
    (pd : PatientData) (conditions : option jsstring)
    (currentTemperature : option jsnumber) : M Result :=
  let analysis := analyzeSymptoms symptomsText pd conditions currentTemperature in
  whatsappAdd phone (textMsg (generatePersonalizedResponse analysis pd)) None ;;
  (if negb (String.eqb (riskLevel analysis) "LOW")
   then scheduleAISymptomMonitoring phone pd (forScheduler analysis)
   else ret tt) ;;
  logAnalysis ;;
  ret analysis.

End Rendering.

End AISymptomAnalyzer.

(* ================================================================== *)
(** * Notions for the statements about texts *)

(** A text that does not begin with white space. *)
Definition headed (s : jsstring) : Prop :=
  match s with
  | [] => True
  | c :: _ => isWhiteSpace c = false
  end.

(** White space is single spaces only; [afterSpace] tells that a space
    came just before. *)
Fixpoint spaced (afterSpace : bool) (s : jsstring) : bool :=
  match s with
  | [] => true
  | c :: s' =>
      if isWhiteSpace c then N.eqb c 32 && negb afterSpace && spaced true s'
      else spaced false s'
  end.

(** Neither a markdown mark nor white space. *)
Definition blankUnit (c : N) : bool := HeatCareAI.isMarkdown c || isWhiteSpace c.

(** The four fields of the risk assessment the guard rails rewrite:
    risk level, urgency, escalation level and emergency alert. *)
Definition Verdict : Type := (string * string * string * bool)%type.

Definition verdictOf (r : MedGemmaAnalysis.AiResponse) : Verdict :=
  (MedGemmaAnalysis.riskLevel r, MedGemmaAnalysis.urgency r,
   MedGemmaAnalysis.escalationLevel r, MedGemmaAnalysis.emergencyAlert r).

Definition verdictOfHeatCare (h : HeatCareAI.MedicalResponse) : Verdict :=
  (HeatCareAI.riskLevel h, HeatCareAI.urgency h,
   HeatCareAI.escalationLevel h, HeatCareAI.emergencyAlert h).

(** The verdicts [generateMedicalResponse] can return. *)
Definition heatCareVerdicts : list Verdict :=
  [("emergency", "emergency", "emergency", true);
   ("high", "urgent", "urgent", false);
   ("med", "routine", "monitor", false);
   ("low", "routine", "monitor", false);
   ("high", "routine", "none", false);
   ("med", "routine", "none", false);
   ("low", "routine", "none", false)]%string.

(** The three guard rails on a verdict; the booleans tell whether the
    text holds an emergency keyword, an urgent heat symptom, a severe
    symptom. *)
Definition railsOn (keyword urgent severe : bool) (v : Verdict) : Verdict :=
  let '(level, urgency, escalation, alert) := v in
  let '(level, urgency, escalation, alert) :=
    if keyword && negb (String.eqb urgency "emergency")
    then (level, "emergency"%string, "emergency"%string, true)
    else (level, urgency, escalation, alert) in
  let '(level, urgency, escalation, alert) :=
    if urgent && (String.eqb level "low" || String.eqb urgency "routine")
    then ("high"%string, "urgent"%string, "urgent"%string, alert)
    else (level, urgency, escalation, alert) in
  if severe && negb (String.eqb level "emergency")
  then ("emergency"%string, "emergency"%string, "emergency"%string, alert)
  else (level, urgency, escalation, alert).

(** The level the webhook schedules at, read off a verdict. *)
Definition verdictLevel (v : Verdict) : string :=
  match snd (fst v) with
  | EmptyString => if snd v then "emergency"%string else "medium"%string
  | level => level
  end.

Definition verdictUrgency (v : Verdict) : string := snd (fst (fst v)).

Definition verdictRisk (v : Verdict) : string := fst (fst (fst v)).


(** Sample inputs: a reply of the Gemini service, and what the
    HeatCare model says of a text for a patient of unknown age at 80
    degrees. *)
Definition sampleGemini : MedGemmaAnalysis.GeminiResponse :=
  {| MedGemmaAnalysis.geminiMessage := lit "Please rest and drink water.";
     MedGemmaAnalysis.geminiConfidence := ofZ 1 |}.

Definition sampleHeatCare (input : jsstring) : HeatCareAI.MedicalResponse :=
  HeatCareAI.generateMedicalResponse (fun _ => lit "80") None input (ofZ 80).

Definition sampleOutcome (input : jsstring) : MedGemmaAnalysis.Analysis :=
  MedGemmaAnalysis.summarize 0
    (MedGemmaAnalysis.guardRails input
       (MedGemmaAnalysis.combine sampleGemini (sampleHeatCare input))).

(** A senior of 70 with diabetes on record, and a heat-wave report
    that reads a whole number of degrees. *)
Definition sampleSenior : SeniorHeatAlerts.SeniorData :=
  {| SeniorHeatAlerts.patient := samplePatient;
     SeniorHeatAlerts.chronicConditions := Some ["diabetes"%string];
     SeniorHeatAlerts.medications := None |}.

Definition feelsLike (degrees : Z) : SeniorHeatAlerts.HeatWaveData :=
  {| SeniorHeatAlerts.maxFeelsLike := ofZ degrees |}.

(** Notions for the symptom analyzer: how many patterns of a list match
    a text, the weight that many matches add up to, and the multiplier
    the risk factors give. *)
Module SymptomWeights.
Import PrimFloat.
#[local] Set Warnings "-inexact-float".
Local Open Scope float_scope.

Definition hits (patterns : list AISymptomAnalyzer.SymptomPattern) (symptomsText : jsstring)
  : nat :=
  List.length (filter (fun p => search (AISymptomAnalyzer.expression p) symptomsText) patterns).

Fixpoint addTimes (n : nat) (weight total : jsnumber) : jsnumber :=
  match n with
  | O => total
  | S n' => addTimes n' weight (total + weight)
  end.

Definition weightOf (critical high moderate : nat) : jsnumber :=
  addTimes moderate 0.3 (addTimes high 0.6 (addTimes critical 0.8 0)).

Definition multiplierOf (senior extreme hot condition : bool) : jsnumber :=
  let m := 1 in
  let m := if senior then m + 0.3 else m in
  let m := if extreme then m + 0.4 else if hot then m + 0.2 else m in
  if condition then m + 0.2 else m.

Definition multipliers : list jsnumber :=
  flat_map (fun senior =>
    flat_map (fun extreme =>
      flat_map (fun hot =>
        map (multiplierOf senior extreme hot) [true; false])
      [true; false])
    [true; false])
  [true; false].

(** Every score that [critical], [high] and [moderate] matches within
    the given ranges can give satisfies [check]. *)
Definition everyScore (criticals highs moderates : list nat) (check : jsnumber -> bool)
  : bool :=
  forallb (fun k1 =>
    forallb (fun k2 =>
      forallb (fun k3 =>
        forallb (fun m => check (weightOf k1 k2 k3 * m)) multipliers)
      moderates)
    highs)
  criticals.

End SymptomWeights.

(** The patient of [onHighChain] once an AI monitoring chain has been
    started as well. *)
Definition onBothChains : World :=
  snd (scheduleAISymptomMonitoring "+15550100" samplePatient sampleAnalysis
         (onHighChain answering)).

(* ================================================================== *)
(** * Facts about strings and patterns *)

Section Strings.

Lemma jseqb_eq (a b : jsstring) : jseqb a b = true <-> a = b.
Proof.
  revert b; induction a as [|x a IH]; intros [|y b]; simpl; split;
    try congruence; try discriminate.
  - intros H. apply andb_true_iff in H as [Hxy Hab].
    apply N.eqb_eq in Hxy. apply IH in Hab. congruence.
  - intros H. inversion H; subst. rewrite N.eqb_refl. simpl. now apply IH.
Qed.

Lemma jseqb_refl (a : jsstring) : jseqb a a = true.
Proof. now apply jseqb_eq. Qed.

Lemma notUpperb_spec (c : N) : notUpperb c = true <-> notUpper c.
Proof.
  unfold notUpperb, notUpper. rewrite orb_true_iff, !N.ltb_lt. tauto.
Qed.

Lemma toLowerUnit_notUpper (c : N) : notUpper (toLowerUnit c).
Proof.
  unfold toLowerUnit, notUpper.
  destruct (N.leb 65 c) eqn:H1; destruct (N.leb c 90) eqn:H2; simpl;
    try (destruct (N.eqb c 8490) eqn:H3);
    rewrite ?N.leb_le, ?N.leb_gt, ?N.eqb_eq, ?N.eqb_neq in *; lia.
Qed.

Lemma toLowerCase_lower (s : jsstring) : lowerText (toLowerCase s).
Proof.
  unfold lowerText, toLowerCase. induction s; simpl; constructor; auto.
  apply toLowerUnit_notUpper.
Qed.

Lemma trimStart_lower (s : jsstring) : lowerText s -> lowerText (trimStart s).
Proof.
  unfold lowerText. induction 1 as [|c s Hc Hs IH]; simpl; auto.
  destruct (isWhiteSpace c); auto.
Qed.

Lemma rev_lower (s : jsstring) : lowerText s -> lowerText (rev s).
Proof.
  unfold lowerText. intros H. apply Forall_forall. intros c Hc.
  apply in_rev in Hc. revert c Hc. now apply Forall_forall.
Qed.

Lemma trim_lower (s : jsstring) : lowerText s -> lowerText (trim s).
Proof.
  intros H. unfold trim, trimEnd.
  auto using rev_lower, trimStart_lower.
Qed.

Lemma canonicalize_inj (x y : N) :
  notUpper x -> notUpper y -> canonicalize x = canonicalize y -> x = y.
Proof.
  unfold notUpper, canonicalize. intros Hx Hy.
  destruct (N.leb 97 x) eqn:A1; destruct (N.leb x 122) eqn:A2;
    destruct (N.leb 97 y) eqn:B1; destruct (N.leb y 122) eqn:B2; simpl;
    rewrite ?N.leb_le, ?N.leb_gt in *; lia.
Qed.

Lemma matchChars_spec (p : jsstring) :
  Forall notUpper p -> forall s rest, lowerText s ->
  (matchChars p s = Some rest <-> s = p ++ rest).
Proof.
  induction 1 as [|x p Hx Hp IH]; intros s rest Hs; simpl.
  - split; congruence.
  - destruct s as [|y s]; [split; discriminate|].
    inversion Hs as [|? ? Hy Hs']; subst.
    destruct (N.eqb (canonicalize x) (canonicalize y)) eqn:E.
    + apply N.eqb_eq in E. apply canonicalize_inj in E; auto. subst y.
      rewrite (IH s rest Hs'). split; congruence.
    + apply N.eqb_neq in E. split; [discriminate|].
      intros H; inversion H; subst. now elim E.
Qed.

Lemma unitsFrom_In (n : nat) : forall lo c,
  In c (unitsFrom lo n) <-> (lo <= c < lo + N.of_nat n)%N.
Proof.
  induction n as [|n IH]; intros lo c; simpl.
  - lia.
  - rewrite IH. lia.
Qed.

Lemma lower_app_r (p rest : jsstring) : lowerText (p ++ rest) -> lowerText rest.
Proof.
  unfold lowerText. intros H. apply Forall_app in H. tauto.
Qed.

(** The matcher accepts exactly the strings of the pattern's language,
    on text without capitals. *)
Lemma matchFrom_lang (r : regex) :
  lowerPattern r = true -> forall s k, lowerText s ->
  (matchFrom r s k = true <->
   exists p rest, In p (lang r) /\ s = p ++ rest /\ k rest = true).
Proof.
  induction r as [p|lo hi|r1 IH1|r1 IH1 r2 IH2|r1 IH1 r2 IH2];
    simpl; intros Hr s k Hs.
  - assert (Hp : Forall notUpper p).
    { apply Forall_forall. intros c Hc. apply notUpperb_spec.
      rewrite forallb_forall in Hr. auto. }
    destruct (matchChars p s) as [rest|] eqn:E.
    + apply matchChars_spec in E; auto. split.
      * intros Hk. exists p, rest. auto.
      * intros (p' & rest' & [<-|[]] & Heq & Hk).
        subst s. apply app_inv_head in Heq. now subst.
    + split; [discriminate|].
      intros (p' & rest' & [<-|[]] & Heq & Hk).
      apply (matchChars_spec p Hp) in Heq; auto. congruence.
  - destruct s as [|c rest].
    + split; [discriminate|].
      intros (p & rest & Hin & Heq & _). apply in_map_iff in Hin as (c & <- & _).
      discriminate.
    + rewrite !andb_true_iff, !N.leb_le. split.
      * intros [[H1 H2] Hk]. exists [c], rest. repeat split; auto.
        apply in_map_iff. exists c. split; auto. apply unitsFrom_In. lia.
      * intros (p & rest' & Hin & Heq & Hk).
        apply in_map_iff in Hin as (c' & <- & Hc'). simpl in Heq.
        inversion Heq; subst. apply unitsFrom_In in Hc'. repeat split; auto; lia.
  - rewrite orb_true_iff, (IH1 Hr s k Hs). split.
    + intros [(p & rest & Hin & Heq & Hk)|Hk].
      * exists p, rest. rewrite in_app_iff. auto.
      * exists [], s. rewrite in_app_iff. simpl. auto.
    + intros (p & rest & Hin & Heq & Hk). apply in_app_iff in Hin as [Hin|[<-|[]]].
      * left. eauto.
      * right. simpl in Heq. congruence.
  - apply andb_true_iff in Hr as [Hr1 Hr2].
    rewrite orb_true_iff, (IH1 Hr1 s k Hs), (IH2 Hr2 s k Hs). split.
    + intros [(p & rest & Hin & H)|(p & rest & Hin & H)];
        exists p, rest; rewrite in_app_iff; auto.
    + intros (p & rest & Hin & H). apply in_app_iff in Hin as [Hin|Hin]; eauto.
  - apply andb_true_iff in Hr as [Hr1 Hr2].
    rewrite (IH1 Hr1 s _ Hs). split.
    + intros (p1 & rest1 & Hin1 & Heq1 & Hk1).
      assert (Hrest : lowerText rest1) by (subst s; eapply lower_app_r; eauto).
      apply (IH2 Hr2 rest1 k Hrest) in Hk1 as (p2 & rest & Hin2 & Heq2 & Hk).
      exists (p1 ++ p2), rest. repeat split; auto.
      * apply in_flat_map. exists p1. split; auto. now apply in_map.
      * subst. now rewrite app_assoc.
    + intros (p & rest & Hin & Heq & Hk).
      apply in_flat_map in Hin as (p1 & Hin1 & Hin).
      apply in_map_iff in Hin as (p2 & <- & Hin2).
      exists p1, (p2 ++ rest). repeat split; auto.
      * now rewrite app_assoc.
      * apply (IH2 Hr2); [|eauto].
        subst s. rewrite <- app_assoc in Hs. eapply lower_app_r; eauto.
Qed.

Lemma test_lang (r : regex) (s : jsstring) :
  lowerPattern r = true -> lowerText s ->
  test r s = existsb (jseqb s) (lang r).
Proof.
  intros Hr Hs. apply eq_true_iff_eq. unfold test.
  rewrite (matchFrom_lang r Hr s atEnd Hs), existsb_exists. split.
  - intros (p & rest & Hin & Heq & Hk). destruct rest; [|discriminate].
    rewrite app_nil_r in Heq. subst. exists p. split; auto. apply jseqb_refl.
  - intros (p & Hin & Heq). apply jseqb_eq in Heq. subst.
    exists p, []. rewrite app_nil_r. auto.
Qed.

End Strings.

(* ================================================================== *)
(** * The response interpreter *)

(** Replace a closed literal by its code units. *)
Ltac eval_lits :=
  repeat match goal with
         | |- context [lit ?s] =>
             let v := eval vm_compute in (lit s) in change (lit s) with v
         end.

(** Replace the language of a closed pattern by the list of its strings. *)
Ltac eval_langs :=
  repeat match goal with
         | |- context [lang ?r] =>
             let v := eval vm_compute in (lang r) in change (lang r) with v
         end.

(** Decide the comparisons of [text] with the closed strings of the
    goal one after the other: a hit fixes the text, and the goal is
    closed by evaluation. *)
Ltac decide_text text :=
  repeat match goal with
         | |- context [jseqb text ?l] =>
             let E := fresh "E" in
             destruct (jseqb text l) eqn:E;
             [ apply jseqb_eq in E; subst text; vm_compute; reflexivity | ]
         end.

Lemma detect_normalised (text : jsstring) :
  lowerText text ->
  (if test re_digit text then responseMap text
   else if arrayIncludes buttonIds text then Some text
   else if test re_better text || test re_feeling_better text then Some much_better
   else if test re_slightly_better text || test re_a_bit_better text
        then Some slightly_better
   else if test re_same text || test re_no_change text || test re_unchanged text
        then Some same_symptoms
   else if test re_worse text || test re_getting_worse text || test re_feeling_worse text
        then Some worse_condition
   else if test re_911 text || test re_emergency text || test re_need_help_now text
        then Some emergency_help
   else None)
  = option_map token (lookupReply replyTable text).
Proof.
  intros Hlow.
  rewrite !test_lang by (assumption || reflexivity).
  clear Hlow.
  unfold responseMap, arrayIncludes, buttonIds, replyTable,
    much_better, slightly_better, same_symptoms, worse_condition, emergency_help.
  cbn [lookupReply existsb].
  eval_langs. eval_lits.
  cbn [existsb].
  decide_text text.
  reflexivity.
Qed.

(** C3. After lowercasing and trimming, the interpreter is a lookup in
    the fixed table of exact replies: a bare digit 1 to 5 maps
    positionally, a canonical token to itself, a short list of exact
    phrasings to their category, and every other text is unclassified;
    so "3" is same_symptoms, "  WORSE  " is worse_condition, and a
    sentence that merely contains "worse" is unclassified. *)
Theorem detectPollResponse_table :
  (forall messageText,
      detectPollResponse messageText
      = option_map token (classifyResponse messageText)) /\
  (forall messageText,
      (forall k r, In (k, r) replyTable -> trim (toLowerCase messageText) <> lit k) ->
      detectPollResponse messageText = None) /\
  detectPollResponse (lit "3") = Some same_symptoms /\
  detectPollResponse (lit "  WORSE  ") = Some worse_condition /\
  detectPollResponse
    (lit "I feel worse than my headache yesterday, it really hurts") = None.
Proof.
  assert (H : forall messageText,
             detectPollResponse messageText
             = option_map token (classifyResponse messageText)).
  { intros messageText. unfold detectPollResponse, classifyResponse. cbv zeta.
    apply detect_normalised. apply trim_lower, toLowerCase_lower. }
  split; [exact H|]. split; [|repeat split; vm_compute; reflexivity].
  intros messageText Hno. rewrite H. unfold classifyResponse.
  generalize dependent (trim (toLowerCase messageText)). intros text.
  induction replyTable as [|[k r] t IH]; intros Hno; simpl; auto.
  destruct (jseqb text (lit k)) eqn:E.
  - apply jseqb_eq in E. elim (Hno k r); simpl; auto.
  - apply IH. intros k' r' Hin. apply (Hno k' r'). simpl; auto.
Qed.

(* ================================================================== *)
(** * The escalation policy *)

Lemma intervalMinutesFor_table :
  intervalMinutesFor "emergency" = VNum 1 /\
  intervalMinutesFor "critical" = VNum 2 /\
  intervalMinutesFor "high" = VNum 5 /\
  intervalMinutesFor "medium" = VNum 15 /\
  intervalMinutesFor "low" = VNum 60.
Proof. repeat split; reflexivity. Qed.

Lemma ownProperty_None (table : list (string * Z)) (key : string) :
  ~ In key (map fst table) -> ownProperty table key = None.
Proof.
  induction table as [|[k v] t IH]; simpl; intros H; auto.
  destruct (String.eqb key k) eqn:E.
  - apply String.eqb_eq in E. subst. tauto.
  - apply IH. tauto.
Qed.

Lemma existsb_eqb_false (key : string) (l : list string) :
  ~ In key l -> existsb (String.eqb key) l = false.
Proof.
  induction l as [|k l IH]; simpl; intros H; auto.
  destruct (String.eqb key k) eqn:E; simpl.
  - apply String.eqb_eq in E. subst. tauto.
  - apply IH. tauto.
Qed.

(** A level that is neither a key of the table nor the name of a
    member of [Object.prototype] falls back to the medium interval. *)
Lemma intervalMinutesFor_default (level : string) :
  ~ In level (map fst monitoringIntervals) ->
  ~ In level objectPrototypeKeys ->
  intervalMinutesFor level = VNum 15.
Proof.
  intros Hown Hproto. unfold intervalMinutesFor, getProperty.
  rewrite (ownProperty_None _ _ Hown), (existsb_eqb_false _ _ Hproto).
  reflexivity.
Qed.

Lemma intervalMinutesFor_urgent : intervalMinutesFor "urgent" = VNum 15.
Proof. reflexivity. Qed.

(** C2. The lookup [monitoringIntervals[riskLevel] || monitoringIntervals.medium]
    gives the five table intervals, and 15 for the names outside the
    table that [Object.prototype] does not define; but for a name such
    as "constructor" the lookup finds the inherited member, which is
    truthy, so the interval is not 15 and the delay computed from it is
    NaN. *)
Theorem intervalMinutesFor_inherited :
  intervalMinutesFor "constructor" = VInherited "constructor" /\
  intervalMinutesFor "constructor" <> VNum 15 /\
  times (intervalMinutesFor "constructor") (60 * 1000) = NaN /\
  delay (recurringJob "+15550100" (Some "dizzy"%string) "constructor" "symptom"
           (intervalMinutesFor "constructor") 0) = NaN /\
  (forall level, In level objectPrototypeKeys ->
                 intervalMinutesFor level = VInherited level).
Proof.
  repeat split; try reflexivity; try discriminate.
  intros level Hin. simpl in Hin.
  repeat (destruct Hin as [<-|Hin]; [reflexivity|]). destruct Hin.
Qed.

(* ================================================================== *)
(** * Running the helpers on a store that answers *)

Section ReachableStore.

Lemma sameEnv_refl (w : World) : sameEnv w w.
Proof. split; reflexivity. Qed.

Lemma sameEnv_trans (w1 w2 w3 : World) :
  sameEnv w1 w2 -> sameEnv w2 w3 -> sameEnv w1 w3.
Proof. unfold sameEnv. intros [A B] [C D]. split; congruence. Qed.

Lemma quiet_refl (w : World) : quiet w w.
Proof. repeat split. Qed.

Lemma quiet_trans (w1 w2 w3 : World) : quiet w1 w2 -> quiet w2 w3 -> quiet w1 w3.
Proof.
  unfold quiet. intros (A & B & C) (D & E & F).
  repeat split; try congruence; eapply sameEnv_trans; eauto.
Qed.

Lemma quiet_sameEnv (w w' : World) : quiet w w' -> sameEnv w w'.
Proof. now intros [H _]. Qed.

Lemma reachable_sameEnv (w w' : World) : reachable w -> sameEnv w w' -> reachable w'.
Proof. unfold reachable. intros H [E _] k. now rewrite E. Qed.

Lemma unreachable_sameEnv (w w' : World) :
  unreachable w -> sameEnv w w' -> unreachable w'.
Proof. unfold unreachable. intros H [E _] k. now rewrite E. Qed.

Lemma quiet_bump (w : World) : quiet w (bump w).
Proof. repeat split. Qed.

Lemma call_ok (e : Err) (w : World) : reachable w -> call e w = (Ret tt, bump w).
Proof. intros H. unfold call. now rewrite H. Qed.

Lemma call_fails (e : Err) (w : World) : unreachable w -> call e w = (Raise e, bump w).
Proof. intros H. unfold call. now rewrite H. Qed.

Lemma find_hasId (id : string) (q : list Job) (j : Job) :
  find (hasId id) q = Some j -> jobId j = id.
Proof.
  intros H. apply find_some in H as [_ H]. now apply String.eqb_eq in H.
Qed.

Lemma removeFirst_absent (id : string) (q : list Job) :
  find (hasId id) q = None -> removeFirst id q = q.
Proof.
  induction q as [|j q IH]; simpl; auto.
  destruct (hasId id j); [discriminate|]. intros H. now rewrite IH.
Qed.

Lemma cancelJobById_ok (id : string) (w : World) :
  reachable w ->
  exists w', runs (cancelJobById id) w tt w' /\
             healthCronQueue w' = removeFirst id (healthCronQueue w) /\
             quiet w w'.
Proof.
  intros Hw. unfold runs, cancelJobById, getJob, removeJob, bind, gets, modify.
  rewrite (call_ok _ _ Hw). cbn.
  destruct (find (hasId id) (healthCronQueue w)) as [j|] eqn:E.
  - rewrite call_ok by exact Hw. cbn.
    eexists. split; [reflexivity|]. cbn. split; [|repeat split].
    now rewrite (find_hasId _ _ _ E).
  - eexists. split; [reflexivity|]. cbn. split; [|repeat split].
    now rewrite removeFirst_absent.
Qed.

Lemma catch_runs {A} (m : M A) (h : Err -> M A) (w : World) (a : A) (w' : World) :
  runs m w a w' -> runs (catch m h) w a w'.
Proof. unfold runs, catch. now intros ->. Qed.

Lemma bind_runs {A B} (m : M A) (k : A -> M B) (w : World) (a : A) (w1 : World)
    (b : B) (w2 : World) :
  runs m w a w1 -> runs (k a) w1 b w2 -> runs (bind m k) w b w2.
Proof. unfold runs, bind. now intros ->. Qed.

Lemma cancelLegacy_ok (phone tagName : string) (w : World) :
  reachable w ->
  exists w', runs (cancelLegacy phone tagName) w tt w' /\
             healthCronQueue w'
             = removeIds (map (legacyJobId phone tagName) legacyIntervals)
                         (healthCronQueue w) /\
             quiet w w'.
Proof.
  unfold cancelLegacy. generalize legacyIntervals as l.
  intros l; revert w; induction l as [|i l IH]; intros w Hw; simpl.
  - exists w. repeat split.
  - destruct (cancelJobById_ok (legacyJobId phone tagName i) w Hw)
      as (w1 & R1 & Q1 & F1).
    assert (Hw1 : reachable w1)
      by (eapply reachable_sameEnv; eauto using quiet_sameEnv).
    destruct (IH w1 Hw1) as (w2 & R2 & Q2 & F2).
    exists w2. split; [|split].
    + eapply bind_runs; [apply catch_runs; exact R1 | exact R2].
    + rewrite Q2, Q1. reflexivity.
    + eapply quiet_trans; eauto.
Qed.

Lemma cancelTagged_ok (phone tagName : string) (w : World) :
  reachable w ->
  exists w', runs (cancelTagged phone tagName) w tt w' /\
             healthCronQueue w' = removeIds (cancelIds phone tagName) (healthCronQueue w) /\
             quiet w w'.
Proof.
  intros Hw. unfold cancelTagged.
  destruct (cancelJobById_ok (cancelId phone tagName) w Hw) as (w1 & R1 & Q1 & F1).
  assert (Hw1 : reachable w1)
    by (eapply reachable_sameEnv; eauto using quiet_sameEnv).
  destruct (cancelLegacy_ok phone tagName w1 Hw1) as (w2 & R2 & Q2 & F2).
  exists w2. split; [|split].
  - eapply bind_runs; eauto.
  - rewrite Q2, Q1. reflexivity.
  - eapply quiet_trans; eauto.
Qed.

Lemma removeIds_app (a b : list string) (q : list Job) :
  removeIds (a ++ b) q = removeIds b (removeIds a q).
Proof. unfold removeIds. apply fold_left_app. Qed.

Lemma cancelAll_ok (phone : string) (tags : list string) (w : World) :
  reachable w ->
  exists w', runs (forEach tags (fun jobTag =>
                     catch (cancelTagged phone jobTag) (fun _ => ret tt))) w tt w' /\
             healthCronQueue w'
             = removeIds (flat_map (cancelIds phone) tags) (healthCronQueue w) /\
             quiet w w'.
Proof.
  revert w; induction tags as [|t tags IH]; intros w Hw.
  - exists w. repeat split.
  - destruct (cancelTagged_ok phone t w Hw) as (w1 & R1 & Q1 & F1).
    assert (Hw1 : reachable w1)
      by (eapply reachable_sameEnv; eauto using quiet_sameEnv).
    destruct (IH w1 Hw1) as (w2 & R2 & Q2 & F2).
    exists w2. split; [|split].
    + simpl. eapply bind_runs; [apply catch_runs; exact R1 | exact R2].
    + change (flat_map (cancelIds phone) (t :: tags))
        with (cancelIds phone t ++ flat_map (cancelIds phone) tags).
      rewrite removeIds_app, Q2, Q1. reflexivity.
    + eapply quiet_trans; eauto.
Qed.

(** On a store that answers, [cancelHealthCheckups] returns normally
    and removes the first pending job of each id it looks up. *)
Lemma cancelHealthCheckups_ok (phone tagName : string) (w : World) :
  reachable w ->
  exists w', runs (cancelHealthCheckups phone tagName) w tt w' /\
             healthCronQueue w' = cancelled phone tagName (healthCronQueue w) /\
             quiet w w'.
Proof.
  intros Hw. unfold cancelHealthCheckups, cancelled.
  destruct (String.eqb tagName "all").
  - destruct (cancelAll_ok phone jobTypes w Hw) as (w1 & R1 & Q1 & F1).
    exists w1. split; [|split]; auto. now apply catch_runs.
  - destruct (cancelTagged_ok phone tagName w Hw) as (w1 & R1 & Q1 & F1).
    exists w1. split; [|split]; auto. now apply catch_runs.
Qed.

Lemma cronAdd_ok (j : Job) (w : World) :
  reachable w ->
  cronAdd j w
  = (Ret tt,
     emit (CronAdded (jobId j) (existsb (hasId (jobId j)) (healthCronQueue w)))
          (setCron (healthCronQueue w ++ [j]) (bump w))).
Proof. intros H. unfold cronAdd. now rewrite H. Qed.

Lemma whatsappAdd_ok (recipient : string) (m : Msg) (d : option Z) (w : World) :
  reachable w ->
  whatsappAdd recipient m d w
  = (Ret tt,
     emit (WhatsappQueued recipient m)
          (setWhatsapp (whatsappQueue w ++ [{| to := recipient; message := m; waDelay := d |}])
                       (bump w))).
Proof.
  intros H. unfold whatsappAdd, bind, modify. now rewrite (call_ok _ _ H).
Qed.

Lemma twilioCreate_ok (recipient : string) (m : Msg) (w : World) :
  reachable w ->
  twilioCreate recipient m w = (Ret tt, emit (TwilioSent recipient m) (bump w)).
Proof.
  intros H. unfold twilioCreate, bind, modify. now rewrite (call_ok _ _ H).
Qed.

Lemma prismaCreate_ok (w : World) : reachable w -> prismaCreate w = (Ret tt, bump w).
Proof. apply call_ok. Qed.

(** [scheduleHealthCheckup] on a store that answers: the previous job
    of the tag is cancelled and one job is appended. *)
Lemma scheduleHealthCheckup_ok (phone : string) (sym level tagName : option string)
    (w : World) :
  reachable w ->
  let lv := orDefault level "medium" in
  let tg := orDefault tagName "symptom" in
  let q := cancelled phone tg (healthCronQueue w) in
  let j := recurringJob phone sym lv tg (intervalMinutesFor lv) (now w) in
  exists w', runs (scheduleHealthCheckup phone sym level tagName) w tt w' /\
             healthCronQueue w' = q ++ [j] /\
             whatsappQueue w' = whatsappQueue w /\
             trace w' = trace w ++ [CronAdded (jobId j) (existsb (hasId (jobId j)) q)] /\
             sameEnv w w'.
Proof.
  intros Hw lv tg q j. unfold scheduleHealthCheckup. fold lv tg.
  destruct (cancelHealthCheckups_ok phone tg w Hw) as (w1 & R1 & Q1 & (E1 & W1 & T1)).
  assert (Hw1 : reachable w1) by (eapply reachable_sameEnv; eauto).
  eexists. split.
  - eapply bind_runs; [exact R1|]. unfold runs, bind, gets.
    rewrite cronAdd_ok by exact Hw1. reflexivity.
  - destruct E1 as [E1 E2]. cbn. rewrite Q1, W1, T1, E2.
    repeat split; auto.
Qed.

End ReachableStore.

(* ================================================================== *)
(** * Properties of the world that the code keeps, faults or not *)

Section Stable.

Variable P : World -> Prop.

Hypothesis P_bump : forall w, P w -> P (bump w).

Hypothesis P_remove :
  forall w id, P w -> P (setCron (removeFirst id (healthCronQueue w)) w).

Hypothesis P_sent : forall w r m, P w -> P (emit (TwilioSent r m) w).

Hypothesis P_queued :
  forall w r m d, P w ->
    P (emit (WhatsappQueued r m)
            (setWhatsapp (whatsappQueue w ++ [{| to := r; message := m; waDelay := d |}]) w)).

Hypothesis P_added :
  forall w j, P w ->
    P (emit (CronAdded (jobId j) (existsb (hasId (jobId j)) (healthCronQueue w)))
            (setCron (healthCronQueue w ++ [j]) w)).

Hypothesis P_addFailed : forall w id, P w -> P (emit (CronAddFailed id) w).

Lemma stable_ret {A} (a : A) : stable P (ret a).
Proof. intros w H. exact H. Qed.

Lemma stable_throw {A} (e : Err) : stable P (@throw A e).
Proof. intros w H. exact H. Qed.

Lemma stable_gets {A} (f : World -> A) : stable P (gets f).
Proof. intros w H. exact H. Qed.

Lemma stable_bind {A B} (m : M A) (k : A -> M B) :
  stable P m -> (forall a, stable P (k a)) -> stable P (bind m k).
Proof.
  intros Hm Hk w H. unfold bind. specialize (Hm w H).
  destruct (m w) as [[a|e] w']; simpl in *; auto. now apply Hk.
Qed.

Lemma stable_catch {A} (m : M A) (h : Err -> M A) :
  stable P m -> (forall e, stable P (h e)) -> stable P (catch m h).
Proof.
  intros Hm Hh w H. unfold catch. specialize (Hm w H).
  destruct (m w) as [[a|e] w']; simpl in *; auto. now apply Hh.
Qed.

Lemma stable_forEach {A} (xs : list A) (body : A -> M unit) :
  (forall x, stable P (body x)) -> stable P (forEach xs body).
Proof.
  intros Hb. induction xs as [|x xs IH]; simpl.
  - apply stable_ret.
  - apply stable_bind; auto.
Qed.

Lemma stable_call (e : Err) : stable P (call e).
Proof using P_bump. intros w H. unfold call. destruct (faults w (tick w)); simpl; auto. Qed.

Lemma stable_defined {A} (o : option A) : stable P (defined o).
Proof. destruct o; [apply stable_ret | apply stable_throw]. Qed.

Lemma stable_identifier (b : bool) : stable P (identifier b).
Proof. destruct b; [apply stable_ret | apply stable_throw]. Qed.

Lemma stable_rethrowing {A} (m : M A) : stable P m -> stable P (rethrowing m).
Proof. intros H. apply stable_catch; auto. intros e. apply stable_throw. Qed.

Lemma stable_getJob (id : string) : stable P (getJob id).
Proof using P_bump.
  apply stable_bind; [apply stable_call | intros; apply stable_gets].
Qed.

Lemma stable_getJobs (a b : nat) : stable P (getJobs a b).
Proof using P_bump.
  apply stable_bind; [apply stable_call | intros; apply stable_gets].
Qed.

Lemma stable_removeJob (j : Job) : stable P (removeJob j).
Proof using P_bump P_remove.
  apply stable_bind; [apply stable_call|]. intros _ w H. simpl. now apply P_remove.
Qed.

Lemma stable_cronAdd (j : Job) : stable P (cronAdd j).
Proof using P_bump P_added P_addFailed.
  intros w H. unfold cronAdd. destruct (faults w (tick w)); simpl.
  - apply P_addFailed. now apply P_bump.
  - apply (P_added (bump w) j). now apply P_bump.
Qed.

Lemma stable_whatsappAdd (r : string) (m : Msg) (d : option Z) :
  stable P (whatsappAdd r m d).
Proof using P_bump P_queued.
  apply stable_bind; [apply stable_call|]. intros _ w H. simpl. now apply P_queued.
Qed.

Lemma stable_twilioCreate (r : string) (m : Msg) : stable P (twilioCreate r m).
Proof using P_bump P_sent.
  apply stable_bind; [apply stable_call|]. intros _ w H. simpl. now apply P_sent.
Qed.

Lemma stable_prismaCreate : stable P prismaCreate.
Proof using P_bump. apply stable_call. Qed.

Lemma stable_cancelJobById (id : string) : stable P (cancelJobById id).
Proof using P_bump P_remove.
  apply stable_bind; [apply stable_getJob|]. intros [j|].
  - apply stable_removeJob.
  - apply stable_ret.
Qed.

Lemma stable_cancelLegacy (phone tagName : string) : stable P (cancelLegacy phone tagName).
Proof using P_bump P_remove.
  apply stable_forEach. intros i. apply stable_catch.
  - apply stable_cancelJobById.
  - intros; apply stable_ret.
Qed.

Lemma stable_cancelTagged (phone tagName : string) : stable P (cancelTagged phone tagName).
Proof using P_bump P_remove.
  apply stable_bind; [apply stable_cancelJobById | intros; apply stable_cancelLegacy].
Qed.

Lemma stable_cancelHealthCheckups (phone tagName : string) :
  stable P (cancelHealthCheckups phone tagName).
Proof using P_bump P_remove.
  apply stable_catch; [|intros; apply stable_ret].
  destruct (String.eqb tagName "all").
  - apply stable_forEach. intros t. apply stable_catch;
      [apply stable_cancelTagged | intros; apply stable_ret].
  - apply stable_cancelTagged.
Qed.

Lemma stable_scheduleHealthCheckup (phone : string) (sym level tagName : option string) :
  stable P (scheduleHealthCheckup phone sym level tagName).
Proof using P_bump P_remove P_added P_addFailed.
  apply stable_bind; [apply stable_cancelHealthCheckups|]. intros _.
  apply stable_bind; [apply stable_gets|]. intros clock. apply stable_cronAdd.
Qed.

Lemma stable_scheduleWeatherAlertCheckin (phone : string) (ws : WaveStatus)
    (pd : PatientData) :
  stable P (scheduleWeatherAlertCheckin phone ws pd).
Proof using P_bump P_remove P_added P_addFailed.
  apply stable_bind; [apply stable_cancelHealthCheckups|]. intros _.
  destruct (alertUrgency ws); [|apply stable_ret].
  apply stable_bind; [apply stable_gets|]. intros clock. apply stable_cronAdd.
Qed.

Lemma stable_scheduleDailyCheckup (phone : string) : stable P (scheduleDailyCheckup phone).
Proof using P_bump P_remove P_added P_addFailed.
  apply stable_bind; [apply stable_cancelHealthCheckups|]. intros _.
  apply stable_bind; [apply stable_gets|]. intros clock. apply stable_cronAdd.
Qed.

Lemma stable_updateMonitoringFrequency (phone level : string) (tagName : option string) :
  stable P (updateMonitoringFrequency phone level tagName).
Proof using P_bump P_remove P_added P_addFailed.
  apply stable_catch; [|intros; apply stable_ret].
  apply stable_bind; [apply stable_cancelHealthCheckups|]. intros _.
  destruct (String.eqb _ _); [apply stable_scheduleHealthCheckup | apply stable_ret].
Qed.

Lemma stable_cancelAIMonitoring (phone : string) : stable P (cancelAIMonitoring phone).
Proof using P_bump P_remove.
  apply stable_catch; [|intros; apply stable_ret].
  apply stable_bind; [apply stable_getJobs|]. intros jobs.
  apply stable_forEach. intros j.
  destruct (isAIJobOf phone j); [apply stable_removeJob | apply stable_ret].
Qed.

Lemma stable_scheduleAIFrom (phone : string) (pd : PatientData) (a : SymptomAnalysis)
    (base : string) (rest : list Z) :
  forall i, stable P (scheduleAIFrom phone pd a base i rest).
Proof using P_bump P_added P_addFailed.
  induction rest as [|d rest IH]; intros i; simpl.
  - apply stable_ret.
  - apply stable_bind; [apply stable_cronAdd | intros; apply IH].
Qed.

Lemma stable_scheduleAISymptomMonitoring (phone : string) (pd : PatientData)
    (a : SymptomAnalysis) :
  stable P (scheduleAISymptomMonitoring phone pd a).
Proof using P_bump P_remove P_added P_addFailed.
  apply stable_bind; [apply stable_gets|]. intros clock.
  apply stable_bind; [apply stable_cancelAIMonitoring|]. intros _.
  apply stable_scheduleAIFrom.
Qed.

(** The handlers that only send and log. *)
Lemma stable_processDailyHealthCheck (job : Job) : stable P (processDailyHealthCheck job).
Proof using P_bump P_sent.
  apply stable_rethrowing.
  apply stable_bind; [apply stable_defined|]. intros _.
  apply stable_bind; [apply stable_twilioCreate | intros; apply stable_prismaCreate].
Qed.

Lemma stable_processAISymptomCheck (job : Job) : stable P (processAISymptomCheck job).
Proof using P_bump P_sent.
  apply stable_rethrowing.
  apply stable_bind; [apply stable_defined|]. intros _.
  apply stable_bind; [apply stable_twilioCreate | intros; apply stable_prismaCreate].
Qed.

Lemma stable_processDailyRoutineCheckup (job : Job) :
  stable P (processDailyRoutineCheckup job).
Proof using P_bump P_sent.
  apply stable_rethrowing.
  apply stable_bind; [apply stable_twilioCreate | intros; apply stable_prismaCreate].
Qed.

Lemma stable_processLegacySymptomCheck (job : Job) :
  stable P (processLegacySymptomCheck job).
Proof using P_bump P_sent.
  apply stable_rethrowing.
  apply stable_bind; [apply stable_twilioCreate | intros; apply stable_prismaCreate].
Qed.


Lemma stable_processRecurringHealthMonitor (job : Job) :
  stable P (processRecurringHealthMonitor job).
Proof using P_bump P_sent P_remove P_added P_addFailed.
  apply stable_rethrowing.
  apply stable_bind; [apply stable_twilioCreate|]. intros _.
  apply stable_bind; [apply stable_prismaCreate|]. intros _.
  apply stable_scheduleHealthCheckup.
Qed.

Lemma stable_processWeatherAlertCheckin (sc : Scope) (job : Job) :
  stable P (processWeatherAlertCheckin sc job).
Proof using P_bump P_queued P_added P_addFailed.
  apply stable_rethrowing.
  apply stable_bind; [apply stable_defined|]. intros ws.
  apply stable_bind; [apply stable_defined|]. intros pd.
  apply stable_bind.
  { destruct (65 <=? age pd); [apply stable_call | apply stable_ret]. }
  intros _. apply stable_bind; [apply stable_identifier|]. intros _.
  apply stable_bind; [apply stable_whatsappAdd|]. intros _.
  destruct (alertUrgency ws); [|apply stable_ret].
  apply stable_bind; [apply stable_identifier | intros; apply stable_cronAdd].
Qed.

Lemma stable_healthCronWorker (sc : Scope) (job : Job) (h : M unit) :
  healthCronWorker sc job = Some h -> stable P h.
Proof using P_bump P_sent P_queued P_remove P_added P_addFailed.
  unfold healthCronWorker.
  destruct (route (name job)); intros E; inversion E; subst;
    auto using stable_processDailyHealthCheck, stable_processDailyRoutineCheckup,
      stable_processAISymptomCheck, stable_processWeatherAlertCheckin,
      stable_processRecurringHealthMonitor, stable_processLegacySymptomCheck.
Qed.

Lemma stable_handlePollResponse (found : bool) (analysis : option AIAnalysis)
    (phone : string) (userExists : jsarg) (pollResponse : jsstring)
    (originalMessage : option jsstring) :
  stable P (handlePollResponse found analysis phone userExists pollResponse originalMessage).
Proof using P_bump P_queued P_remove P_added P_addFailed.
  unfold handlePollResponse.
  apply stable_bind.
  { apply stable_catch; [|intros; apply stable_ret].
    apply stable_bind; [apply stable_call|]. intros _.
    destruct found; [apply stable_ret|].
    apply stable_bind; [apply stable_call | intros; apply stable_whatsappAdd]. }
  intros _. apply stable_bind.
  { destruct (nonEmpty originalMessage); [|apply stable_ret].
    destruct analysis as [a|]; [|apply stable_ret].
    apply stable_bind; [|intros; apply stable_ret].
    apply stable_catch; [|intros; apply stable_ret].
    destruct (hasReply (Some a)); [apply stable_prismaCreate | apply stable_throw]. }
  intros ai.
  destruct (negb (arrayIncludes validResponses pollResponse));
    [apply stable_whatsappAdd|].
  apply stable_bind.
  { unfold chooseFinalMessage. destruct (hasReply ai).
    - destruct ai; apply stable_ret.
    - apply stable_bind.
      + destruct (jseqb pollResponse emergency_help); [apply stable_ret|].
        apply stable_bind; [apply stable_defined | intros; apply stable_ret].
      + intros [|]; [apply stable_ret | apply stable_throw]. }
  intros finalMessage.
  apply stable_bind; [apply stable_whatsappAdd|]. intros _.
  apply stable_bind; [|intros; apply stable_prismaCreate].
  unfold executeMonitoringAction. destruct (monitoringAction ai pollResponse).
  - apply stable_ret.
  - apply stable_cancelHealthCheckups.
  - apply stable_updateMonitoringFrequency.
  - apply stable_bind; [apply stable_cancelHealthCheckups | intros; apply stable_whatsappAdd].
Qed.

End Stable.

(* ================================================================== *)
(** * One pending job per identity *)

Section Invariant.

Lemma removeFirst_In (id : string) (q : list Job) (j : Job) :
  In j (removeFirst id q) -> In j q.
Proof.
  induction q as [|x q IH]; simpl; auto.
  destruct (hasId id x); simpl; intuition.
Qed.

Lemma removeFirst_ids_In (id k : string) (q : list Job) :
  In k (map jobId (removeFirst id q)) -> In k (map jobId q).
Proof.
  intros H. apply in_map_iff in H as (j & <- & Hj).
  apply in_map. eapply removeFirst_In; eauto.
Qed.

Lemma removeFirst_unique (id : string) (q : list Job) :
  uniqueIds q -> uniqueIds (removeFirst id q).
Proof.
  unfold uniqueIds. induction q as [|x q IH]; simpl; auto.
  intros H. inversion H as [|? ? Hx Hq]; subst.
  destruct (hasId id x); simpl; auto.
  constructor; auto. intros Hin. apply Hx. eapply removeFirst_ids_In; eauto.
Qed.

Lemma removeFirst_gone (id : string) (q : list Job) :
  uniqueIds q -> ~ In id (map jobId (removeFirst id q)).
Proof.
  unfold uniqueIds. induction q as [|x q IH]; simpl; auto.
  intros H. inversion H as [|? ? Hx Hq]; subst.
  unfold hasId at 1. destruct (String.eqb (jobId x) id) eqn:E; simpl.
  - apply String.eqb_eq in E. now subst.
  - apply String.eqb_neq in E. intros [F|F]; [auto|]. now apply IH in F.
Qed.

Lemma removeFirst_Forall (P : Job -> Prop) (id : string) (q : list Job) :
  Forall P q -> Forall P (removeFirst id q).
Proof.
  intros H. apply Forall_forall. intros j Hj.
  apply removeFirst_In in Hj. revert j Hj. now apply Forall_forall.
Qed.

Lemma removeIds_unique (ids : list string) (q : list Job) :
  uniqueIds q -> uniqueIds (removeIds ids q).
Proof.
  revert q; induction ids as [|id ids IH]; intros q H; simpl; auto.
  apply IH. now apply removeFirst_unique.
Qed.

Lemma removeIds_In (ids : list string) (q : list Job) (j : Job) :
  In j (removeIds ids q) -> In j q.
Proof.
  revert q; induction ids as [|id ids IH]; intros q H; simpl in *; auto.
  apply IH in H. eapply removeFirst_In; eauto.
Qed.

Lemma removeIds_Forall (P : Job -> Prop) (ids : list string) (q : list Job) :
  Forall P q -> Forall P (removeIds ids q).
Proof.
  intros H. apply Forall_forall. intros j Hj.
  apply removeIds_In in Hj. revert j Hj. now apply Forall_forall.
Qed.

Lemma removeIds_gone (id : string) (ids : list string) (q : list Job) :
  uniqueIds q -> ~ In id (map jobId (removeIds (id :: ids) q)).
Proof.
  intros H F. simpl in F. apply in_map_iff in F as (j & E & Hj).
  apply removeIds_In in Hj. apply (removeFirst_gone id q H).
  apply in_map_iff. eauto.
Qed.

Lemma cancelled_unique (phone tagName : string) (q : list Job) :
  uniqueIds q -> uniqueIds (cancelled phone tagName q).
Proof. unfold cancelled. destruct (String.eqb _ _); apply removeIds_unique. Qed.

Lemma cancelled_Forall (P : Job -> Prop) (phone tagName : string) (q : list Job) :
  Forall P q -> Forall P (cancelled phone tagName q).
Proof. unfold cancelled. destruct (String.eqb _ _); apply removeIds_Forall. Qed.

Lemma cancelled_In (phone tagName : string) (q : list Job) (j : Job) :
  In j (cancelled phone tagName q) -> In j q.
Proof. unfold cancelled. destruct (String.eqb _ _); apply removeIds_In. Qed.

Lemma existsb_hasId (id : string) (q : list Job) :
  ~ In id (map jobId q) -> existsb (hasId id) q = false.
Proof.
  induction q as [|j q IH]; simpl; auto. intros H.
  unfold hasId at 1. destruct (String.eqb (jobId j) id) eqn:E; simpl.
  - apply String.eqb_eq in E. tauto.
  - apply IH. tauto.
Qed.

(** After a cancellation for a tag other than ["all"], no pending job
    has the tag's id. *)
Lemma cancelled_gone (phone tagName : string) (q : list Job) :
  String.eqb tagName "all" = false -> uniqueIds q ->
  ~ In (cancelId phone tagName) (map jobId (cancelled phone tagName q)).
Proof.
  intros E H. unfold cancelled. rewrite E. now apply removeIds_gone.
Qed.


Lemma noClash_snoc (evs : list Event) (e : Event) :
  noClash evs -> (forall id, e = CronAdded id true -> aiId id = true) ->
  noClash (evs ++ [e]).
Proof.
  intros H He id F. apply in_app_iff in F as [F|[F|[]]].
  - now apply (H id).
  - now apply (He id).
Qed.

Lemma removeNth_In {A} (i : nat) (q : list A) (x : A) :
  In x (removeNth i q) -> In x q.
Proof.
  revert i; induction q as [|y q IH]; intros [|i]; simpl; auto.
  intros [H|H]; eauto.
Qed.

Lemma removeNth_unique (i : nat) (q : list Job) :
  uniqueIds q -> uniqueIds (removeNth i q).
Proof.
  unfold uniqueIds. revert i; induction q as [|y q IH]; intros [|i] H; simpl; auto;
    inversion H as [|? ? Hy Hq]; subst; auto.
  constructor; auto. intros F. apply Hy.
  apply in_map_iff in F as (j & <- & Hj). apply in_map. eapply removeNth_In; eauto.
Qed.

Lemma removeNth_gone (i : nat) (q : list Job) (j : Job) :
  uniqueIds q -> nth_error q i = Some j ->
  ~ In (jobId j) (map jobId (removeNth i q)).
Proof.
  unfold uniqueIds. revert i; induction q as [|y q IH]; intros [|i] H E; simpl in *;
    try discriminate; inversion H as [|? ? Hy Hq]; subst.
  - now inversion E; subst.
  - intros [F|F].
    + apply Hy. rewrite F. apply in_map. eapply nth_error_In; eauto.
    + eapply IH; eauto.
Qed.


Lemma rearmNth_ids (every : Z) (i : nat) (q : list Job) :
  map jobId (rearmNth every i q) = map jobId q.
Proof.
  revert i; induction q as [|y q IH]; intros [|i]; simpl; auto. now rewrite IH.
Qed.

Lemma canonicalJob_rearm (every : Z) (j : Job) : canonicalJob j -> canonicalJob (rearm every j).
Proof. intros (t & H). exists t. exact H. Qed.

Lemma rearmNth_canonical (every : Z) (i : nat) (q : list Job) :
  Forall canonicalJob q -> Forall canonicalJob (rearmNth every i q).
Proof.
  revert i; induction q as [|y q IH]; intros [|i] H; simpl; auto;
    inversion H; subst; constructor; auto using canonicalJob_rearm.
Qed.

(** Keys of [queue.js] and AI monitoring ids never meet. *)
Lemma aiId_cancelId (phone tagName : string) : aiId (cancelId phone tagName) = false.
Proof.
  unfold cancelId.
  destruct (String.eqb tagName "daily"); [reflexivity|].
  destruct (String.eqb tagName "symptom"); [reflexivity|].
  destruct (String.eqb tagName "weather-alert"); reflexivity.
Qed.

Lemma aiId_legacyJobId (phone tagName : string) (interval : Z) :
  aiId (legacyJobId phone tagName interval) = false.
Proof. reflexivity. Qed.

Lemma aiId_cancelIds (phone tagName : string) :
  Forall (fun id => aiId id = false) (cancelIds phone tagName).
Proof.
  unfold cancelIds. constructor; [apply aiId_cancelId|].
  apply Forall_forall. intros id Hin. apply in_map_iff in Hin as (i & <- & _).
  apply aiId_legacyJobId.
Qed.

Lemma hasId_keyed (id : string) (j : Job) :
  hasId id j = true -> keyed j = negb (aiId id).
Proof. unfold hasId, keyed. intros E. apply String.eqb_eq in E. now rewrite E. Qed.

Lemma filter_removeFirst_keyed (id : string) (q : list Job) :
  aiId id = false ->
  filter keyed (removeFirst id q) = removeFirst id (filter keyed q).
Proof.
  intros A. induction q as [|j q IH]; simpl; auto.
  destruct (hasId id j) eqn:E.
  - rewrite (hasId_keyed id j E), A. simpl. now rewrite E.
  - simpl. destruct (keyed j); simpl; rewrite ?E, IH; reflexivity.
Qed.

Lemma filter_removeFirst_ai (id : string) (q : list Job) :
  aiId id = true -> filter keyed (removeFirst id q) = filter keyed q.
Proof.
  intros A. induction q as [|j q IH]; simpl; auto.
  destruct (hasId id j) eqn:E.
  - rewrite (hasId_keyed id j E), A. reflexivity.
  - simpl. now rewrite IH.
Qed.

Lemma removeFirst_keyed_unique (id : string) (q : list Job) :
  uniqueIds (filter keyed q) -> uniqueIds (filter keyed (removeFirst id q)).
Proof.
  intros U. destruct (aiId id) eqn:A.
  - now rewrite filter_removeFirst_ai.
  - rewrite filter_removeFirst_keyed by exact A. now apply removeFirst_unique.
Qed.

Lemma filter_removeIds_keyed (ids : list string) (q : list Job) :
  Forall (fun id => aiId id = false) ids ->
  filter keyed (removeIds ids q) = removeIds ids (filter keyed q).
Proof.
  intros F. revert q; induction F as [|id ids A F IH]; intros q; simpl; auto.
  unfold removeIds in *. simpl. rewrite IH. now rewrite filter_removeFirst_keyed.
Qed.

Lemma filter_cancelled_keyed (phone tagName : string) (q : list Job) :
  filter keyed (cancelled phone tagName q) = cancelled phone tagName (filter keyed q).
Proof.
  unfold cancelled. destruct (String.eqb tagName "all");
    apply filter_removeIds_keyed.
  - apply Forall_forall. intros id Hin. apply in_flat_map in Hin as (t & _ & Hin).
    pose proof (aiId_cancelIds phone t) as F.
    eapply Forall_forall in F; eauto.
  - apply aiId_cancelIds.
Qed.






Lemma canonicalJob_keyed (j : Job) : canonicalJob j -> keyed j = true.
Proof.
  intros (t & _ & _ & Hid & _). unfold keyed, identityKey in *.
  now rewrite Hid, aiId_cancelId.
Qed.


End Invariant.

(* ================================================================== *)
(** * Every operation keeps the invariant *)

Section Kept.

Lemma kept_bump (w : World) : kept w -> kept (bump w).
Proof. intros [R I]. split; auto. Qed.

Lemma kept_remove (w : World) (id : string) :
  kept w -> kept (setCron (removeFirst id (healthCronQueue w)) w).
Proof.
  intros [R (U & C & T)]. split; [exact R|]. repeat split; cbn; auto.
  - now apply removeFirst_keyed_unique.
  - now apply removeFirst_Forall.
Qed.

Lemma kept_sent (w : World) (r : string) (m : Msg) :
  kept w -> kept (emit (TwilioSent r m) w).
Proof.
  intros [R (U & C & T)]. split; [exact R|]. repeat split; cbn; auto.
  apply noClash_snoc; auto. discriminate.
Qed.



(** An AI monitoring job never disturbs the keys of [queue.js]. *)
Lemma kept_cronAdd_ai (j : Job) (w : World) :
  kept w -> aiShaped j -> kept (snd (cronAdd j w)).
Proof.
  intros [R (U & C & T)] Aj. rewrite cronAdd_ok by exact R. cbn.
  destruct Aj as (An & Ai & Ar).
  split; [exact R|]. repeat split; cbn.
  - rewrite filter_app. simpl. unfold keyed at 2. rewrite Ai. simpl.
    now rewrite app_nil_r.
  - apply Forall_app. split; auto. constructor; [right; repeat split; auto | constructor].
  - apply noClash_snoc; auto. intros id E. injection E as E1 E2. now rewrite <- E1.
Qed.



Lemma canonical_recurringJob (phone : string) (sym : option string) (level : string)
    (interval : jsval) (clock : Z) :
  canonicalJob (recurringJob phone sym level "symptom" interval clock).
Proof. exists Symptom. repeat split; auto; discriminate. Qed.








Lemma triple_bind {A B} (P R Q : World -> Prop) (m : M A) (k : A -> M B) :
  triple P m R -> (forall w, R w -> Q w) -> (forall a, triple R (k a) Q) ->
  triple P (bind m k) Q.
Proof.
  intros Hm HRQ Hk w H. unfold bind. specialize (Hm w H).
  destruct (m w) as [[a|e] w']; simpl in *; auto. now apply Hk.
Qed.

Lemma triple_rethrowing {A} (P Q : World -> Prop) (m : M A) :
  triple P m Q -> triple P (rethrowing m) Q.
Proof.
  intros Hm w H. specialize (Hm w H). unfold rethrowing, catch, throw.
  destruct (m w) as [[a|e] w']; auto.
Qed.



Lemma stable_kept_sender {A} (m : M A) :
  (forall P : World -> Prop,
      (forall w, P w -> P (bump w)) ->
      (forall w r msg, P w -> P (emit (TwilioSent r msg) w)) ->
      stable P m) ->
  stable kept m.
Proof. intros H. apply H; auto using kept_bump, kept_sent. Qed.


Lemma aiShaped_aiJob (phone : string) (pd : PatientData) (a : SymptomAnalysis)
    (stamp : Z) (i : nat) (d : Z) :
  aiShaped (aiJob phone pd a ("ai-symptom-" ++ phone ++ "-" ++ decimal stamp) i d).
Proof.
  repeat split. unfold aiId. cbn.
  now destruct ((phone ++ String "-" (decimal stamp)) ++
                String "-" (decimal (Z.of_nat i + 1)))%string.
Qed.

Lemma kept_scheduleAISymptomMonitoring (phone : string) (pd : PatientData)
    (a : SymptomAnalysis) :
  stable kept (scheduleAISymptomMonitoring phone pd a).
Proof.
  unfold scheduleAISymptomMonitoring.
  apply stable_bind; [apply stable_gets|]. intros clock.
  apply stable_bind;
    [apply stable_cancelAIMonitoring; auto using kept_bump, kept_remove|].
  intros _. generalize 0%nat as i.
  induction (intervals (suggestedMonitoring a)) as [|d rest IH]; intros i; simpl.
  - apply stable_ret.
  - apply stable_bind; [|intros; apply IH].
    intros w K. apply kept_cronAdd_ai; auto.
    apply (aiShaped_aiJob phone pd a clock i d).
Qed.




(** A pending job of one of the three tracks sits under the key of its
    identity. *)
Lemma tracked_job_key (j : Job) (phone : string) (t : MonitoringTrack) :
  wellFormedJob j -> t <> AISymptom -> ofIdentity phone t j = true ->
  jobId j = identityKey phone t /\ keyed j = true.
Proof.
  intros W Ht F. unfold ofIdentity in F.
  apply andb_true_iff in F as [Hp Hf]. apply String.eqb_eq in Hp.
  destruct W as [Cj|(An & _)].
  - pose proof (canonicalJob_keyed j Cj) as K.
    destruct Cj as (t' & Ht' & _ & Hid & _). rewrite Ht' in Hf.
    assert (t' = t) by (destruct t, t'; try discriminate; reflexivity). subst t'.
    split; [|exact K]. now rewrite Hid, Hp.
  - unfold trackOf in Hf. rewrite An in Hf. cbn in Hf.
    destruct t; try discriminate. now elim Ht.
Qed.


End Kept.

(* ================================================================== *)
(** * C1: at most one pending job per identity *)





(* ================================================================== *)
(** * C10: an unreachable store *)

Section Outage.

Lemma cancelTagged_unreachable (phone tagName : string) (w : World) :
  unreachable w -> cancelTagged phone tagName w = (Raise StoreError, bump w).
Proof.
  intros H. unfold cancelTagged, cancelJobById, getJob, bind.
  now rewrite (call_fails _ _ H).
Qed.

Lemma unreachable_bump (w : World) : unreachable w -> unreachable (bump w).
Proof. intros H k. apply H. Qed.

Lemma cancelAll_unreachable (phone : string) (tags : list string) (w : World) :
  unreachable w ->
  exists w', runs (forEach tags (fun jobTag =>
                     catch (cancelTagged phone jobTag) (fun _ => ret tt))) w tt w' /\
             healthCronQueue w' = healthCronQueue w /\ quiet w w'.
Proof.
  revert w; induction tags as [|t tags IH]; intros w H.
  - exists w. repeat split.
  - destruct (IH (bump w) (unreachable_bump w H)) as (w' & R & Q & F).
    exists w'. split; [|split].
    + simpl. eapply bind_runs; [|exact R].
      unfold runs, catch. now rewrite cancelTagged_unreachable.
    + exact Q.
    + eapply quiet_trans; [apply quiet_bump | exact F].
Qed.

(** With the store unreachable, [cancelHealthCheckups] logs the error
    and returns normally; nothing is removed. *)
Lemma cancelHealthCheckups_unreachable (phone tagName : string) (w : World) :
  unreachable w ->
  exists w', runs (cancelHealthCheckups phone tagName) w tt w' /\
             healthCronQueue w' = healthCronQueue w /\ quiet w w'.
Proof.
  intros H. unfold cancelHealthCheckups. destruct (String.eqb tagName "all").
  - destruct (cancelAll_unreachable phone jobTypes w H) as (w' & R & Q & F).
    exists w'. split; [|split]; auto. now apply catch_runs.
  - exists (bump w). split; [|split; [reflexivity | apply quiet_bump]].
    unfold runs, catch. now rewrite cancelTagged_unreachable.
Qed.

Lemma cronAdd_fails (j : Job) (w : World) :
  unreachable w ->
  cronAdd j w = (Raise StoreError, emit (CronAddFailed (jobId j)) (bump w)).
Proof. intros H. unfold cronAdd. now rewrite H. Qed.

Lemma cancel_then_add_unreachable (phone tagName : string) (mk : Z -> Job) (w : World) :
  unreachable w ->
  fst ((cancelHealthCheckups phone tagName ;; clock <- gets now ;; cronAdd (mk clock)) w)
  = Raise StoreError /\
  healthCronQueue
    (snd ((cancelHealthCheckups phone tagName ;; clock <- gets now ;; cronAdd (mk clock)) w))
  = healthCronQueue w.
Proof.
  intros H.
  destruct (cancelHealthCheckups_unreachable phone tagName w H) as (w1 & R1 & Q1 & F1).
  assert (H1 : unreachable w1)
    by (eapply unreachable_sameEnv; eauto using quiet_sameEnv).
  unfold bind at 1 3. rewrite R1. unfold bind, gets.
  rewrite cronAdd_fails by exact H1. cbn. auto.
Qed.

End Outage.

(** C10 (as amended). While the JobStore is unreachable for the whole
    call, [cancelHealthCheckups] and [updateMonitoringFrequency] catch
    the store error and return normally, the scheduling helpers that
    enqueue propagate it to their caller, and in every case the set of
    pending jobs is exactly what it was before the call. *)
Theorem outage_leaves_pending_jobs (w : World) :
  unreachable w ->
  (forall phone tagName,
      fst (cancelHealthCheckups phone tagName w) = Ret tt /\
      healthCronQueue (snd (cancelHealthCheckups phone tagName w)) = healthCronQueue w) /\
  (forall phone level tagName,
      fst (updateMonitoringFrequency phone level tagName w) = Ret tt /\
      healthCronQueue (snd (updateMonitoringFrequency phone level tagName w))
      = healthCronQueue w) /\
  (forall phone sym level tagName,
      fst (scheduleHealthCheckup phone sym level tagName w) = Raise StoreError /\
      healthCronQueue (snd (scheduleHealthCheckup phone sym level tagName w))
      = healthCronQueue w) /\
  (forall phone,
      fst (scheduleDailyCheckup phone w) = Raise StoreError /\
      healthCronQueue (snd (scheduleDailyCheckup phone w)) = healthCronQueue w).
Proof.
  intros H. repeat split.
  - destruct (cancelHealthCheckups_unreachable phone tagName w H) as (w1 & R1 & _).
    now rewrite R1.
  - destruct (cancelHealthCheckups_unreachable phone tagName w H) as (w1 & R1 & Q1 & _).
    now rewrite R1.
  - unfold updateMonitoringFrequency, catch.
    match goal with
    | |- context [match ?m w with _ => _ end] => destruct (m w) as [[[]|e] w']
    end; reflexivity.
  - unfold updateMonitoringFrequency.
    set (tg := orDefault tagName "symptom").
    destruct (cancelHealthCheckups_unreachable phone tg w H) as (w1 & R1 & Q1 & F1).
    assert (H1 : unreachable w1)
      by (eapply unreachable_sameEnv; eauto using quiet_sameEnv).
    unfold catch, bind at 1. rewrite R1.
    destruct (String.eqb tg "symptom"); [|cbn; exact Q1].
    destruct (cancel_then_add_unreachable phone (orDefault (Some tg) "symptom")
                (fun clock => recurringJob phone (Some "updated"%string)
                                (orDefault (Some level) "medium")
                                (orDefault (Some tg) "symptom")
                                (intervalMinutesFor (orDefault (Some level) "medium")) clock)
                w1 H1) as [E1 E2].
    unfold scheduleHealthCheckup.
    match goal with
    | |- context [match ?m w1 with _ => _ end] => destruct (m w1) as [[[]|e] w2]
    end; cbn in *; congruence.
  - apply (cancel_then_add_unreachable phone (orDefault tagName "symptom")
             (fun clock => recurringJob phone sym (orDefault level "medium")
                             (orDefault tagName "symptom")
                             (intervalMinutesFor (orDefault level "medium")) clock) w H).
  - apply (cancel_then_add_unreachable phone (orDefault tagName "symptom")
             (fun clock => recurringJob phone sym (orDefault level "medium")
                             (orDefault tagName "symptom")
                             (intervalMinutesFor (orDefault level "medium")) clock) w H).
  - apply (cancel_then_add_unreachable phone "daily" (dailyJob phone) w H).
  - apply (cancel_then_add_unreachable phone "daily" (dailyJob phone) w H).
Qed.

Lemma outage_leaves_pending_jobs_witness :
  (forall phone tagName,
      fst (cancelHealthCheckups phone tagName (onHighChain silent)) = Ret tt /\
      healthCronQueue (snd (cancelHealthCheckups phone tagName (onHighChain silent)))
      = healthCronQueue (onHighChain silent)) /\
  (forall phone level tagName,
      fst (updateMonitoringFrequency phone level tagName (onHighChain silent)) = Ret tt /\
      healthCronQueue (snd (updateMonitoringFrequency phone level tagName (onHighChain silent)))
      = healthCronQueue (onHighChain silent)) /\
  (forall phone sym level tagName,
      fst (scheduleHealthCheckup phone sym level tagName (onHighChain silent))
      = Raise StoreError /\
      healthCronQueue (snd (scheduleHealthCheckup phone sym level tagName (onHighChain silent)))
      = healthCronQueue (onHighChain silent)) /\
  (forall phone,
      fst (scheduleDailyCheckup phone (onHighChain silent)) = Raise StoreError /\
      healthCronQueue (snd (scheduleDailyCheckup phone (onHighChain silent)))
      = healthCronQueue (onHighChain silent)).
Proof.
  apply outage_leaves_pending_jobs. intros k. reflexivity.
Defined.

(** C10 fails as stated: with the store unreachable, the cancellation
    of the patient's symptom monitoring does not propagate the store
    error; it returns normally. *)
Lemma cancel_swallows_store_error :
  fst (cancelHealthCheckups "+15550100" "symptom" (onHighChain silent)) = Ret tt /\
  fst (cancelHealthCheckups "+15550100" "symptom" (onHighChain silent))
  <> Raise StoreError.
Proof. split; [vm_compute; reflexivity | vm_compute; discriminate]. Qed.

(** When the store stops answering between the cancellation and the
    enqueue, [scheduleHealthCheckup] throws and the previous job is
    already gone. *)
Lemma outage_after_cancel_loses_job :
  fst (scheduleHealthCheckup "+15550100" (Some "dizzy"%string) (Some "critical"%string)
         (Some "symptom"%string) (onHighChain (fun k => Nat.leb 8 k)))
  = Raise StoreError /\
  healthCronQueue
    (snd (scheduleHealthCheckup "+15550100" (Some "dizzy"%string) (Some "critical"%string)
            (Some "symptom"%string) (onHighChain (fun k => Nat.leb 8 k))))
  = [].
Proof. split; vm_compute; reflexivity. Qed.

(* ================================================================== *)
(** * C9: dispatch comes before the successor is enqueued *)

Section DispatchFirst.

Variable phone : string.
Variable t0 : list Event.

Lemma dispatchedSince_emit (e : Event) (w : World) :
  dispatchedSince phone t0 w -> dispatchedSince phone t0 (emit e w).
Proof.
  intros (d & evs & E & D). exists d, (evs ++ [e]). split; auto.
  cbn. rewrite E, <- app_assoc. reflexivity.
Qed.

Lemma dispatchedSince_same (w w' : World) :
  trace w' = trace w -> dispatchedSince phone t0 w -> dispatchedSince phone t0 w'.
Proof. intros E (d & evs & E' & D). exists d, evs. split; auto. congruence. Qed.

Lemma sends_dispatchedFirst (evs : list Event) :
  Forall (fun e => ~ isEnqueueAttempt e) evs -> dispatchedFirst phone evs.
Proof.
  intros F pre e post E A. subst evs. apply Forall_app in F as [_ F].
  inversion F; subst. contradiction.
Qed.

Lemma head_dispatchedFirst (d : Event) (evs : list Event) :
  isDispatchTo phone d -> dispatchedFirst phone (d :: evs).
Proof.
  intros D pre e post E A. destruct pre as [|x pre]; simpl in E.
  - inversion E; subst. destruct e; contradiction.
  - inversion E; subst. exists x. simpl. auto.
Qed.

(** Once the dispatch is in the trace, it stays its first event
    whatever runs next: the code only appends to the trace. *)
Lemma dispatchedSince_all (A : Type) (m : M A) :
  (forall P : World -> Prop,
      (forall w, P w -> P (bump w)) ->
      (forall w id, P w -> P (setCron (removeFirst id (healthCronQueue w)) w)) ->
      (forall w j, P w ->
         P (emit (CronAdded (jobId j) (existsb (hasId (jobId j)) (healthCronQueue w)))
                 (setCron (healthCronQueue w ++ [j]) w))) ->
      (forall w id, P w -> P (emit (CronAddFailed id) w)) ->
      stable P m) ->
  stable (dispatchedSince phone t0) m.
Proof.
  intros H. apply H.
  - intros w. now apply dispatchedSince_same.
  - intros w id. now apply dispatchedSince_same.
  - intros w j Hw. apply dispatchedSince_emit.
    eapply dispatchedSince_same; [|exact Hw]. reflexivity.
  - intros w id. apply dispatchedSince_emit.
Qed.

Lemma snd_rethrowing {A} (m : M A) (w : World) : snd (rethrowing m w) = snd (m w).
Proof.
  unfold rethrowing, catch, throw. destruct (m w) as [[a|e] w']; reflexivity.
Qed.

(** A handler that starts by sending through Twilio. *)
Lemma twilio_first {A} (m : Msg) (k : unit -> M A) (w : World) :
  silentSince t0 w -> (forall u, stable (dispatchedSince phone t0) (k u)) ->
  silentSince t0 (snd (bind (twilioCreate phone m) k w)) \/
  dispatchedSince phone t0 (snd (bind (twilioCreate phone m) k w)).
Proof.
  intros Hs Hk. unfold twilioCreate, bind, call, modify.
  destruct (faults w (tick w)); cbn.
  - left. exact Hs.
  - right. apply Hk. exists (TwilioSent phone m), [].
    split; [cbn; now rewrite Hs | reflexivity].
Qed.

(** A handler step that queues the notification on the WhatsApp queue. *)
Lemma whatsapp_first {A} (m : Msg) (d : option Z) (k : unit -> M A) (w : World) :
  silentSince t0 w -> (forall u, stable (dispatchedSince phone t0) (k u)) ->
  silentSince t0 (snd (bind (whatsappAdd phone m d) k w)) \/
  dispatchedSince phone t0 (snd (bind (whatsappAdd phone m d) k w)).
Proof.
  intros Hs Hk. unfold whatsappAdd, bind, call, modify.
  destruct (faults w (tick w)); cbn.
  - left. exact Hs.
  - right. apply Hk. exists (WhatsappQueued phone m), [].
    split; [cbn; now rewrite Hs | reflexivity].
Qed.

Lemma recurring_dispatch_first (job : Job) (w : World) :
  phoneNumber (data job) = phone -> silentSince t0 w ->
  silentSince t0 (snd (processRecurringHealthMonitor job w)) \/
  dispatchedSince phone t0 (snd (processRecurringHealthMonitor job w)).
Proof.
  intros Hp Hs. unfold processRecurringHealthMonitor.
  rewrite snd_rethrowing, Hp. apply twilio_first; auto.
  intros _. apply dispatchedSince_all. intros P Pb Pr Pa Pf.
  apply stable_bind; [apply stable_prismaCreate; auto|]. intros _.
  apply stable_scheduleHealthCheckup; auto.
Qed.

Lemma weather_dispatch_first (sc : Scope) (job : Job) (w : World) :
  phoneNumber (data job) = phone -> silentSince t0 w ->
  silentSince t0 (snd (processWeatherAlertCheckin sc job w)) \/
  dispatchedSince phone t0 (snd (processWeatherAlertCheckin sc job w)).
Proof.
  intros Hp. revert w.
  change (triple (silentSince t0) (processWeatherAlertCheckin sc job)
            (fun w' => silentSince t0 w' \/ dispatchedSince phone t0 w')).
  assert (Sb : forall w, silentSince t0 w -> silentSince t0 (bump w)) by (intros w H; exact H).
  unfold processWeatherAlertCheckin. apply triple_rethrowing.
  apply (triple_bind (silentSince t0) (silentSince t0)); auto; [apply (stable_defined (silentSince t0))|].
  intros ws.
  apply (triple_bind (silentSince t0) (silentSince t0)); auto; [apply (stable_defined (silentSince t0))|].
  intros pd.
  apply (triple_bind (silentSince t0) (silentSince t0)); auto.
  { destruct (65 <=? age pd);
      [apply (stable_call (silentSince t0) Sb) | apply (stable_ret (silentSince t0))]. }
  intros _.
  apply (triple_bind (silentSince t0) (silentSince t0)); auto;
    [apply (stable_identifier (silentSince t0))|].
  intros _ w Hs. rewrite Hp. apply whatsapp_first; auto.
  intros _. apply dispatchedSince_all. intros P Pb Pr Pa Pf.
  destruct (alertUrgency ws); [|apply stable_ret].
  apply stable_bind; [apply stable_identifier|]. intros _.
  apply stable_cronAdd; auto.
Qed.

End DispatchFirst.

Lemma since_dispatchedFirst (phone : string) (w w' : World) :
  trace w' = trace w \/
  (exists d evs, trace w' = trace w ++ d :: evs /\ isDispatchTo phone d) ->
  exists evs, trace w' = trace w ++ evs /\ dispatchedFirst phone evs.
Proof.
  intros [E|(d & evs & E & D)].
  - exists []. rewrite app_nil_r. split; auto.
    intros pre e post F. destruct pre; discriminate.
  - exists (d :: evs). split; auto. now apply head_dispatchedFirst.
Qed.

(** C9. Whatever fails, in the trace of a fire handler every attempt
    to enqueue the successor job comes after the dispatch of the due
    notification to the patient; in particular, when the enqueue
    fails, the notification has been dispatched. *)
Theorem dispatch_before_reschedule (sc : Scope) (job : Job) (handler : M unit)
    (w : World) :
  healthCronWorker sc job = Some handler ->
  exists evs,
    trace (snd (handler w)) = trace w ++ evs /\
    dispatchedFirst (phoneNumber (data job)) evs /\
    (forall id, In (CronAddFailed id) evs ->
                exists d, In d evs /\ isDispatchTo (phoneNumber (data job)) d).
Proof.
  intros H.
  assert (G : exists evs, trace (snd (handler w)) = trace w ++ evs /\
                          dispatchedFirst (phoneNumber (data job)) evs).
  { unfold healthCronWorker in H.
    assert (S : forall m : M unit,
               (forall P : World -> Prop,
                   (forall w, P w -> P (bump w)) ->
                   (forall w r m, P w -> P (emit (TwilioSent r m) w)) ->
                   stable P m) ->
               exists evs, trace (snd (m w)) = trace w ++ evs /\
                           dispatchedFirst (phoneNumber (data job)) evs).
    { intros m Hm.
      assert (St : stable (fun w' => exists evs, trace w' = trace w ++ evs /\
                             Forall (fun e => ~ isEnqueueAttempt e) evs) m).
      { apply Hm.
        - intros w1 (evs & E & F). exists evs. auto.
        - intros w1 r m1 (evs & E & F). exists (evs ++ [TwilioSent r m1]). split.
          + cbn. rewrite E, <- app_assoc. reflexivity.
          + apply Forall_app. split; [exact F|]. constructor; [simpl; tauto | constructor]. }
      destruct (St w) as (evs & E & F).
      { exists []. rewrite app_nil_r. auto. }
      exists evs. split; auto. now apply sends_dispatchedFirst. }
    destruct (route (name job)); inversion H; subst.
    - apply S. intros. now apply stable_processDailyHealthCheck.
    - apply S. intros. now apply stable_processDailyRoutineCheckup.
    - apply S. intros. now apply stable_processAISymptomCheck.
    - apply since_dispatchedFirst.
      destruct (weather_dispatch_first (phoneNumber (data job)) (trace w) sc job w
                  eq_refl eq_refl) as [E|E]; auto.
    - apply since_dispatchedFirst.
      destruct (recurring_dispatch_first (phoneNumber (data job)) (trace w) job w
                  eq_refl eq_refl) as [E|E]; auto.
    - apply S. intros. now apply stable_processLegacySymptomCheck. }
  destruct G as (evs & E & D). exists evs. repeat split; auto.
  intros id Hin. apply in_split in Hin as (pre & post & ->).
  destruct (D pre (CronAddFailed id) post eq_refl I) as (d & Hd & Dd).
  exists d. split; auto. apply in_app_iff. auto.
Qed.

(* ================================================================== *)
(** * C8: the daily track *)









(* ================================================================== *)
(** * C5: the bounded AI monitoring chain *)

Section BoundedChain.

Lemma forEach_skips {A} (xs : list A) (body : A -> M unit) (w : World) :
  (forall x, In x xs -> body x = ret tt) -> forEach xs body w = (Ret tt, w).
Proof.
  induction xs as [|x xs IH]; simpl; intros H; [reflexivity|].
  unfold bind. rewrite (H x) by auto. unfold ret at 1. apply IH. auto.
Qed.

Lemma firstn_member {A} (n : nat) (l : list A) (x : A) :
  In x (firstn n l) -> In x l.
Proof.
  revert l; induction n as [|n IH]; intros [|y l]; simpl; try tauto.
  intros [H|H]; auto.
Qed.

Lemma isAIJobOf_ofIdentity (phone : string) (j : Job) :
  isAIJobOf phone j = true -> ofIdentity phone AISymptom j = true.
Proof.
  unfold isAIJobOf, ofIdentity, trackOf. intros H.
  apply andb_true_iff in H as [H1 H2]. rewrite H1.
  apply String.eqb_eq in H2. rewrite H2. reflexivity.
Qed.

Lemma filter_nil_false {A} (f : A -> bool) (q : list A) (x : A) :
  filter f q = [] -> In x q -> f x = false.
Proof.
  intros E Hin. destruct (f x) eqn:F; auto.
  assert (In x (filter f q)) by (apply filter_In; auto).
  rewrite E in H. destruct H.
Qed.

(** With no AI job of the patient pending, the cancellation that
    precedes the scheduling removes nothing. *)
Lemma cancelAIMonitoring_nothing (phone : string) (w : World) :
  reachable w -> pendingFor phone AISymptom w = [] ->
  exists w', runs (cancelAIMonitoring phone) w tt w' /\
             healthCronQueue w' = healthCronQueue w /\ quiet w w'.
Proof.
  intros R E. exists (bump w). split; [|split; [reflexivity | apply quiet_bump]].
  unfold cancelAIMonitoring. apply catch_runs.
  unfold runs, getJobs, bind at 1. unfold bind at 1. rewrite (call_ok _ _ R).
  unfold gets. apply forEach_skips. intros j Hj.
  apply firstn_member in Hj. cbn [skipn bump healthCronQueue] in Hj.
  destruct (isAIJobOf phone j) eqn:F; auto.
  apply isAIJobOf_ofIdentity in F.
  rewrite (filter_nil_false _ _ j E) in F; [discriminate|].
  exact Hj.
Qed.

Lemma scheduleAIFrom_ok (phone : string) (pd : PatientData) (a : SymptomAnalysis)
    (base : string) (rest : list Z) :
  forall i w, reachable w ->
  exists w' evs,
    runs (scheduleAIFrom phone pd a base i rest) w tt w' /\
    healthCronQueue w' = healthCronQueue w ++ aiJobsFrom phone pd a base i rest /\
    whatsappQueue w' = whatsappQueue w /\
    trace w' = trace w ++ evs /\ List.length evs = List.length rest /\
    Forall isEnqueueAttempt evs /\ sameEnv w w'.
Proof.
  induction rest as [|d rest IH]; intros i w R; simpl.
  - exists w, []. rewrite !app_nil_r. repeat split; constructor.
  - set (j := aiJob phone pd a base i d).
    assert (R1 : reachable (snd (cronAdd j w))).
    { rewrite cronAdd_ok by exact R. exact R. }
    destruct (IH (S i) _ R1) as (w' & evs & Run & Q & W & T & L & F & E).
    rewrite cronAdd_ok in Run, Q, W, T, E by exact R. cbn in Q, W, T.
    exists w', (CronAdded (jobId j) (existsb (hasId (jobId j)) (healthCronQueue w)) :: evs).
    split; [|repeat split].
    + eapply bind_runs; [|exact Run]. unfold runs. now rewrite cronAdd_ok.
    + rewrite Q, <- app_assoc. reflexivity.
    + exact W.
    + rewrite T, <- app_assoc. reflexivity.
    + simpl. now rewrite L.
    + constructor; [exact I | exact F].
    + apply E.
    + apply E.
Qed.

Lemma aiJobsFrom_identity (phone : string) (pd : PatientData) (a : SymptomAnalysis)
    (base : string) (rest : list Z) :
  forall i, filter (ofIdentity phone AISymptom) (aiJobsFrom phone pd a base i rest)
            = aiJobsFrom phone pd a base i rest.
Proof.
  induction rest as [|d rest IH]; intros i; simpl; [reflexivity|].
  unfold ofIdentity at 1. cbn. rewrite String.eqb_refl. cbn. now rewrite IH.
Qed.


Lemma aiJobsFrom_numbers (phone : string) (pd : PatientData) (a : SymptomAnalysis)
    (base : string) (rest : list Z) :
  forall i, map (fun j => checkNumber (data j)) (aiJobsFrom phone pd a base i rest)
            = map (fun k => Some (Z.of_nat k + 1)) (seq i (List.length rest)).
Proof.
  induction rest as [|d rest IH]; intros i; simpl; [reflexivity|]. now rewrite IH.
Qed.






End BoundedChain.



(* ================================================================== *)
(** * Poll replies: escalation and emergency *)

Section PollReplies.

Lemma bind_run {A B} (m : M A) (k : A -> M B) (w w1 : World) (a : A) :
  m w = (Ret a, w1) -> bind m k w = k a w1.
Proof. unfold bind. now intros ->. Qed.



Lemma filter_none {A} (f : A -> bool) (l : list A) :
  (forall x, In x l -> f x = false) -> filter f l = [].
Proof.
  induction l as [|x l IH]; simpl; intros H; auto.
  rewrite (H x) by auto. apply IH. auto.
Qed.

(** A cancellation leaves no pending job of the identity. *)
Lemma cancelled_clears (phone : string) (t : MonitoringTrack) (q : list Job) :
  t <> AISymptom -> uniqueIds (filter keyed q) -> Forall wellFormedJob q ->
  filter (ofIdentity phone t) (cancelled phone (trackTag t) q) = [].
Proof.
  intros Ht U C. apply filter_none. intros j Hj.
  destruct (ofIdentity phone t j) eqn:F; auto.
  assert (Hq : In j q) by (eapply cancelled_In; eauto).
  assert (W : wellFormedJob j) by (eapply Forall_forall in C; eauto).
  destruct (tracked_job_key j phone t W Ht F) as [Hid K].
  elim (cancelled_gone phone (trackTag t) (filter keyed q)).
  - destruct t; reflexivity.
  - exact U.
  - rewrite <- filter_cancelled_keyed. apply in_map_iff. exists j. split.
    + rewrite Hid. destruct t; reflexivity.
    + apply filter_In. now split.
Qed.



End PollReplies.

(* ================================================================== *)
(** * C7: the emergency action *)




(* ================================================================== *)
(** * C4: escalation on a worse_condition reply *)





(** Through the webhook the reply does not even reach the escalation:
    the call passes (phoneNumber, pollResponse, messageText) to the
    parameters (phoneNumber, userExists, pollResponse,
    originalMessage), so the text "worse" is checked against the
    canonical tokens, rejected, and the chain is left as it was; the
    token itself as text runs into a TypeError on the undefined
    original message. *)
Lemma webhook_reply_never_escalates :
  (exists m, webhookPollBranch true (Some urgentAnalysis) "+15550100" (lit "worse") = Some m /\
             fst (m (onHighChain answering)) = Ret tt /\
             healthCronQueue (snd (m (onHighChain answering)))
             = healthCronQueue (onHighChain answering) /\
             map message (whatsappQueue (snd (m (onHighChain answering))))
             = [NotUnderstoodMsg]) /\
  (exists m, webhookPollBranch true (Some urgentAnalysis) "+15550100"
               (lit "worse_condition") = Some m /\
             fst (m (onHighChain answering)) = Raise TypeError /\
             healthCronQueue (snd (m (onHighChain answering)))
             = healthCronQueue (onHighChain answering)).
Proof.
  split; eexists; (split; [vm_compute; reflexivity|]); repeat split; vm_compute; reflexivity.
Qed.

(* ================================================================== *)
(** * C6: the successor of a fired job *)

(** What the recurring handler leaves on a store that answers: the
    successor is the job [scheduleHealthCheckup] builds, and its check
    number is 1 whatever the number of the fired job. *)
Lemma recurring_successor (job : Job) (w : World) :
  reachable w ->
  exists w',
    processRecurringHealthMonitor job w = (Ret tt, w') /\
    healthCronQueue w'
    = cancelled (phoneNumber (data job)) (orDefault (tag (data job)) "symptom")
                (healthCronQueue w)
      ++ [recurringJob (phoneNumber (data job)) (symptom (data job))
            (orDefault (riskLevel (data job)) "medium")
            (orDefault (tag (data job)) "symptom")
            (intervalMinutesFor (orDefault (riskLevel (data job)) "medium")) (now w)] /\
    checkNumber
      (data (recurringJob (phoneNumber (data job)) (symptom (data job))
               (orDefault (riskLevel (data job)) "medium")
               (orDefault (tag (data job)) "symptom")
               (intervalMinutesFor (orDefault (riskLevel (data job)) "medium")) (now w)))
    = Some 1.
Proof.
  intros R. unfold processRecurringHealthMonitor, rethrowing.
  set (d := data job).
  assert (R1 : reachable (emit (TwilioSent (phoneNumber d)
                            (RecurringCheckMsg (riskLevel d) (checkNumber d))) (bump w)))
    by exact R.
  destruct (scheduleHealthCheckup_ok (phoneNumber d) (symptom d) (riskLevel d) (tag d)
              (bump (emit (TwilioSent (phoneNumber d)
                             (RecurringCheckMsg (riskLevel d) (checkNumber d))) (bump w))) R1)
    as (w' & Run & Q & _).
  exists w'. split; [|split; [exact Q | reflexivity]].
  unfold catch.
  rewrite (bind_run _ _ _ _ _ (twilioCreate_ok _ _ w R)).
  rewrite (bind_run _ _ _ _ _ (prismaCreate_ok _ R1)).
  unfold runs in Run. now rewrite Run.
Qed.

(** C6. The first check-in of a High symptom chain fires with check
    number 1 on a store that answers: exactly one successor is
    enqueued, with the same symptom, level and tag, but its check
    number is again 1, not 2. *)
Theorem recurring_successor_number_stays_one :
  map (fun j => checkNumber (data j)) (healthCronQueue (onHighChain answering))
  = [Some 1] /\
  fst (fire workerScope 0 (onHighChain answering)) = Ret tt /\
  map (fun j => (symptom (data j), riskLevel (data j), tag (data j), checkNumber (data j)))
      (healthCronQueue (snd (fire workerScope 0 (onHighChain answering))))
  = [(Some "dizzy"%string, Some "high"%string, Some "symptom"%string, Some 1)] /\
  map (fun j => checkNumber (data j))
      (healthCronQueue (snd (fire workerScope 0 (onHighChain answering))))
  <> [Some (1 + 1)].
Proof. repeat split; try (vm_compute; reflexivity). vm_compute. discriminate. Qed.

(** The weather handler does compute the next check number, but in the
    worker module as it is the queues are unbound names: the handler
    throws a ReferenceError before it dispatches or enqueues anything.
    With the names bound, the successor carries number 4 after 3. *)
Lemma weather_successor :
  fst (fire workerScope 0 (onWeatherChain answering)) = Raise ReferenceError /\
  healthCronQueue (snd (fire workerScope 0 (onWeatherChain answering))) = [] /\
  whatsappQueue (snd (fire workerScope 0 (onWeatherChain answering))) = [] /\
  fst (fire importingScope 0 (onWeatherChain answering)) = Ret tt /\
  map (fun j => checkNumber (data j))
      (healthCronQueue (snd (fire importingScope 0 (onWeatherChain answering))))
  = [Some 4].
Proof. repeat split; vm_compute; reflexivity. Qed.

(** A witness for C9: the enqueue of the successor fails after the
    notification went out. *)
Lemma dispatch_before_reschedule_witness :
  exists evs,
    trace (snd (processRecurringHealthMonitor
                  (recurringJob "+15550100" (Some "dizzy"%string) "high" "symptom" (VNum 5) 0)
                  (onHighChain (fun k => Nat.leb 10 k))))
    = trace (onHighChain (fun k => Nat.leb 10 k)) ++ evs /\
    dispatchedFirst "+15550100" evs /\
    (forall id, In (CronAddFailed id) evs ->
                exists d, In d evs /\ isDispatchTo "+15550100" d).
Proof.
  apply (dispatch_before_reschedule workerScope
           (recurringJob "+15550100" (Some "dizzy"%string) "high" "symptom" (VNum 5) 0)).
  reflexivity.
Defined.

Lemma reschedule_failure_after_dispatch :
  fst (processRecurringHealthMonitor
         (recurringJob "+15550100" (Some "dizzy"%string) "high" "symptom" (VNum 5) 0)
         (onHighChain (fun k => Nat.leb 10 k))) = Raise StoreError /\
  trace (snd (processRecurringHealthMonitor
                (recurringJob "+15550100" (Some "dizzy"%string) "high" "symptom" (VNum 5) 0)
                (onHighChain (fun k => Nat.leb 10 k))))
  = [TwilioSent "+15550100" (RecurringCheckMsg (Some "high"%string) (Some 1));
     CronAddFailed "recurring-monitor-+15550100-symptom"].
Proof. split; vm_compute; reflexivity. Qed.

(* ================================================================== *)
(** * Phone numbers *)

Section PhoneNumbers.

Lemma startsWith_app (n s : jsstring) : startsWith n (n ++ s) = true.
Proof.
  induction n as [|c n IH]; simpl; auto. now rewrite N.eqb_refl.
Qed.

Lemma skipn_length_app {A} (n s : list A) : skipn (List.length n) (n ++ s) = s.
Proof. induction n as [|c n IH]; simpl; auto. Qed.

Lemma replaceFirst_head (n r s : jsstring) : replaceFirst n r (n ++ s) = r ++ s.
Proof.
  destruct n as [|c n]; [destruct s; reflexivity|].
  cbn [replaceFirst app]. change (c :: n ++ s) with ((c :: n) ++ s).
  now rewrite startsWith_app, skipn_length_app.
Qed.

Lemma startsWith_split (n s : jsstring) :
  startsWith n s = true -> s = n ++ skipn (List.length n) s.
Proof.
  revert s; induction n as [|c n IH]; intros [|d s] H; simpl in *; try discriminate; auto.
  apply andb_true_iff in H as [E H]. apply N.eqb_eq in E. subst d.
  f_equal. now apply IH.
Qed.

Lemma filter_idem {A} (f : A -> bool) (l : list A) : filter f (filter f l) = filter f l.
Proof.
  induction l as [|x l IH]; simpl; auto.
  destruct (f x) eqn:E; simpl; rewrite ?E, IH; reflexivity.
Qed.

Lemma filter_all {A} (f : A -> bool) (l : list A) : forallb f l = true -> filter f l = l.
Proof.
  induction l as [|x l IH]; simpl; auto. intros H.
  apply andb_true_iff in H as [E H]. rewrite E, IH; auto.
Qed.

Lemma forallb_filter {A} (f : A -> bool) (l : list A) : forallb f (filter f l) = true.
Proof.
  induction l as [|x l IH]; simpl; auto.
  destruct (f x) eqn:E; simpl; rewrite ?E; auto.
Qed.

Lemma cleanPhone_plus (d : jsstring) : cleanPhone (lit "+" ++ d) = cleanPhone d.
Proof. reflexivity. Qed.

Lemma formattedPhone_shape (phoneNumber : jsstring) :
  exists digits, formattedPhone phoneNumber = lit "+1" ++ digits /\
                 forallb isDigit digits = true.
Proof.
  unfold formattedPhone. cbv zeta.
  pose proof (forallb_filter isDigit phoneNumber) as F. fold (cleanPhone phoneNumber) in F.
  destruct (startsWith (lit "1") (cleanPhone phoneNumber)) eqn:E.
  - apply startsWith_split in E. cbn [List.length lit map list_ascii_of_string] in E.
    exists (skipn 1 (cleanPhone phoneNumber)). split.
    + rewrite E at 1. reflexivity.
    + rewrite E in F. apply andb_true_iff in F. apply F.
  - exists (cleanPhone phoneNumber). auto.
Qed.

Lemma formattedPhone_fixed (digits : jsstring) :
  forallb isDigit digits = true ->
  formattedPhone (lit "+1" ++ digits) = lit "+1" ++ digits.
Proof.
  intros F. unfold formattedPhone. cbv zeta.
  change (cleanPhone (lit "+1" ++ digits)) with (49%N :: cleanPhone digits).
  unfold cleanPhone. rewrite (filter_all _ _ F). reflexivity.
Qed.

End PhoneNumbers.

(** X1. [formatPhoneNumber] always yields an address with the
    "whatsapp:" prefix and is idempotent: an address that already has
    the prefix is left as it is. *)
Theorem formatPhoneNumber_idempotent (phoneNumber : jsstring) :
  startsWith whatsappPrefix (formatPhoneNumber phoneNumber) = true /\
  formatPhoneNumber (formatPhoneNumber phoneNumber) = formatPhoneNumber phoneNumber.
Proof.
  assert (H : startsWith whatsappPrefix (formatPhoneNumber phoneNumber) = true).
  { unfold formatPhoneNumber.
    destruct (startsWith whatsappPrefix phoneNumber) eqn:E; auto using startsWith_app. }
  split; [exact H|]. unfold formatPhoneNumber at 1. now rewrite H.
Qed.

(** X2. Round trip of the two helpers: for a number that does not
    itself begin with "whatsapp:", extracting from the formatted
    address gives the number back, and formatting the extracted number
    gives the address back. *)
Theorem extract_format_round_trip (phoneNumber : jsstring) :
  startsWith whatsappPrefix phoneNumber = false ->
  extractPhoneNumber (formatPhoneNumber phoneNumber) = phoneNumber /\
  formatPhoneNumber (extractPhoneNumber (whatsappPrefix ++ phoneNumber))
  = whatsappPrefix ++ phoneNumber.
Proof.
  intros H. unfold extractPhoneNumber, formatPhoneNumber.
  rewrite H, replaceFirst_head. change ([] ++ phoneNumber) with phoneNumber.
  rewrite H. auto.
Qed.

Lemma extract_format_round_trip_witness :
  extractPhoneNumber (formatPhoneNumber (lit "+15550100")) = lit "+15550100" /\
  formatPhoneNumber (extractPhoneNumber (whatsappPrefix ++ lit "+15550100"))
  = whatsappPrefix ++ lit "+15550100".
Proof. apply extract_format_round_trip. reflexivity. Defined.

(** X3. The onboarding endpoint stores every phone number as "+1"
    followed by digits only, and normalising a stored number again
    changes nothing. *)
Theorem formattedPhone_canonical (phoneNumber : jsstring) :
  (exists digits, formattedPhone phoneNumber = lit "+1" ++ digits /\
                  forallb isDigit digits = true) /\
  formattedPhone (formattedPhone phoneNumber) = formattedPhone phoneNumber.
Proof.
  pose proof (formattedPhone_shape phoneNumber) as C.
  split; [exact C|]. destruct C as (d & -> & F). now apply formattedPhone_fixed.
Qed.

(** X4. The numbers the onboarding normalisation leaves unchanged are
    exactly those written as "+1" followed by digits: any other
    spelling (another country code, spaces, dashes) is stored under a
    different key than the one it was sent as. *)
Theorem formattedPhone_fixed_points (phoneNumber : jsstring) :
  formattedPhone phoneNumber = phoneNumber <->
  exists digits, phoneNumber = lit "+1" ++ digits /\ forallb isDigit digits = true.
Proof.
  split.
  - intros E. destruct (formattedPhone_shape phoneNumber) as (d & Hd & F).
    exists d. now rewrite <- E at 1.
  - intros (d & -> & F). now apply formattedPhone_fixed.
Qed.

(* ================================================================== *)
(** * Message formatting *)

Section Trimming.

Lemma trimStart_app (a b : jsstring) :
  trimStart (a ++ b) = if forallb isWhiteSpace a then trimStart b else trimStart a ++ b.
Proof.
  induction a as [|c a IH]; simpl; auto.
  destruct (isWhiteSpace c); simpl; auto.
Qed.

Lemma trimStart_allWhite (s : jsstring) : forallb isWhiteSpace s = true -> trimStart s = [].
Proof.
  induction s as [|c s IH]; simpl; auto.
  destruct (isWhiteSpace c); simpl; auto. discriminate.
Qed.

Lemma forallb_rev {A} (f : A -> bool) (l : list A) : forallb f (rev l) = forallb f l.
Proof.
  induction l as [|x l IH]; simpl; auto.
  rewrite forallb_app, IH. simpl. rewrite andb_true_r. apply andb_comm.
Qed.

(** [trimEnd], one unit at a time. *)
Lemma trimEnd_cons (c : N) (s : jsstring) :
  trimEnd (c :: s)
  = if isWhiteSpace c && forallb isWhiteSpace s then [] else c :: trimEnd s.
Proof.
  unfold trimEnd. simpl rev. rewrite trimStart_app, forallb_rev.
  destruct (forallb isWhiteSpace s) eqn:E.
  - rewrite (trimStart_allWhite (rev s)) by now rewrite forallb_rev.
    simpl. destruct (isWhiteSpace c); reflexivity.
  - rewrite andb_false_r, rev_app_distr. reflexivity.
Qed.

Lemma trimEnd_nil : trimEnd [] = [].
Proof. reflexivity. Qed.

Lemma trimStart_length (s : jsstring) : (List.length (trimStart s) <= List.length s)%nat.
Proof.
  induction s as [|c s IH]; simpl; auto.
  destruct (isWhiteSpace c); simpl; lia.
Qed.

Lemma trimEnd_length (s : jsstring) : (List.length (trimEnd s) <= List.length s)%nat.
Proof.
  induction s as [|c s IH]; [reflexivity|].
  rewrite trimEnd_cons. destruct (_ && _); simpl; lia.
Qed.

Lemma trim_length (s : jsstring) : (List.length (trim s) <= List.length s)%nat.
Proof.
  unfold trim. pose proof (trimEnd_length (trimStart s)). pose proof (trimStart_length s). lia.
Qed.

Lemma trimStart_Forall (P : N -> Prop) (s : jsstring) : Forall P s -> Forall P (trimStart s).
Proof.
  induction 1 as [|c s Hc Hs IH]; simpl; auto.
  destruct (isWhiteSpace c); auto.
Qed.

Lemma trimEnd_Forall (P : N -> Prop) (s : jsstring) : Forall P s -> Forall P (trimEnd s).
Proof.
  induction 1 as [|c s Hc Hs IH]; [constructor|].
  rewrite trimEnd_cons. destruct (_ && _); auto.
Qed.

Lemma trim_Forall (P : N -> Prop) (s : jsstring) : Forall P s -> Forall P (trim s).
Proof. intros H. now apply trimEnd_Forall, trimStart_Forall. Qed.

Lemma trimEnd_allWhite (s : jsstring) : forallb isWhiteSpace (trimEnd s) = forallb isWhiteSpace s.
Proof.
  induction s as [|c s IH]; [reflexivity|].
  rewrite trimEnd_cons. destruct (isWhiteSpace c) eqn:E, (forallb isWhiteSpace s) eqn:F;
    simpl; rewrite ?E, ?IH; auto.
Qed.

Lemma trimEnd_idem (s : jsstring) : trimEnd (trimEnd s) = trimEnd s.
Proof.
  induction s as [|c s IH]; [reflexivity|].
  rewrite trimEnd_cons. destruct (isWhiteSpace c && forallb isWhiteSpace s) eqn:E; auto.
  rewrite trimEnd_cons, trimEnd_allWhite, E, IH. reflexivity.
Qed.

Lemma trimStart_headed (s : jsstring) : headed (trimStart s).
Proof.
  induction s as [|c s IH]; simpl; auto.
  destruct (isWhiteSpace c) eqn:E; simpl; auto.
Qed.

Lemma headed_trimStart (s : jsstring) : headed s -> trimStart s = s.
Proof. destruct s as [|c s]; simpl; auto. now intros ->. Qed.

Lemma trimEnd_headed (s : jsstring) : headed s -> headed (trimEnd s).
Proof.
  destruct s as [|c s]; simpl; auto. intros E.
  rewrite trimEnd_cons, E. simpl. exact E.
Qed.

Lemma trim_idem (s : jsstring) : trim (trim s) = trim s.
Proof.
  unfold trim. rewrite (headed_trimStart (trimEnd (trimStart s))).
  - apply trimEnd_idem.
  - apply trimEnd_headed, trimStart_headed.
Qed.

Lemma collapseFrom_spaced (s : jsstring) : forall b, spaced b (collapseFrom b s) = true.
Proof.
  induction s as [|c s IH]; intros b; simpl; auto.
  destruct (isWhiteSpace c) eqn:E.
  - destruct b; [apply IH|]. simpl. change (isWhiteSpace 32) with true. simpl. apply IH.
  - simpl. rewrite E. apply IH.
Qed.

Lemma spaced_collapseFrom (s : jsstring) : forall b, spaced b s = true -> collapseFrom b s = s.
Proof.
  induction s as [|c s IH]; intros b; simpl; auto.
  destruct (isWhiteSpace c) eqn:E.
  - intros H. apply andb_true_iff in H as [H H2]. apply andb_true_iff in H as [H0 H1].
    apply N.eqb_eq in H0. destruct b; [discriminate|]. subst c. f_equal. now apply IH.
  - intros H. f_equal. now apply IH.
Qed.

Lemma spaced_weaken (s : jsstring) : spaced true s = true -> spaced false s = true.
Proof.
  destruct s as [|c s]; simpl; auto. destruct (isWhiteSpace c); auto.
  rewrite andb_false_r. discriminate.
Qed.

Lemma trimStart_spaced (s : jsstring) : forall b, spaced b s = true -> spaced false (trimStart s) = true.
Proof.
  induction s as [|c s IH]; intros b; simpl; auto.
  destruct (isWhiteSpace c) eqn:E.
  - intros H. apply andb_true_iff in H as [_ H]. now apply (IH true).
  - intros H. simpl. now rewrite E.
Qed.

Lemma trimEnd_spaced (s : jsstring) : forall b, spaced b s = true -> spaced b (trimEnd s) = true.
Proof.
  induction s as [|c s IH]; intros b H; [reflexivity|].
  rewrite trimEnd_cons. destruct (isWhiteSpace c && forallb isWhiteSpace s) eqn:F; auto.
  simpl in *. destruct (isWhiteSpace c).
  - apply andb_true_iff in H as [H1 H2]. rewrite H1. simpl. now apply IH.
  - now apply IH.
Qed.

Lemma collapseFrom_length (s : jsstring) :
  forall b, (List.length (collapseFrom b s) <= List.length s)%nat.
Proof.
  induction s as [|c s IH]; intros b; simpl; auto.
  destruct (isWhiteSpace c).
  - pose proof (IH true). destruct b; simpl; lia.
  - pose proof (IH false). simpl. lia.
Qed.

Lemma collapseFrom_Forall (P : N -> Prop) (s : jsstring) :
  P 32%N -> Forall P s -> forall b, Forall P (collapseFrom b s).
Proof.
  intros P32. induction 1 as [|c s Hc Hs IH]; intros b; simpl; auto.
  destruct (isWhiteSpace c); [destruct b|]; auto.
Qed.

Lemma filter_length_le {A} (f : A -> bool) (l : list A) :
  (List.length (filter f l) <= List.length l)%nat.
Proof. induction l as [|x l IH]; simpl; auto. destruct (f x); simpl; lia. Qed.

Lemma filter_Forall {A} (f : A -> bool) (l : list A) :
  Forall (fun x => f x = true) (filter f l).
Proof.
  induction l as [|x l IH]; simpl; auto. destruct (f x) eqn:E; auto.
Qed.

Lemma Forall_filter_id {A} (f : A -> bool) (l : list A) :
  Forall (fun x => f x = true) l -> filter f l = l.
Proof.
  induction 1 as [|x l Hx Hl IH]; simpl; auto. now rewrite Hx, IH.
Qed.

End Trimming.

Section HeatCareMessages.

Import HeatCareAI.

Lemma formatForSMS_cut (c : N) (m : jsstring) :
  let cut := if (maxResponseLength <? List.length (c :: m))%nat
             then firstn (maxResponseLength - 3) (c :: m) ++ text "..."
             else c :: m in
  (List.length cut <= 160)%nat.
Proof.
  cbv zeta. destruct (maxResponseLength <? List.length (c :: m))%nat eqn:E.
  - rewrite length_app, length_firstn. change (List.length (text "...")) with 3%nat.
    unfold maxResponseLength. lia.
  - apply Nat.ltb_ge in E. exact E.
Qed.

Lemma notMarkdown_32 : negb (isMarkdown 32) = true.
Proof. reflexivity. Qed.

Lemma formatForSMS_tidy (m : jsstring) :
  (List.length (formatForSMS m) <= 160)%nat /\
  Forall (fun c => negb (isMarkdown c) = true) (formatForSMS m) /\
  spaced false (formatForSMS m) = true /\
  trim (formatForSMS m) = formatForSMS m.
Proof.
  destruct m as [|c m].
  - change (formatForSMS []) with fallbackAdvice. split; [|split; [|split]].
    + apply Nat.leb_le. vm_compute. reflexivity.
    + apply Forall_forall. intros c Hc.
      assert (F : forallb (fun c => negb (isMarkdown c)) fallbackAdvice = true)
        by (vm_compute; reflexivity).
      rewrite forallb_forall in F. now apply F.
    + vm_compute. reflexivity.
    + vm_compute. reflexivity.
  - unfold formatForSMS. cbv zeta.
    set (cut := if (maxResponseLength <? List.length (c :: m))%nat
                then firstn (maxResponseLength - 3) (c :: m) ++ text "..."
                else c :: m).
    pose proof (formatForSMS_cut c m) as L. cbv zeta in L. fold cut in L.
    split; [|split; [|split]].
    + pose proof (trim_length (collapseSpaces (filter (fun c0 => negb (isMarkdown c0)) cut))).
      pose proof (collapseFrom_length (filter (fun c0 => negb (isMarkdown c0)) cut) false).
      pose proof (filter_length_le (fun c0 => negb (isMarkdown c0)) cut).
      unfold collapseSpaces in *. lia.
    + apply trim_Forall. apply collapseFrom_Forall; [reflexivity|].
      apply (filter_Forall (fun c0 => negb (isMarkdown c0))).
    + unfold trim. apply trimEnd_spaced. eapply trimStart_spaced.
      apply collapseFrom_spaced.
    + apply trim_idem.
Qed.

End HeatCareMessages.

Section BlankMessages.

Import HeatCareAI.

Lemma collapseFrom_allWhite (s : jsstring) :
  forallb isWhiteSpace s = true -> collapseFrom true s = [].
Proof.
  induction s as [|c s IH]; simpl; auto.
  destruct (isWhiteSpace c); simpl; auto. discriminate.
Qed.

Lemma collapse_trim_allWhite (s : jsstring) :
  forallb isWhiteSpace s = true -> trim (collapseSpaces s) = [].
Proof.
  destruct s as [|c s]; [reflexivity|]. simpl. intros H.
  apply andb_true_iff in H as [E H]. unfold collapseSpaces. simpl. rewrite E.
  now rewrite collapseFrom_allWhite.
Qed.

Lemma filter_blank (m : jsstring) :
  forallb blankUnit m = true ->
  forallb isWhiteSpace (filter (fun c => negb (isMarkdown c)) m) = true.
Proof.
  induction m as [|c m IH]; simpl; auto. intros H.
  apply andb_true_iff in H as [E H]. unfold blankUnit in E.
  destruct (isMarkdown c); simpl; auto. simpl in E. now rewrite E, IH.
Qed.

End BlankMessages.

(** X5. [formatForSMS] of the HeatCare service returns at most 160
    code units, none of them a markdown mark, with single spaces as
    the only white space (so no line break survives) and none at
    either end. *)
Theorem heatcare_formatForSMS_shape (message : jsstring) :
  (List.length (HeatCareAI.formatForSMS message) <= 160)%nat /\
  Forall (fun c => HeatCareAI.isMarkdown c = false) (HeatCareAI.formatForSMS message) /\
  spaced false (HeatCareAI.formatForSMS message) = true /\
  trim (HeatCareAI.formatForSMS message) = HeatCareAI.formatForSMS message.
Proof.
  destruct (formatForSMS_tidy message) as (L & F & S & T).
  repeat split; auto.
  eapply Forall_impl; [|exact F]. intros c Hc. now apply negb_true_iff.
Qed.

(** X6. Formatting a formatted message changes nothing, except that
    an empty result is replaced by the fallback advice. *)
Theorem heatcare_formatForSMS_idempotent (message : jsstring) :
  HeatCareAI.formatForSMS (HeatCareAI.formatForSMS message)
  = match HeatCareAI.formatForSMS message with
    | [] => HeatCareAI.fallbackAdvice
    | formatted => formatted
    end.
Proof.
  destruct (formatForSMS_tidy message) as (L & F & S & T).
  destruct (HeatCareAI.formatForSMS message) as [|c r] eqn:E; [reflexivity|].
  unfold HeatCareAI.formatForSMS at 1. cbv zeta.
  replace (HeatCareAI.maxResponseLength <? List.length (c :: r))%nat with false
    by (symmetry; apply Nat.ltb_ge; exact L).
  rewrite (Forall_filter_id _ _ F).
  unfold collapseSpaces. rewrite (spaced_collapseFrom _ _ S). exact T.
Qed.

(** X7. The fallback advice answers the empty message only: a message
    of at most 160 units made of markdown marks and white space alone
    comes out as the empty text. *)
Theorem heatcare_formatForSMS_blank (message : jsstring) :
  message <> [] -> (List.length message <= 160)%nat ->
  forallb blankUnit message = true ->
  HeatCareAI.formatForSMS message = [].
Proof.
  intros N L B. destruct message as [|c m]; [now elim N|].
  unfold HeatCareAI.formatForSMS. cbv zeta.
  replace (HeatCareAI.maxResponseLength <? List.length (c :: m))%nat with false
    by (symmetry; apply Nat.ltb_ge; exact L).
  apply collapse_trim_allWhite. now apply filter_blank.
Qed.

Lemma heatcare_formatForSMS_blank_witness :
  HeatCareAI.formatForSMS (lit "** _ **") = [].
Proof.
  apply heatcare_formatForSMS_blank.
  - discriminate.
  - simpl. lia.
  - reflexivity.
Defined.

Section SeniorMessages.

Import SeniorHeatAlerts.

Lemma takeLines_length (lines : list jsstring) :
  forall truncated, (List.length truncated <= 281)%nat ->
                    (List.length (takeLines truncated lines) <= 281)%nat.
Proof.
  induction lines as [|line rest IH]; intros truncated H; simpl; auto.
  destruct (280 <? List.length (truncated ++ line))%nat eqn:E; auto.
  apply IH. apply Nat.ltb_ge in E.
  rewrite app_assoc, length_app. change (List.length nl) with 1%nat. lia.
Qed.

Lemma splitLines_one (m : jsstring) :
  Forall (fun c => c <> 10%N) m -> splitLines m = [m].
Proof.
  induction 1 as [|c m Hc Hm IH]; simpl; auto.
  destruct (N.eqb_spec c 10); [contradiction|]. now rewrite IH.
Qed.

End SeniorMessages.

(** X8. [formatForSMS] of the senior alerts never returns more than
    300 code units, and it returns its argument exactly when that has
    at most 300. *)
Theorem senior_formatForSMS_bound (message : jsstring) :
  (List.length (SeniorHeatAlerts.formatForSMS message) <= 300)%nat /\
  (SeniorHeatAlerts.formatForSMS message = message <->
   (List.length message <= 300)%nat).
Proof.
  unfold SeniorHeatAlerts.formatForSMS.
  destruct (300 <? List.length message)%nat eqn:E.
  - apply Nat.ltb_lt in E.
    assert (L : (List.length (trim (SeniorHeatAlerts.takeLines [] (splitLines message))
                              ++ text "...") <= 284)%nat).
    { rewrite length_app. change (List.length (text "...")) with 3%nat.
      pose proof (trim_length (SeniorHeatAlerts.takeLines [] (splitLines message))).
      pose proof (takeLines_length (splitLines message) [] ltac:(simpl; lia)). lia. }
    split; [lia|]. split; [|lia]. intros F. rewrite F in L. lia.
  - apply Nat.ltb_ge in E. split; [exact E|]. tauto.
Qed.

(** X9. A message of more than 300 code units without a line break is
    cut down to its ellipsis: nothing of its text is sent. *)
Theorem senior_formatForSMS_single_line (message : jsstring) :
  (300 < List.length message)%nat -> Forall (fun c => c <> 10%N) message ->
  SeniorHeatAlerts.formatForSMS message = text "...".
Proof.
  intros L F. unfold SeniorHeatAlerts.formatForSMS.
  apply Nat.ltb_lt in L as L'. rewrite L', (splitLines_one message F).
  unfold SeniorHeatAlerts.takeLines.
  replace (280 <? List.length ([] ++ message))%nat with true
    by (symmetry; apply Nat.ltb_lt; simpl; lia).
  reflexivity.
Qed.

Lemma senior_formatForSMS_single_line_witness :
  SeniorHeatAlerts.formatForSMS (repeat 65%N 301) = text "...".
Proof.
  apply senior_formatForSMS_single_line.
  - rewrite repeat_length. lia.
  - apply Forall_forall. intros c H. apply repeat_spec in H. subst c. discriminate.
Defined.

(* ================================================================== *)
(** * The risk model and the guard rails *)

Section GuardRails.

Import MedGemmaAnalysis.

Lemma guardRails_verdict (input : jsstring) (r : AiResponse) :
  verdictOf (guardRails input r)
  = railsOn (includesAny emergencyKeywords (lowerCase input))
            (includesAny urgentHeatSymptoms (lowerCase input))
            (includesAny severeSymptoms (lowerCase input))
            (verdictOf r).
Proof.
  unfold guardRails, severeRail, urgentRail, keywordRail, railsOn, verdictOf.
  generalize (includesAny emergencyKeywords (lowerCase input)),
             (includesAny urgentHeatSymptoms (lowerCase input)),
             (includesAny severeSymptoms (lowerCase input)).
  intros k u s. destruct r as [m level urg conf alert rec esc hours].
  destruct k, u, s; cbn;
    repeat match goal with
           | |- context [String.eqb ?a ?b] =>
               is_var a; destruct (String.eqb a b) eqn:?; cbn
           end;
    reflexivity.
Qed.

Lemma analyzeSymptoms_summary (clock : Z) (input : jsstring) (g : GeminiResponse)
    (h : HeatCareAI.MedicalResponse) (a : Analysis) :
  analyzeSymptoms clock input (Some g) (Some h) = Some a ->
  a = summarize clock (guardRails input (combine g h)).
Proof.
  unfold analyzeSymptoms. destruct (smsMessage (combine g h)); [discriminate|].
  now intros [= <-].
Qed.

Lemma heatcare_verdict (toString : jsnumber -> jsstring) (age : option jsnumber)
    (input : jsstring) (feelsLike : jsnumber) :
  In (verdictOfHeatCare (HeatCareAI.generateMedicalResponse toString age input feelsLike))
     heatCareVerdicts.
Proof.
  unfold HeatCareAI.generateMedicalResponse, verdictOfHeatCare. cbv zeta.
  destruct (HeatCareAI.severe (HeatCareAI.heuristicExtractor input)); [cbn; tauto|].
  destruct (HeatCareAI.has_symptom (HeatCareAI.heuristicExtractor input));
    destruct (HeatCareAI.band (HeatCareAI.riskScore age feelsLike _ false));
    cbn; tauto.
Qed.

End GuardRails.

Section Verdicts.

Import MedGemmaAnalysis.

Lemma summarize_level (clock : Z) (r : AiResponse) :
  Webhook.chosenLevel (summarize clock r) = verdictLevel (verdictOf r).
Proof. reflexivity. Qed.

Lemma summarize_escalate (clock : Z) (r : AiResponse) :
  escalate (recommendations (summarize clock r))
  = (String.eqb (verdictUrgency (verdictOf r)) "urgent"
     || String.eqb (verdictUrgency (verdictOf r)) "emergency")%bool.
Proof. reflexivity. Qed.

Lemma railsOn_keyword (u s : bool) (v : Verdict) :
  verdictUrgency (railsOn true u s v) = "emergency"%string \/
  verdictUrgency (railsOn true u s v) = "urgent"%string.
Proof.
  destruct v as [[[level urg] esc] alert]. unfold railsOn, verdictUrgency.
  destruct u, s; cbn;
    repeat match goal with
           | |- context [String.eqb ?a ?b] =>
               is_var a; destruct (String.eqb a b) eqn:?; cbn
           end;
    auto;
    match goal with
    | H : String.eqb urg "emergency" = true |- _ => apply String.eqb_eq in H; auto
    end.
Qed.

Lemma railsOn_severe (k u : bool) (v : Verdict) :
  verdictRisk (railsOn k u true v) = "emergency"%string.
Proof.
  destruct v as [[[level urg] esc] alert]. unfold railsOn, verdictRisk.
  destruct k, u; cbn;
    repeat match goal with
           | |- context [String.eqb ?a ?b] =>
               is_var a; destruct (String.eqb a b) eqn:?; cbn
           end;
    auto;
    match goal with
    | H : String.eqb level "emergency" = true |- _ => apply String.eqb_eq in H; auto
    end.
Qed.

End Verdicts.

(** X10. A message that holds an emergency keyword ("911",
    "emergency", "call doctor", "hospital", "ambulance") always comes
    out of [analyzeSymptoms] with urgency "emergency" or "urgent", so
    with the recommendation to escalate. *)
Theorem emergency_keyword_escalates (clock : Z) (input : jsstring)
    (gemini : MedGemmaAnalysis.GeminiResponse) (heatcare : HeatCareAI.MedicalResponse)
    (a : MedGemmaAnalysis.Analysis) :
  MedGemmaAnalysis.analyzeSymptoms clock input (Some gemini) (Some heatcare) = Some a ->
  includesAny MedGemmaAnalysis.emergencyKeywords (lowerCase input) = true ->
  MedGemmaAnalysis.escalate (MedGemmaAnalysis.recommendations a) = true /\
  (MedGemmaAnalysis.analysisUrgency a = "emergency"%string \/
   MedGemmaAnalysis.analysisUrgency a = "urgent"%string).
Proof.
  intros H K. apply analyzeSymptoms_summary in H. subst a.
  rewrite summarize_escalate.
  change (MedGemmaAnalysis.analysisUrgency (MedGemmaAnalysis.summarize clock ?r))
    with (verdictUrgency (verdictOf r)).
  rewrite guardRails_verdict, K.
  destruct (railsOn_keyword
              (includesAny MedGemmaAnalysis.urgentHeatSymptoms (lowerCase input))
              (includesAny MedGemmaAnalysis.severeSymptoms (lowerCase input))
              (verdictOf (MedGemmaAnalysis.combine gemini heatcare))) as [E|E];
    rewrite E; auto.
Qed.

Lemma emergency_keyword_escalates_witness :
  MedGemmaAnalysis.escalate
    (MedGemmaAnalysis.recommendations (sampleOutcome (lit "should I go to the hospital"))) = true /\
  (MedGemmaAnalysis.analysisUrgency (sampleOutcome (lit "should I go to the hospital"))
   = "emergency"%string \/
   MedGemmaAnalysis.analysisUrgency (sampleOutcome (lit "should I go to the hospital"))
   = "urgent"%string).
Proof.
  apply (emergency_keyword_escalates 0 (lit "should I go to the hospital") sampleGemini
           (sampleHeatCare (lit "should I go to the hospital")));
    vm_compute; reflexivity.
Defined.

(** X11. A message that names a severe symptom ("chest pain",
    "can't breathe", "trouble breathing", "confused", "confusion",
    "disoriented") always comes out of [analyzeSymptoms] with risk
    level "emergency", whatever the two services answered. *)
Theorem severe_symptom_is_emergency (clock : Z) (input : jsstring)
    (gemini : MedGemmaAnalysis.GeminiResponse) (heatcare : HeatCareAI.MedicalResponse)
    (a : MedGemmaAnalysis.Analysis) :
  MedGemmaAnalysis.analyzeSymptoms clock input (Some gemini) (Some heatcare) = Some a ->
  includesAny MedGemmaAnalysis.severeSymptoms (lowerCase input) = true ->
  MedGemmaAnalysis.level (MedGemmaAnalysis.risk a) = "emergency"%string /\
  MedGemmaAnalysis.band (MedGemmaAnalysis.risk a) = "emergency"%string.
Proof.
  intros H S. apply analyzeSymptoms_summary in H. subst a.
  change (MedGemmaAnalysis.band (MedGemmaAnalysis.risk (MedGemmaAnalysis.summarize clock ?r)))
    with (verdictRisk (verdictOf r)).
  change (MedGemmaAnalysis.level (MedGemmaAnalysis.risk (MedGemmaAnalysis.summarize clock ?r)))
    with (lowerToken (verdictRisk (verdictOf r))).
  rewrite guardRails_verdict, S, railsOn_severe. auto.
Qed.

Lemma severe_symptom_is_emergency_witness :
  MedGemmaAnalysis.level (MedGemmaAnalysis.risk (sampleOutcome (lit "I have chest pain")))
  = "emergency"%string /\
  MedGemmaAnalysis.band (MedGemmaAnalysis.risk (sampleOutcome (lit "I have chest pain")))
  = "emergency"%string.
Proof.
  apply (severe_symptom_is_emergency 0 (lit "I have chest pain") sampleGemini
           (sampleHeatCare (lit "I have chest pain")));
    vm_compute; reflexivity.
Defined.

Section Pipeline.

Variable toString : jsnumber -> jsstring.

Lemma pipeline_verdict (clock : Z) (input : jsstring)
    (gemini : MedGemmaAnalysis.GeminiResponse) (age : option jsnumber)
    (feelsLike : jsnumber) (a : MedGemmaAnalysis.Analysis) :
  MedGemmaAnalysis.analyzeSymptoms clock input (Some gemini)
    (Some (HeatCareAI.generateMedicalResponse toString age input feelsLike)) = Some a ->
  exists v, In v heatCareVerdicts /\
            v = verdictOfHeatCare
                  (HeatCareAI.generateMedicalResponse toString age input feelsLike) /\
            Webhook.chosenLevel a
            = verdictLevel
                (railsOn (includesAny MedGemmaAnalysis.emergencyKeywords (lowerCase input))
                         (includesAny MedGemmaAnalysis.urgentHeatSymptoms (lowerCase input))
                         (includesAny MedGemmaAnalysis.severeSymptoms (lowerCase input)) v) /\
            MedGemmaAnalysis.analysisEmergencyAlert a
            = snd (railsOn (includesAny MedGemmaAnalysis.emergencyKeywords (lowerCase input))
                           (includesAny MedGemmaAnalysis.urgentHeatSymptoms (lowerCase input))
                           (includesAny MedGemmaAnalysis.severeSymptoms (lowerCase input)) v).
Proof.
  intros H. apply analyzeSymptoms_summary in H. subst a.
  exists (verdictOfHeatCare (HeatCareAI.generateMedicalResponse toString age input feelsLike)).
  split; [apply heatcare_verdict|]. split; [reflexivity|].
  rewrite summarize_level.
  change (MedGemmaAnalysis.analysisEmergencyAlert (MedGemmaAnalysis.summarize clock ?r))
    with (snd (verdictOf r)).
  rewrite guardRails_verdict. split; reflexivity.
Qed.

End Pipeline.

(** X12. Whatever the text, the patient and the weather, the level at
    which the webhook schedules symptom monitoring after an analysis
    by the HeatCare model is "emergency", "urgent", "monitor" or
    "none"; the escalation table knows the first only, so the interval
    is 1 minute for "emergency" and the medium 15 minutes for the
    rest: the 2, 5 and 60 minute rows are never used. *)
Theorem webhook_symptom_interval (toString : jsnumber -> jsstring) (clock : Z)
    (input : jsstring) (gemini : MedGemmaAnalysis.GeminiResponse)
    (age : option jsnumber) (feelsLike : jsnumber) (a : MedGemmaAnalysis.Analysis) :
  MedGemmaAnalysis.analyzeSymptoms clock input (Some gemini)
    (Some (HeatCareAI.generateMedicalResponse toString age input feelsLike)) = Some a ->
  In (Webhook.chosenLevel a) ["emergency"; "urgent"; "monitor"; "none"]%string /\
  intervalMinutesFor (Webhook.chosenLevel a)
  = (if String.eqb (Webhook.chosenLevel a) "emergency" then VNum 1 else VNum 15).
Proof.
  intros H. destruct (pipeline_verdict toString clock input gemini age feelsLike a H)
    as (v & V & _ & -> & _).
  generalize (includesAny MedGemmaAnalysis.emergencyKeywords (lowerCase input)),
             (includesAny MedGemmaAnalysis.urgentHeatSymptoms (lowerCase input)),
             (includesAny MedGemmaAnalysis.severeSymptoms (lowerCase input)).
  intros k u s. unfold heatCareVerdicts in V. simpl in V.
  repeat (destruct V as [<-|V]; [destruct k, u, s; vm_compute; tauto|]).
  contradiction.
Qed.

(** X13. For a patient the HeatCare model rates "low", a message with
    an emergency keyword and no severe symptom is scheduled at the
    emergency interval of 1 minute, unless it also names an urgent
    heat symptom ("dizzy", "weak", "tired", ...): then the level drops
    to "urgent" and the interval is 15 minutes, while the emergency
    alert stays raised. *)
Theorem heat_symptom_lowers_emergency (toString : jsnumber -> jsstring) (clock : Z)
    (input : jsstring) (gemini : MedGemmaAnalysis.GeminiResponse)
    (age : option jsnumber) (feelsLike : jsnumber) (a : MedGemmaAnalysis.Analysis) :
  MedGemmaAnalysis.analyzeSymptoms clock input (Some gemini)
    (Some (HeatCareAI.generateMedicalResponse toString age input feelsLike)) = Some a ->
  HeatCareAI.riskLevel (HeatCareAI.generateMedicalResponse toString age input feelsLike)
  = "low"%string ->
  includesAny MedGemmaAnalysis.emergencyKeywords (lowerCase input) = true ->
  includesAny MedGemmaAnalysis.severeSymptoms (lowerCase input) = false ->
  MedGemmaAnalysis.analysisEmergencyAlert a = true /\
  Webhook.chosenLevel a
  = (if includesAny MedGemmaAnalysis.urgentHeatSymptoms (lowerCase input)
     then "urgent" else "emergency")%string /\
  intervalMinutesFor (Webhook.chosenLevel a)
  = (if includesAny MedGemmaAnalysis.urgentHeatSymptoms (lowerCase input)
     then VNum 15 else VNum 1).
Proof.
  intros H L K S.
  destruct (pipeline_verdict toString clock input gemini age feelsLike a H)
    as (v & V & Ev & -> & ->).
  rewrite K, S.
  assert (Lv : verdictRisk v = "low"%string) by (now rewrite Ev).
  generalize (includesAny MedGemmaAnalysis.urgentHeatSymptoms (lowerCase input)).
  intros u. clear Ev. unfold heatCareVerdicts in V. simpl in V.
  repeat (destruct V as [<-|V];
          [first [discriminate Lv | destruct u; vm_compute; tauto]|]).
  contradiction.
Qed.

Lemma heat_symptom_lowers_emergency_witness :
  MedGemmaAnalysis.analysisEmergencyAlert (sampleOutcome (lit "emergency dizzy")) = true /\
  Webhook.chosenLevel (sampleOutcome (lit "emergency dizzy")) = "urgent"%string /\
  intervalMinutesFor (Webhook.chosenLevel (sampleOutcome (lit "emergency dizzy"))) = VNum 15.
Proof.
  apply (heat_symptom_lowers_emergency (fun _ => lit "80") 0 (lit "emergency dizzy")
           sampleGemini None (ofZ 80)); vm_compute; reflexivity.
Defined.

Lemma webhook_symptom_interval_witness :
  In (Webhook.chosenLevel (sampleOutcome (lit "I feel tired and thirsty")))
     ["emergency"; "urgent"; "monitor"; "none"]%string /\
  intervalMinutesFor (Webhook.chosenLevel (sampleOutcome (lit "I feel tired and thirsty")))
  = (if String.eqb (Webhook.chosenLevel (sampleOutcome (lit "I feel tired and thirsty")))
                   "emergency"
     then VNum 1 else VNum 15).
Proof.
  apply (webhook_symptom_interval (fun _ => lit "80") 0 (lit "I feel tired and thirsty")
           sampleGemini None (ofZ 80)); vm_compute; reflexivity.
Defined.

(* ================================================================== *)
(** * The HeatCare risk score *)

Section NumberOrder.

Lemma SFleb_trans (a b c : SpecFloat.spec_float) :
  SpecFloat.SFleb a b = true -> SpecFloat.SFleb b c = true -> SpecFloat.SFleb a c = true.
Proof.
  unfold SpecFloat.SFleb, SpecFloat.SFcompare.
  destruct a as [sa|sa| |sa ma ea], b as [sb|sb| |sb mb eb], c as [sc|sc| |sc mc ec];
    try discriminate; try reflexivity;
    repeat match goal with s : bool |- _ => destruct s end;
    try discriminate; try reflexivity;
    change (PosDef.Pos.compare_cont Eq) with Pos.compare;
    destruct (Z.compare_spec ea eb), (Z.compare_spec eb ec), (Z.compare_spec ea ec);
    try discriminate; try reflexivity; try lia; subst;
    destruct (Pos.compare_spec ma mb), (Pos.compare_spec mb mc), (Pos.compare_spec ma mc);
    simpl; try discriminate; try reflexivity; try lia.
Qed.

(** [x >= b] and [b >= a] give [x >= a]. *)
Lemma numGe_trans (x b a : jsnumber) : numGe x b = true -> numGe b a = true -> numGe x a = true.
Proof.
  unfold numGe. rewrite !FloatAxioms.leb_spec. intros H1 H2.
  eapply SFleb_trans; eauto.
Qed.

End NumberOrder.

Section RiskBands.

Import PrimFloat.

(** X14. Without a severe symptom, the risk band is HIGH exactly for
    a patient of 65 or more who reports a symptom at a feels-like
    temperature of 100 degrees or more. *)
Theorem riskScore_high_band (age : option jsnumber) (feelsLike : jsnumber)
    (hasSymptom : bool) :
  HeatCareAI.band (HeatCareAI.riskScore age feelsLike hasSymptom false) = HeatCareAI.HIGH
  <-> HeatCareAI.senior age = true /\ hasSymptom = true /\
      numGe feelsLike (ofZ 100) = true.
Proof.
  unfold HeatCareAI.riskScore, HeatCareAI.rawScore. cbv zeta.
  change (ofZ 100) with 100%float.
  assert (T : numGe feelsLike 105%float = true -> numGe feelsLike 100%float = true).
  { intros H. apply (numGe_trans feelsLike 105%float 100%float H). reflexivity. }
  destruct (numGe feelsLike 105%float) eqn:E1; [rewrite (T eq_refl)|];
    destruct (numGe feelsLike 100%float) eqn:E2; try discriminate;
    destruct (numGe feelsLike 95%float) eqn:E3;
    destruct (HeatCareAI.senior age), hasSymptom;
    vm_compute; split; try tauto; try discriminate;
    intros (A & B & C); discriminate.
Qed.

(** X15. At a feels-like temperature of 105 degrees or more, a
    patient under 65 without symptoms is put in the LOW band although
    the score the function reports for them is 0.45, the MED
    threshold: the band is decided on the sum 0.1 + 0.35 before it is
    rounded, and in binary floating point that sum is below 0.45. *)
Theorem riskScore_threshold_rounding (age : option jsnumber) (feelsLike : jsnumber) :
  HeatCareAI.senior age = false ->
  numGe feelsLike HeatCareAI.EXTREME_HEAT_THRESHOLD = true ->
  HeatCareAI.band (HeatCareAI.riskScore age feelsLike false false) = HeatCareAI.LOW /\
  HeatCareAI.score (HeatCareAI.riskScore age feelsLike false false)
  = HeatCareAI.RISK_THRESH_MED /\
  numLt (HeatCareAI.rawScore age feelsLike false false) HeatCareAI.RISK_THRESH_MED = true.
Proof.
  intros S H. unfold HeatCareAI.riskScore, HeatCareAI.rawScore. cbv zeta.
  change HeatCareAI.EXTREME_HEAT_THRESHOLD with 105%float in H.
  rewrite S, H. vm_compute. auto.
Qed.

Lemma riskScore_threshold_rounding_witness :
  HeatCareAI.band (HeatCareAI.riskScore None (ofZ 110) false false) = HeatCareAI.LOW /\
  HeatCareAI.score (HeatCareAI.riskScore None (ofZ 110) false false)
  = HeatCareAI.RISK_THRESH_MED /\
  numLt (HeatCareAI.rawScore None (ofZ 110) false false) HeatCareAI.RISK_THRESH_MED = true.
Proof. apply riskScore_threshold_rounding; vm_compute; reflexivity. Defined.

End RiskBands.

(* ================================================================== *)
(** * The message branches of the webhook *)

Section SampleWorlds.

Lemma reachable_onHighChain : reachable (onHighChain answering).
Proof. intros k. reflexivity. Qed.

Lemma invariant_onHighChain : invariant (onHighChain answering).
Proof.
  repeat split; cbn.
  - repeat constructor. intros [].
  - repeat constructor. apply canonical_recurringJob.
  - intros id [].
Qed.

End SampleWorlds.


Section HealthReports.





End HealthReports.

Section PollBranch.

Lemma patientLookup_ok (found : bool) (phone : string) (w : World) :
  reachable w ->
  exists wA,
    catch (call DbError ;;
           (if found then ret tt
            else call DbError ;; whatsappAdd phone OnboardingMsg None))%async
          (fun _ => ret tt) w = (Ret tt, wA) /\
    sameEnv w wA /\ healthCronQueue wA = healthCronQueue w /\
    map message (whatsappQueue wA)
    = map message (whatsappQueue w) ++ (if found then [] else [OnboardingMsg]).
Proof.
  intros R. unfold catch, bind. rewrite (call_ok _ _ R). destruct found.
  - exists (bump w). rewrite app_nil_r. repeat split.
  - rewrite call_ok by exact R. rewrite whatsappAdd_ok by exact R.
    eexists. split; [reflexivity|]. cbn. rewrite map_app. repeat split.
Qed.

Lemma messageBranch_nonempty (body : jsstring) (b : Webhook.Branch) :
  Webhook.messageBranch body = b -> b <> Webhook.General -> body <> [].
Proof. intros H N ->. apply N. rewrite <- H. reflexivity. Qed.

Lemma emergency_help_valid (t : jsstring) :
  jseqb t emergency_help = true -> arrayIncludes validResponses t = true.
Proof. intros H. apply jseqb_eq in H. subst t. reflexivity. Qed.

Lemma pollReply_run (found : bool) (phone : string) (r t : jsstring) (w : World) :
  reachable w ->
  let out := handlePollResponse found None phone (AString r) t None w in
  fst out
  = (if arrayIncludes validResponses t && negb (jseqb t emergency_help)
     then Raise TypeError else Ret tt) /\
  healthCronQueue (snd out)
  = (if jseqb t emergency_help then cancelled phone "symptom" (healthCronQueue w)
     else healthCronQueue w) /\
  map message (whatsappQueue (snd out))
  = map message (whatsappQueue w)
    ++ (if found then [] else [OnboardingMsg])
    ++ (if jseqb t emergency_help then [EmergencyCallMsg; EmergencyFollowupMsg]
        else if arrayIncludes validResponses t then []
        else [NotUnderstoodMsg]).
Proof.
  intros R out. subst out. unfold handlePollResponse.
  destruct (patientLookup_ok found phone w R) as (wA & RA & EA & QA & WA).
  rewrite (bind_run _ _ _ _ _ RA).
  assert (RwA : reachable wA) by (eapply reachable_sameEnv; eauto).
  change (nonEmpty (@None jsstring)) with false. cbv iota.
  rewrite (bind_run (ret None) _ wA wA None eq_refl).
  destruct (jseqb t emergency_help) eqn:E.
  - rewrite (emergency_help_valid t E). cbn [negb andb]. cbv iota.
    unfold chooseFinalMessage. cbn [hasReply]. rewrite E. cbv iota.
    erewrite (bind_run _ _ wA wA EmergencyCallMsg); [|reflexivity].
    rewrite (bind_run _ _ _ _ _ (whatsappAdd_ok phone EmergencyCallMsg None wA RwA)).
    set (wB := emit _ _).
    assert (RwB : reachable wB) by (intros k; apply RwA).
    assert (A : monitoringAction None t = EmergencyAction).
    { apply jseqb_eq in E. subst t. reflexivity. }
    rewrite A. unfold executeMonitoringAction.
    destruct (cancelHealthCheckups_ok phone "symptom" wB RwB) as (wC & RC & QC & (EC & WC & TC)).
    assert (RwC : reachable wC) by (eapply reachable_sameEnv; eauto).
    rewrite (bind_run _ _ _ _ _
               (bind_runs _ _ _ _ _ _ _ RC
                  (whatsappAdd_ok phone EmergencyFollowupMsg (Some (5 * 60 * 1000)) wC RwC))).
    rewrite prismaCreate_ok by (intros k; apply RwC).
    cbn [fst snd healthCronQueue whatsappQueue bump emit setWhatsapp].
    split; [reflexivity|]. split.
    + rewrite QC. subst wB. cbn. now rewrite QA.
    + rewrite WC. subst wB. cbn. rewrite !map_app, WA. cbn. now rewrite <- !app_assoc.
  - destruct (arrayIncludes validResponses t) eqn:V; cbn [negb andb].
    + cbv iota. unfold chooseFinalMessage. cbn [hasReply]. rewrite E. cbv iota.
      unfold bind, defined, throw. cbn. split; [reflexivity|]. split; [exact QA|].
      now rewrite WA, app_nil_r.
    + cbv iota. rewrite whatsappAdd_ok by exact RwA. cbn. split; [reflexivity|].
      split; [exact QA|]. rewrite map_app, WA. cbn. now rewrite <- app_assoc.
Qed.

End PollBranch.

(** X16. A reply to a poll never changes the monitoring through the
    webhook, whatever it is classified as: the handler is called with
    (phoneNumber, pollResponse, messageText) for the parameters
    (phoneNumber, userExists, pollResponse, originalMessage), so the
    text itself is checked against the five tokens.  A reply such as
    "1", "better" or "worse" is answered with the not-understood
    message, a token other than [emergency_help] throws a TypeError
    on the missing original message, and the token [emergency_help]
    alone has an effect: the symptom job is cancelled and the
    emergency follow-up is queued. *)
Theorem webhook_poll_reply (found : bool) (analysis : option MedGemmaAnalysis.Analysis)
    (phone : string) (body pollResponse : jsstring) (w : World) :
  reachable w ->
  Webhook.messageBranch body = Webhook.PollReply pollResponse ->
  fst (Webhook.processMessageContent found analysis phone body w)
  = (if arrayIncludes validResponses (toLowerCase body)
        && negb (jseqb (toLowerCase body) emergency_help)
     then Raise TypeError else Ret tt) /\
  healthCronQueue (snd (Webhook.processMessageContent found analysis phone body w))
  = (if jseqb (toLowerCase body) emergency_help
     then cancelled phone "symptom" (healthCronQueue w)
     else healthCronQueue w) /\
  map message (whatsappQueue (snd (Webhook.processMessageContent found analysis phone body w)))
  = map message (whatsappQueue w)
    ++ (if found then [] else [OnboardingMsg])
    ++ (if jseqb (toLowerCase body) emergency_help
        then [EmergencyCallMsg; EmergencyFollowupMsg]
        else if arrayIncludes validResponses (toLowerCase body) then []
        else [NotUnderstoodMsg]).
Proof.
  intros R B.
  assert (N : body <> []) by (eapply messageBranch_nonempty; eauto; discriminate).
  unfold Webhook.processMessageContent. destruct body as [|c body]; [now elim N|].
  rewrite B. apply (pollReply_run found phone pollResponse (toLowerCase (c :: body)) w R).
Qed.

Lemma webhook_poll_reply_witness :
  fst (Webhook.processMessageContent true None "+15550100" (lit "Worse") (onHighChain answering))
  = Ret tt /\
  healthCronQueue
    (snd (Webhook.processMessageContent true None "+15550100" (lit "Worse")
            (onHighChain answering)))
  = healthCronQueue (onHighChain answering) /\
  map message
    (whatsappQueue
       (snd (Webhook.processMessageContent true None "+15550100" (lit "Worse")
               (onHighChain answering))))
  = [NotUnderstoodMsg].
Proof.
  apply (webhook_poll_reply true None "+15550100" (lit "Worse") worse_condition
           (onHighChain answering)).
  - intros k. reflexivity.
  - vm_compute. reflexivity.
Defined.



(* ================================================================== *)
(** * Heat monitoring of seniors *)

Section SeniorMonitoring.

(** [scheduleWeatherAlertCheckin] on a store that answers: the pending
    weather-alert job of the patient is cancelled, and a new one is
    appended for an urgency of "emergency" or "high" only. *)
Lemma scheduleWeatherAlertCheckin_ok (phone : string) (ws : WaveStatus) (pd : PatientData)
    (w : World) :
  reachable w ->
  exists w', runs (scheduleWeatherAlertCheckin phone ws pd) w tt w' /\
             healthCronQueue w'
             = cancelled phone "weather-alert" (healthCronQueue w)
               ++ (if alertUrgency ws
                   then [weatherJob phone ws (Some pd)
                           (Some (weatherIntervalFor (urgency ws))) 1 (Some (now w))]
                   else []) /\
             whatsappQueue w' = whatsappQueue w.
Proof.
  intros Hw. unfold scheduleWeatherAlertCheckin.
  destruct (cancelHealthCheckups_ok phone "weather-alert" w Hw)
    as (w1 & R1 & Q1 & (E1 & W1 & T1)).
  assert (Hw1 : reachable w1) by (eapply reachable_sameEnv; eauto).
  destruct E1 as [E1 E2].
  destruct (alertUrgency ws).
  - eexists. split.
    + eapply bind_runs; [exact R1|]. unfold runs, bind, gets.
      rewrite cronAdd_ok by exact Hw1. reflexivity.
    + cbn. rewrite Q1, W1, E2. split; reflexivity.
  - exists w1. split.
    + eapply bind_runs; [exact R1|]. reflexivity.
    + rewrite Q1, W1, app_nil_r. split; reflexivity.
Qed.

Lemma weather_job_pending (phone : string) (ws : WaveStatus) (pd : option PatientData)
    (interval : option jsval) (number : Z) (started : option Z) :
  ofIdentity phone WeatherAlert (weatherJob phone ws pd interval number started) = true.
Proof. unfold ofIdentity. cbn. now rewrite String.eqb_refl. Qed.

Lemma senior_points_floor (heatWave : SeniorHeatAlerts.HeatWaveData)
    (senior : SeniorHeatAlerts.SeniorData) :
  (65 <= age (SeniorHeatAlerts.patient senior))%Z ->
  numGe (SeniorHeatAlerts.maxFeelsLike heatWave) SeniorHeatAlerts.SENIOR_HEAT_THRESHOLD = true ->
  (4 <= SeniorHeatAlerts.riskPoints heatWave senior)%Z.
Proof.
  intros A H. unfold SeniorHeatAlerts.riskPoints. rewrite H.
  destruct (numGe _ SeniorHeatAlerts.SENIOR_EXTREME_THRESHOLD);
    destruct (75 <=? _)%Z; destruct (Z.leb_spec 65 (age (SeniorHeatAlerts.patient senior)));
    try lia;
    destruct (SeniorHeatAlerts.chronicConditions senior);
    destruct (SeniorHeatAlerts.medications senior);
    try destruct (2 <? _)%nat; lia.
Qed.

End SeniorMonitoring.

(** X18. During a heat event (both weather readings at 90 degrees or
    more) the senior is left with exactly one pending weather-alert
    job, and it repeats at the interval the alert announces: 15
    minutes from 100 degrees on, 30 minutes below. *)
Theorem senior_monitoring_started (toString : jsnumber -> jsstring)
    (first second : SeniorHeatAlerts.HeatWaveData) (phone : string) (zipcode : jsstring)
    (senior : SeniorHeatAlerts.SeniorData) (w : World) :
  reachable w -> invariant w ->
  numGe (SeniorHeatAlerts.maxFeelsLike first) SeniorHeatAlerts.SENIOR_HEAT_THRESHOLD = true ->
  numGe (SeniorHeatAlerts.maxFeelsLike second) SeniorHeatAlerts.SENIOR_HEAT_THRESHOLD = true ->
  fst (SeniorHeatAlerts.scheduleSeniorHeatMonitoring toString (Some first) (Some second)
         phone zipcode senior w)
  = Ret (Some (SeniorHeatAlerts.generateSeniorHeatAlert toString (Some second) zipcode senior)) /\
  pendingFor phone WeatherAlert
    (snd (SeniorHeatAlerts.scheduleSeniorHeatMonitoring toString (Some first) (Some second)
            phone zipcode senior w))
  = [weatherJob phone
       {| urgency :=
            SeniorHeatAlerts.alertUrgency
              (SeniorHeatAlerts.generateSeniorHeatAlert toString (Some second) zipcode senior);
          waveType := "senior_heat_monitoring" |}
       (Some (SeniorHeatAlerts.patient senior))
       (Some (VNum (SeniorHeatAlerts.checkInMinutes
                      (SeniorHeatAlerts.generateSeniorHeatAlert toString (Some second)
                         zipcode senior))))
       1 (Some (now w))].
Proof.
  intros R (U & C & _) H1 H2.
  unfold SeniorHeatAlerts.scheduleSeniorHeatMonitoring, SeniorHeatAlerts.reading.
  set (alert := SeniorHeatAlerts.generateSeniorHeatAlert toString (Some second) zipcode senior).
  set (ws := {| urgency := SeniorHeatAlerts.alertUrgency alert;
                waveType := "senior_heat_monitoring" |}).
  destruct (scheduleWeatherAlertCheckin_ok phone ws (SeniorHeatAlerts.patient senior) w R)
    as (w' & Run & Q & W).
  assert (E : rethrowing
                (heatWave <- ret first ;;
                 if numGe (SeniorHeatAlerts.maxFeelsLike heatWave)
                      SeniorHeatAlerts.SENIOR_HEAT_THRESHOLD
                 then scheduleWeatherAlertCheckin phone ws (SeniorHeatAlerts.patient senior) ;;
                      ret (Some alert)
                 else ret None) w = (Ret (Some alert), w')).
  { apply catch_runs. unfold runs. erewrite (bind_run _ _ w w first); [|reflexivity].
    rewrite H1. erewrite (bind_run _ _ w w' tt); [|exact Run]. reflexivity. }
  rewrite E. cbn [fst snd]. split; [reflexivity|].
  unfold pendingFor. rewrite Q, filter_app.
  rewrite (cancelled_clears phone WeatherAlert) by (auto; discriminate).
  assert (K : alertUrgency ws = true /\
              weatherIntervalFor (urgency ws)
              = VNum (SeniorHeatAlerts.checkInMinutes alert)).
  { unfold ws, alert, alertUrgency, SeniorHeatAlerts.generateSeniorHeatAlert.
    cbn [urgency SeniorHeatAlerts.alertUrgency SeniorHeatAlerts.checkInMinutes].
    rewrite H2.
    destruct (numGe _ SeniorHeatAlerts.SENIOR_EXTREME_THRESHOLD); split; reflexivity. }
  destruct K as [K1 K2]. rewrite K1, K2. cbn [app filter].
  now rewrite weather_job_pending.
Qed.

Lemma senior_monitoring_started_witness :
  fst (SeniorHeatAlerts.scheduleSeniorHeatMonitoring (fun _ => lit "95")
         (Some (feelsLike 95)) (Some (feelsLike 95)) "+15550100" (lit "10001") sampleSenior
         (onHighChain answering))
  = Ret (Some (SeniorHeatAlerts.generateSeniorHeatAlert (fun _ => lit "95")
                 (Some (feelsLike 95)) (lit "10001") sampleSenior)) /\
  pendingFor "+15550100" WeatherAlert
    (snd (SeniorHeatAlerts.scheduleSeniorHeatMonitoring (fun _ => lit "95")
            (Some (feelsLike 95)) (Some (feelsLike 95)) "+15550100" (lit "10001") sampleSenior
            (onHighChain answering)))
  = [weatherJob "+15550100"
       {| urgency :=
            SeniorHeatAlerts.alertUrgency
              (SeniorHeatAlerts.generateSeniorHeatAlert (fun _ => lit "95")
                 (Some (feelsLike 95)) (lit "10001") sampleSenior);
          waveType := "senior_heat_monitoring" |}
       (Some (SeniorHeatAlerts.patient sampleSenior))
       (Some (VNum (SeniorHeatAlerts.checkInMinutes
                      (SeniorHeatAlerts.generateSeniorHeatAlert (fun _ => lit "95")
                         (Some (feelsLike 95)) (lit "10001") sampleSenior))))
       1 (Some (now (onHighChain answering)))].
Proof.
  apply (senior_monitoring_started (fun _ => lit "95") (feelsLike 95) (feelsLike 95)
           "+15550100" (lit "10001") sampleSenior (onHighChain answering)).
  - apply reachable_onHighChain.
  - apply invariant_onHighChain.
  - vm_compute. reflexivity.
  - vm_compute. reflexivity.
Defined.

(** X19. When the first weather reading shows heat but the second one
    fails or reads below 90 degrees, the alert is "routine": the
    senior's pending weather-alert job is cancelled and none is
    scheduled, although an alert is returned. *)
Theorem senior_monitoring_lost_on_second_reading (toString : jsnumber -> jsstring)
    (first : SeniorHeatAlerts.HeatWaveData) (second : option SeniorHeatAlerts.HeatWaveData)
    (phone : string) (zipcode : jsstring) (senior : SeniorHeatAlerts.SeniorData) (w : World) :
  reachable w -> invariant w ->
  numGe (SeniorHeatAlerts.maxFeelsLike first) SeniorHeatAlerts.SENIOR_HEAT_THRESHOLD = true ->
  (forall heatWave, second = Some heatWave ->
     numGe (SeniorHeatAlerts.maxFeelsLike heatWave) SeniorHeatAlerts.SENIOR_HEAT_THRESHOLD
     = false) ->
  fst (SeniorHeatAlerts.scheduleSeniorHeatMonitoring toString (Some first) second
         phone zipcode senior w)
  = Ret (Some (SeniorHeatAlerts.generateSeniorHeatAlert toString second zipcode senior)) /\
  SeniorHeatAlerts.alertUrgency
    (SeniorHeatAlerts.generateSeniorHeatAlert toString second zipcode senior) = "routine"%string /\
  pendingFor phone WeatherAlert
    (snd (SeniorHeatAlerts.scheduleSeniorHeatMonitoring toString (Some first) second
            phone zipcode senior w)) = [].
Proof.
  intros R (U & C & _) H1 H2.
  unfold SeniorHeatAlerts.scheduleSeniorHeatMonitoring, SeniorHeatAlerts.reading.
  set (alert := SeniorHeatAlerts.generateSeniorHeatAlert toString second zipcode senior).
  set (ws := {| urgency := SeniorHeatAlerts.alertUrgency alert;
                waveType := "senior_heat_monitoring" |}).
  assert (K : SeniorHeatAlerts.alertUrgency alert = "routine"%string).
  { unfold alert. destruct second as [heatWave|]; [|reflexivity].
    unfold SeniorHeatAlerts.generateSeniorHeatAlert.
    cbn [SeniorHeatAlerts.alertUrgency].
    assert (L := H2 heatWave eq_refl). rewrite L.
    destruct (numGe _ SeniorHeatAlerts.SENIOR_EXTREME_THRESHOLD) eqn:X; [|reflexivity].
    assert (T : numGe (SeniorHeatAlerts.maxFeelsLike heatWave)
                  SeniorHeatAlerts.SENIOR_HEAT_THRESHOLD = true)
      by (eapply numGe_trans; [exact X | vm_compute; reflexivity]).
    rewrite T in L. discriminate. }
  destruct (scheduleWeatherAlertCheckin_ok phone ws (SeniorHeatAlerts.patient senior) w R)
    as (w' & Run & Q & W).
  assert (E : rethrowing
                (heatWave <- ret first ;;
                 if numGe (SeniorHeatAlerts.maxFeelsLike heatWave)
                      SeniorHeatAlerts.SENIOR_HEAT_THRESHOLD
                 then scheduleWeatherAlertCheckin phone ws (SeniorHeatAlerts.patient senior) ;;
                      ret (Some alert)
                 else ret None) w = (Ret (Some alert), w')).
  { apply catch_runs. unfold runs. erewrite (bind_run _ _ w w first); [|reflexivity].
    rewrite H1. erewrite (bind_run _ _ w w' tt); [|exact Run]. reflexivity. }
  rewrite E. cbn [fst snd]. split; [reflexivity|]. split; [exact K|].
  unfold pendingFor. rewrite Q, filter_app.
  rewrite (cancelled_clears phone WeatherAlert) by (auto; discriminate).
  unfold alertUrgency, ws. cbn [urgency]. rewrite K. reflexivity.
Qed.

Lemma senior_monitoring_lost_on_second_reading_witness :
  fst (SeniorHeatAlerts.scheduleSeniorHeatMonitoring (fun _ => lit "85")
         (Some (feelsLike 95)) (Some (feelsLike 85)) "+15550100" (lit "10001") sampleSenior
         (onHighChain answering))
  = Ret (Some (SeniorHeatAlerts.generateSeniorHeatAlert (fun _ => lit "85")
                 (Some (feelsLike 85)) (lit "10001") sampleSenior)) /\
  SeniorHeatAlerts.alertUrgency
    (SeniorHeatAlerts.generateSeniorHeatAlert (fun _ => lit "85")
       (Some (feelsLike 85)) (lit "10001") sampleSenior) = "routine"%string /\
  pendingFor "+15550100" WeatherAlert
    (snd (SeniorHeatAlerts.scheduleSeniorHeatMonitoring (fun _ => lit "85")
            (Some (feelsLike 95)) (Some (feelsLike 85)) "+15550100" (lit "10001") sampleSenior
            (onHighChain answering))) = [].
Proof.
  apply (senior_monitoring_lost_on_second_reading (fun _ => lit "85") (feelsLike 95)
           (Some (feelsLike 85)) "+15550100" (lit "10001") sampleSenior
           (onHighChain answering)).
  - apply reachable_onHighChain.
  - apply invariant_onHighChain.
  - vm_compute. reflexivity.
  - intros heatWave E. injection E as <-. vm_compute. reflexivity.
Defined.

(** X20. A senior of 65 or more is never rated below "high" once the
    feels-like temperature reaches 90 degrees, whatever the conditions
    and medications on record. *)
Theorem senior_heat_risk_floor (heatWave : SeniorHeatAlerts.HeatWaveData)
    (senior : SeniorHeatAlerts.SeniorData) :
  (65 <= age (SeniorHeatAlerts.patient senior))%Z ->
  numGe (SeniorHeatAlerts.maxFeelsLike heatWave) SeniorHeatAlerts.SENIOR_HEAT_THRESHOLD = true ->
  SeniorHeatAlerts.assessSeniorHeatRisk heatWave senior = "high"%string \/
  SeniorHeatAlerts.assessSeniorHeatRisk heatWave senior = "critical"%string.
Proof.
  intros A H. assert (P := senior_points_floor heatWave senior A H).
  unfold SeniorHeatAlerts.assessSeniorHeatRisk.
  destruct (Z.leb_spec 6 (SeniorHeatAlerts.riskPoints heatWave senior)); [now right|].
  destruct (Z.leb_spec 4 (SeniorHeatAlerts.riskPoints heatWave senior)); [now left | lia].
Qed.

Lemma senior_heat_risk_floor_witness :
  SeniorHeatAlerts.assessSeniorHeatRisk (feelsLike 95) sampleSenior = "high"%string \/
  SeniorHeatAlerts.assessSeniorHeatRisk (feelsLike 95) sampleSenior = "critical"%string.
Proof.
  apply (senior_heat_risk_floor (feelsLike 95) sampleSenior).
  - vm_compute. discriminate.
  - vm_compute. reflexivity.
Defined.

(** X21. A senior's check-in reply is escalated exactly when its
    urgency is "emergency", that is for the reply 3 at 100 degrees or
    more, and the next check-in is put off to four hours only for the
    reply 1 below 90 degrees. *)
Theorem senior_response_escalation (response : jsstring)
    (heatWave : SeniorHeatAlerts.HeatWaveData) (senior : SeniorHeatAlerts.SeniorData) :
  (SeniorHeatAlerts.escalate
     (SeniorHeatAlerts.processSeniorHealthResponse response heatWave senior) = true
   <-> SeniorHeatAlerts.responseUrgency
         (SeniorHeatAlerts.processSeniorHealthResponse response heatWave senior)
       = "emergency"%string) /\
  (SeniorHeatAlerts.escalate
     (SeniorHeatAlerts.processSeniorHealthResponse response heatWave senior) = true
   <-> response = lit "3" /\
       numGe (SeniorHeatAlerts.maxFeelsLike heatWave) SeniorHeatAlerts.SENIOR_EXTREME_THRESHOLD
       = true) /\
  (SeniorHeatAlerts.nextCheckInMinutes
     (SeniorHeatAlerts.processSeniorHealthResponse response heatWave senior)
   = SeniorHeatAlerts.INTERVAL_normal
   <-> response = lit "1" /\
       numGe (SeniorHeatAlerts.maxFeelsLike heatWave) SeniorHeatAlerts.SENIOR_HEAT_THRESHOLD
       = false).
Proof.
  unfold SeniorHeatAlerts.processSeniorHealthResponse.
  generalize (numGe (SeniorHeatAlerts.maxFeelsLike heatWave)
                SeniorHeatAlerts.SENIOR_EXTREME_THRESHOLD) as extreme.
  generalize (numGe (SeniorHeatAlerts.maxFeelsLike heatWave)
                SeniorHeatAlerts.SENIOR_HEAT_THRESHOLD) as heat.
  intros heat extreme.
  cbn [SeniorHeatAlerts.escalate SeniorHeatAlerts.responseUrgency
       SeniorHeatAlerts.nextCheckInMinutes].
  destruct (jseqb response (lit "1")) eqn:E1.
  - apply jseqb_eq in E1. subst response.
    destruct heat, extreme; cbn; repeat split; intros; try discriminate; try tauto;
      match goal with H : _ /\ _ |- _ => destruct H; discriminate end.
  - assert (N1 : response <> lit "1") by (intros ->; discriminate).
    destruct (jseqb response (lit "2")) eqn:E2.
    + apply jseqb_eq in E2. subst response.
      destruct heat, extreme; cbn; repeat split; intros; try discriminate; try tauto;
        match goal with H : _ /\ _ |- _ => destruct H; discriminate end.
    + destruct (jseqb response (lit "3")) eqn:E3.
      * apply jseqb_eq in E3. subst response.
        destruct heat, extreme; cbn; repeat split; intros; try discriminate; try tauto;
          match goal with H : _ /\ _ |- _ => destruct H; discriminate end.
      * assert (N3 : response <> lit "3") by (intros ->; discriminate).
        destruct heat, extreme; cbn; repeat split; intros; try discriminate; try tauto;
          match goal with H : _ /\ _ |- _ => destruct H; congruence end.
Qed.

(* ================================================================== *)
(** * The symptom analyzer *)

Section SymptomScores.

Import PrimFloat.
#[local] Set Warnings "-inexact-float".

Variable toString : jsnumber -> jsstring.

Lemma scanGroup_spec (symptomsText : jsstring) (name : string) (weight : jsnumber)
    (patterns : list AISymptomAnalyzer.SymptomPattern) :
  forall state,
    List.length (fst (AISymptomAnalyzer.scanGroup symptomsText (name, (patterns, weight)) state))
    = (List.length (fst state) + SymptomWeights.hits patterns symptomsText)%nat /\
    snd (AISymptomAnalyzer.scanGroup symptomsText (name, (patterns, weight)) state)
    = SymptomWeights.addTimes (SymptomWeights.hits patterns symptomsText) weight (snd state).
Proof.
  unfold AISymptomAnalyzer.scanGroup, SymptomWeights.hits. cbn [fst snd].
  induction patterns as [|p ps IH]; intros state; cbn [fold_left filter].
  - cbn. split; [lia | reflexivity].
  - destruct (search (AISymptomAnalyzer.expression p) symptomsText).
    + destruct (IH (fst state ++ [{| AISymptomAnalyzer.severity := name;
                                     AISymptomAnalyzer.matched := AISymptomAnalyzer.source p;
                                     AISymptomAnalyzer.weight := weight |}],
                    (snd state + weight)%float)) as [L W].
      cbn [fst snd] in L, W. rewrite length_app in L. cbn [List.length] in L.
      split.
      * etransitivity; [exact L|]. cbn [List.length]. lia.
      * etransitivity; [exact W|]. reflexivity.
    + apply IH.
Qed.

Lemma scan_spec (symptomsText : jsstring) :
  List.length (fst (AISymptomAnalyzer.scan symptomsText))
  = (SymptomWeights.hits AISymptomAnalyzer.criticalPatterns symptomsText
     + SymptomWeights.hits AISymptomAnalyzer.highPatterns symptomsText
     + SymptomWeights.hits AISymptomAnalyzer.moderatePatterns symptomsText)%nat /\
  snd (AISymptomAnalyzer.scan symptomsText)
  = SymptomWeights.weightOf
      (SymptomWeights.hits AISymptomAnalyzer.criticalPatterns symptomsText)
      (SymptomWeights.hits AISymptomAnalyzer.highPatterns symptomsText)
      (SymptomWeights.hits AISymptomAnalyzer.moderatePatterns symptomsText).
Proof.
  destruct (scanGroup_spec symptomsText "critical" 0.8%float
              AISymptomAnalyzer.criticalPatterns ([], 0%float)) as [L1 W1].
  destruct (scanGroup_spec symptomsText "high" 0.6%float AISymptomAnalyzer.highPatterns
              (AISymptomAnalyzer.scanGroup symptomsText
                 ("critical"%string, (AISymptomAnalyzer.criticalPatterns, 0.8%float))
                 ([], 0%float))) as [L2 W2].
  destruct (scanGroup_spec symptomsText "moderate" 0.3%float
              AISymptomAnalyzer.moderatePatterns
              (AISymptomAnalyzer.scanGroup symptomsText
                 ("high"%string, (AISymptomAnalyzer.highPatterns, 0.6%float))
                 (AISymptomAnalyzer.scanGroup symptomsText
                    ("critical"%string, (AISymptomAnalyzer.criticalPatterns, 0.8%float))
                    ([], 0%float)))) as [L3 W3].
  split.
  - etransitivity; [exact L3|]. apply (f_equal2 Nat.add); [|reflexivity].
    etransitivity; [exact L2|]. apply (f_equal2 Nat.add); [exact L1 | reflexivity].
  - etransitivity; [exact W3|]. unfold SymptomWeights.weightOf. apply f_equal.
    etransitivity; [exact W2|]. apply f_equal. exact W1.
Qed.

Lemma hits_bound (patterns : list AISymptomAnalyzer.SymptomPattern) (symptomsText : jsstring) :
  (SymptomWeights.hits patterns symptomsText <= List.length patterns)%nat.
Proof. apply filter_length_le. Qed.

Lemma hits_positive (patterns : list AISymptomAnalyzer.SymptomPattern)
    (symptomsText : jsstring) :
  existsb (fun p => search (AISymptomAnalyzer.expression p) symptomsText) patterns = true ->
  (1 <= SymptomWeights.hits patterns symptomsText)%nat.
Proof.
  unfold SymptomWeights.hits. induction patterns as [|p ps IH]; cbn; [discriminate|].
  destruct (search (AISymptomAnalyzer.expression p) symptomsText); cbn; intros H; [lia|auto].
Qed.

Lemma riskFactors_multiplier (pd : PatientData) (conditions : option jsstring)
    (currentTemperature : option jsnumber) :
  In (fst (AISymptomAnalyzer.riskFactors toString pd conditions currentTemperature))
     SymptomWeights.multipliers.
Proof.
  unfold AISymptomAnalyzer.riskFactors.
  destruct (65 <=? age pd)%Z;
    destruct (AISymptomAnalyzer.atLeast currentTemperature 100%float);
    destruct (AISymptomAnalyzer.atLeast currentTemperature 95%float);
    destruct conditions as [[|c cs]|];
    try destruct (includesAny AISymptomAnalyzer.riskConditions (lowerCase (c :: cs)));
    cbn [fst snd]; unfold SymptomWeights.multipliers; cbn [flat_map map app];
    unfold SymptomWeights.multiplierOf; cbn [In]; tauto.
Qed.

Lemma range_member (lo len k : nat) : (lo <= k < lo + len)%nat -> In k (seq lo len).
Proof. intros H. apply in_seq. exact H. Qed.

(** A check that holds of every score holds of the score of a text. *)
Lemma everyScore_sound (c0 cn h0 hn m0 mn : nat) (check : jsnumber -> bool)
    (symptomsText : jsstring) (pd : PatientData) (conditions : option jsstring)
    (currentTemperature : option jsnumber) :
  SymptomWeights.everyScore (seq c0 cn) (seq h0 hn) (seq m0 mn) check = true ->
  (c0 <= SymptomWeights.hits AISymptomAnalyzer.criticalPatterns symptomsText < c0 + cn)%nat ->
  (h0 <= SymptomWeights.hits AISymptomAnalyzer.highPatterns symptomsText < h0 + hn)%nat ->
  (m0 <= SymptomWeights.hits AISymptomAnalyzer.moderatePatterns symptomsText < m0 + mn)%nat ->
  check (snd (AISymptomAnalyzer.scan symptomsText)
         * fst (AISymptomAnalyzer.riskFactors toString pd conditions currentTemperature))%float
  = true.
Proof.
  intros E Hc Hh Hm. unfold SymptomWeights.everyScore in E.
  rewrite forallb_forall in E. specialize (E _ (range_member _ _ _ Hc)).
  rewrite forallb_forall in E. specialize (E _ (range_member _ _ _ Hh)).
  rewrite forallb_forall in E. specialize (E _ (range_member _ _ _ Hm)).
  rewrite forallb_forall in E.
  specialize (E _ (riskFactors_multiplier pd conditions currentTemperature)).
  destruct (scan_spec symptomsText) as [_ W]. rewrite W. exact E.
Qed.

Lemma analyzeSymptoms_detected (symptomsText : jsstring) (pd : PatientData)
    (conditions : option jsstring) (currentTemperature : option jsnumber) :
  AISymptomAnalyzer.symptomsDetected
    (AISymptomAnalyzer.analyzeSymptoms toString symptomsText pd conditions currentTemperature)
  = fst (AISymptomAnalyzer.scan symptomsText).
Proof.
  unfold AISymptomAnalyzer.analyzeSymptoms. cbv zeta.
  destruct (numGe _ 0.7%float); [reflexivity|].
  destruct (numGe _ 0.4%float); reflexivity.
Qed.

(** The analysis never leaves the level at "LOW", and every pattern it
    suggests has four intervals. *)
Lemma analyzeSymptoms_monitored (symptomsText : jsstring) (pd : PatientData)
    (conditions : option jsstring) (currentTemperature : option jsnumber) :
  String.eqb
    (AISymptomAnalyzer.riskLevel
       (AISymptomAnalyzer.analyzeSymptoms toString symptomsText pd conditions
          currentTemperature)) "LOW" = false /\
  List.length
    (intervals
       (AISymptomAnalyzer.pattern
          (AISymptomAnalyzer.suggested
             (AISymptomAnalyzer.analyzeSymptoms toString symptomsText pd conditions
                currentTemperature)))) = 4%nat.
Proof.
  unfold AISymptomAnalyzer.analyzeSymptoms. cbv zeta.
  destruct (numGe _ 0.7%float); [split; reflexivity|].
  destruct (numGe _ 0.4%float); split; reflexivity.
Qed.

Lemma scheduleAISymptomMonitoring_ok (phone : string) (pd : PatientData)
    (a : SymptomAnalysis) (w : World) :
  reachable w -> pendingFor phone AISymptom w = [] ->
  exists w', runs (scheduleAISymptomMonitoring phone pd a) w tt w' /\
             healthCronQueue w'
             = healthCronQueue w
               ++ aiJobsFrom phone pd a
                    ("ai-symptom-" ++ phone ++ "-" ++ decimal (now w))%string 0
                    (intervals (suggestedMonitoring a)) /\
             whatsappQueue w' = whatsappQueue w /\
             sameEnv w w'.
Proof.
  intros R E.
  destruct (cancelAIMonitoring_nothing phone w R E) as (w1 & R1 & Q1 & (E1 & W1 & T1)).
  assert (Hw1 : reachable w1) by (eapply reachable_sameEnv; eauto).
  set (base := ("ai-symptom-" ++ phone ++ "-" ++ decimal (now w))%string).
  destruct (scheduleAIFrom_ok phone pd a base (intervals (suggestedMonitoring a)) 0 w1 Hw1)
    as (w2 & evs & R2 & Q2 & W2 & T2 & L2 & F2 & E2).
  exists w2. split; [|split; [|split]].
  - unfold runs, scheduleAISymptomMonitoring, bind at 1, gets. fold base.
    unfold bind. rewrite R1. exact R2.
  - now rewrite Q2, Q1.
  - now rewrite W2, W1.
  - eapply sameEnv_trans; eauto.
Qed.

Lemma aiJobsFrom_delays (phone : string) (pd : PatientData) (a : SymptomAnalysis)
    (base : string) (rest : list Z) :
  forall i, map delay (aiJobsFrom phone pd a base i rest)
            = map (fun minutes => Fin (minutes * 60 * 1000)) rest.
Proof.
  induction rest as [|d rest IH]; intros i; simpl; [reflexivity|]. now rewrite IH.
Qed.

Lemma aiJobsFrom_length (phone : string) (pd : PatientData) (a : SymptomAnalysis)
    (base : string) (rest : list Z) :
  forall i, List.length (aiJobsFrom phone pd a base i rest) = List.length rest.
Proof.
  induction rest as [|d rest IH]; intros i; simpl; [reflexivity|]. now rewrite IH.
Qed.

End SymptomScores.

Section AnalyzerVerdicts.

Import PrimFloat.
#[local] Set Warnings "-inexact-float".

(** X22. A report that matches one of the critical patterns is rated
    CRITICAL and gets the intensive monitoring pattern, whatever the
    patient's age and conditions and whatever the temperature. *)
Theorem critical_symptom_rated_critical (toString : jsnumber -> jsstring)
    (symptomsText : jsstring) (pd : PatientData) (conditions : option jsstring)
    (currentTemperature : option jsnumber) :
  existsb (fun p => search (AISymptomAnalyzer.expression p) symptomsText)
    AISymptomAnalyzer.criticalPatterns = true ->
  AISymptomAnalyzer.riskLevel
    (AISymptomAnalyzer.analyzeSymptoms toString symptomsText pd conditions currentTemperature)
  = "CRITICAL"%string /\
  AISymptomAnalyzer.suggested
    (AISymptomAnalyzer.analyzeSymptoms toString symptomsText pd conditions currentTemperature)
  = AISymptomAnalyzer.CRITICAL.
Proof.
  intros H.
  assert (E : numGe (snd (AISymptomAnalyzer.scan symptomsText)
                     * fst (AISymptomAnalyzer.riskFactors toString pd conditions
                              currentTemperature))%float 0.7%float = true).
  { apply (everyScore_sound toString 1 6 0 7 0 6 (fun x => numGe x 0.7%float)).
    - vm_compute. reflexivity.
    - split; [now apply hits_positive|].
      apply (Nat.le_lt_trans _ _ _ (hits_bound _ symptomsText)). cbn. lia.
    - split; [lia|].
      apply (Nat.le_lt_trans _ _ _ (hits_bound _ symptomsText)). cbn. lia.
    - split; [lia|].
      apply (Nat.le_lt_trans _ _ _ (hits_bound _ symptomsText)). cbn. lia. }
  unfold AISymptomAnalyzer.analyzeSymptoms. cbv zeta. rewrite E. split; reflexivity.
Qed.

Lemma critical_symptom_rated_critical_witness :
  AISymptomAnalyzer.riskLevel
    (AISymptomAnalyzer.analyzeSymptoms (fun _ => lit "80") (lit "I feel faint")
       samplePatient None None)
  = "CRITICAL"%string /\
  AISymptomAnalyzer.suggested
    (AISymptomAnalyzer.analyzeSymptoms (fun _ => lit "80") (lit "I feel faint")
       samplePatient None None)
  = AISymptomAnalyzer.CRITICAL.
Proof.
  apply (critical_symptom_rated_critical (fun _ => lit "80") (lit "I feel faint")
           samplePatient None None).
  vm_compute. reflexivity.
Defined.

(** X23. A report in which no symptom pattern is recognised is still
    rated MODERATE, with confidence 0 and the standard monitoring
    pattern, whatever the risk factors. *)
Theorem unrecognised_report_rated_moderate (toString : jsnumber -> jsstring)
    (symptomsText : jsstring) (pd : PatientData) (conditions : option jsstring)
    (currentTemperature : option jsnumber) :
  AISymptomAnalyzer.symptomsDetected
    (AISymptomAnalyzer.analyzeSymptoms toString symptomsText pd conditions currentTemperature)
  = [] ->
  AISymptomAnalyzer.riskLevel
    (AISymptomAnalyzer.analyzeSymptoms toString symptomsText pd conditions currentTemperature)
  = "MODERATE"%string /\
  AISymptomAnalyzer.suggested
    (AISymptomAnalyzer.analyzeSymptoms toString symptomsText pd conditions currentTemperature)
  = AISymptomAnalyzer.MODERATE /\
  AISymptomAnalyzer.confidence
    (AISymptomAnalyzer.analyzeSymptoms toString symptomsText pd conditions currentTemperature)
  = 0%float.
Proof.
  intros D. rewrite analyzeSymptoms_detected in D.
  destruct (scan_spec symptomsText) as [L _]. rewrite D in L. cbn [List.length] in L.
  assert (E := everyScore_sound toString 0 1 0 1 0 1
                 (fun x => negb (numGe x 0.7%float) && negb (numGe x 0.4%float)
                           && Leibniz.eqb (mathMin 0.95%float x) 0%float)
                 symptomsText pd conditions currentTemperature).
  specialize (E ltac:(vm_compute; reflexivity) ltac:(lia) ltac:(lia) ltac:(lia)).
  cbv beta in E. apply andb_prop in E as [E E3]. apply andb_prop in E as [E1 E2].
  apply negb_true_iff in E1, E2. apply FloatAxioms.Leibniz.eqb_spec in E3.
  unfold AISymptomAnalyzer.analyzeSymptoms. cbv zeta. rewrite E1, E2.
  cbn [AISymptomAnalyzer.riskLevel AISymptomAnalyzer.suggested AISymptomAnalyzer.confidence].
  split; [reflexivity|]. split; [reflexivity|exact E3].
Qed.

Lemma unrecognised_report_rated_moderate_witness :
  AISymptomAnalyzer.riskLevel
    (AISymptomAnalyzer.analyzeSymptoms (fun _ => lit "104") (lit "I am fine, thank you")
       samplePatient None (Some (ofZ 104)))
  = "MODERATE"%string /\
  AISymptomAnalyzer.suggested
    (AISymptomAnalyzer.analyzeSymptoms (fun _ => lit "104") (lit "I am fine, thank you")
       samplePatient None (Some (ofZ 104)))
  = AISymptomAnalyzer.MODERATE /\
  AISymptomAnalyzer.confidence
    (AISymptomAnalyzer.analyzeSymptoms (fun _ => lit "104") (lit "I am fine, thank you")
       samplePatient None (Some (ofZ 104)))
  = 0%float.
Proof.
  apply (unrecognised_report_rated_moderate (fun _ => lit "104")
           (lit "I am fine, thank you") samplePatient None (Some (ofZ 104))).
  vm_compute. reflexivity.
Defined.

(** X24. Every symptom report of a patient with no AI monitoring
    pending, on a store that answers, queues the personalised reply
    and starts a chain of four check-ins at the delays of the suggested
    pattern; the test for a "LOW" level never prevents it. *)
Theorem symptom_report_starts_chain (toString : jsnumber -> jsstring) (phone : string)
    (symptomsText : jsstring) (pd : PatientData) (conditions : option jsstring)
    (currentTemperature : option jsnumber) (w : World) :
  reachable w -> pendingFor phone AISymptom w = [] ->
  fst (AISymptomAnalyzer.processSymptomReport toString phone symptomsText pd conditions
         currentTemperature w)
  = Ret (AISymptomAnalyzer.analyzeSymptoms toString symptomsText pd conditions
           currentTemperature) /\
  map delay
    (pendingFor phone AISymptom
       (snd (AISymptomAnalyzer.processSymptomReport toString phone symptomsText pd conditions
               currentTemperature w)))
  = map (fun minutes => Fin (minutes * 60 * 1000))
      (intervals
         (AISymptomAnalyzer.pattern
            (AISymptomAnalyzer.suggested
               (AISymptomAnalyzer.analyzeSymptoms toString symptomsText pd conditions
                  currentTemperature)))) /\
  List.length
    (pendingFor phone AISymptom
       (snd (AISymptomAnalyzer.processSymptomReport toString phone symptomsText pd conditions
               currentTemperature w))) = 4%nat /\
  map message
    (whatsappQueue
       (snd (AISymptomAnalyzer.processSymptomReport toString phone symptomsText pd conditions
               currentTemperature w)))
  = map message (whatsappQueue w)
    ++ [textMsg
          (AISymptomAnalyzer.generatePersonalizedResponse
             (AISymptomAnalyzer.analyzeSymptoms toString symptomsText pd conditions
                currentTemperature) pd)].
Proof.
  intros R E. unfold AISymptomAnalyzer.processSymptomReport.
  set (analysis := AISymptomAnalyzer.analyzeSymptoms toString symptomsText pd conditions
                     currentTemperature).
  destruct (analyzeSymptoms_monitored toString symptomsText pd conditions currentTemperature)
    as [Low Four].
  fold analysis in Low, Four. cbv zeta. rewrite Low. cbn [negb].
  set (reply := textMsg (AISymptomAnalyzer.generatePersonalizedResponse analysis pd)).
  assert (A1 := whatsappAdd_ok phone reply None w R).
  set (w1 := emit (WhatsappQueued phone reply)
               (setWhatsapp (whatsappQueue w
                             ++ [{| to := phone; message := reply; waDelay := None |}])
                  (bump w))) in A1.
  assert (R1 : reachable w1) by exact R.
  assert (E1 : pendingFor phone AISymptom w1 = []) by exact E.
  destruct (scheduleAISymptomMonitoring_ok phone pd (AISymptomAnalyzer.forScheduler analysis)
              w1 R1 E1) as (w2 & A2 & Q2 & W2 & S2).
  assert (R2 : reachable w2) by (eapply reachable_sameEnv; eauto).
  assert (A3 : AISymptomAnalyzer.logAnalysis w2 = (Ret tt, bump w2)).
  { apply catch_runs. now apply prismaCreate_ok. }
  erewrite (bind_run _ _ w w1 tt); [|exact A1].
  erewrite (bind_run _ _ w1 w2 tt); [|exact A2].
  erewrite (bind_run _ _ w2 (bump w2) tt); [|exact A3].
  cbn [ret fst snd].
  change (pendingFor phone AISymptom (bump w2))
    with (filter (ofIdentity phone AISymptom) (healthCronQueue w2)).
  change (whatsappQueue (bump w2)) with (whatsappQueue w2).
  unfold pendingFor in E1. rewrite Q2, W2, filter_app, E1, aiJobsFrom_identity.
  cbn [app]. rewrite aiJobsFrom_delays, aiJobsFrom_length.
  split; [reflexivity|]. split; [reflexivity|]. split; [exact Four|].
  unfold w1. cbn. rewrite map_app. reflexivity.
Qed.

Lemma symptom_report_starts_chain_witness :
  fst (AISymptomAnalyzer.processSymptomReport (fun _ => lit "80") "+15550100"
         (lit "I am fine, thank you") samplePatient None None (onHighChain answering))
  = Ret (AISymptomAnalyzer.analyzeSymptoms (fun _ => lit "80") (lit "I am fine, thank you")
           samplePatient None None) /\
  List.length
    (pendingFor "+15550100" AISymptom
       (snd (AISymptomAnalyzer.processSymptomReport (fun _ => lit "80") "+15550100"
               (lit "I am fine, thank you") samplePatient None None
               (onHighChain answering)))) = 4%nat.
Proof.
  destruct (symptom_report_starts_chain (fun _ => lit "80") "+15550100"
              (lit "I am fine, thank you") samplePatient None None (onHighChain answering))
    as (A & _ & B & _).
  - apply reachable_onHighChain.
  - reflexivity.
  - split; [exact A | exact B].
Defined.

End AnalyzerVerdicts.

(* ================================================================== *)
(** * What a cancellation leaves alone *)

Section Keys.

Lemma append_length (a b : string) :
  String.length (a ++ b) = (String.length a + String.length b)%nat.
Proof. induction a as [|c a IH]; simpl; auto. Qed.

Lemma append_inv_head (p a b : string) : (p ++ a = p ++ b)%string -> a = b.
Proof. induction p as [|c p IH]; simpl; intros H; auto. injection H as H. auto. Qed.

Lemma append_inv_tail (s : string) : forall a b : string, (a ++ s = b ++ s)%string -> a = b.
Proof.
  induction a as [|c a IH]; intros [|d b] H; simpl in H; auto.
  - apply (f_equal String.length) in H. simpl in H. rewrite append_length in H. lia.
  - apply (f_equal String.length) in H. simpl in H. rewrite append_length in H. lia.
  - injection H as -> H. f_equal. auto.
Qed.

(** The job ids of two identities of [queue.js] differ. *)
Lemma identityKey_inj (phone phone' : string) (t t' : MonitoringTrack) :
  t <> AISymptom -> t' <> AISymptom ->
  identityKey phone t = identityKey phone' t' -> phone = phone' /\ t = t'.
Proof.
  intros Ht Ht' H. unfold identityKey in H.
  destruct t, t'; try (now elim Ht); try (now elim Ht'); cbn in H;
    try discriminate; split; try reflexivity.
  - now apply (append_inv_head "daily-checkup-").
  - apply (append_inv_head "recurring-monitor-") in H.
    now apply (append_inv_tail "-symptom").
  - now apply (append_inv_head "weather-alert-").
Qed.

Lemma identityKey_not_legacy (phone phone' tagName : string) (t : MonitoringTrack)
    (interval : Z) :
  t <> AISymptom -> identityKey phone t <> legacyJobId phone' tagName interval.
Proof.
  intros Ht H. unfold identityKey in H. destruct t; try (now elim Ht); cbn in H; discriminate.
Qed.

Lemma filter_removeFirst_other (f : Job -> bool) (id : string) (q : list Job) :
  (forall j, In j q -> f j = true -> jobId j <> id) ->
  filter f (removeFirst id q) = filter f q.
Proof.
  induction q as [|x q IH]; simpl; intros H; auto.
  unfold hasId at 1. destruct (String.eqb (jobId x) id) eqn:E.
  - apply String.eqb_eq in E. destruct (f x) eqn:F; auto.
    now elim (H x (or_introl eq_refl) F).
  - simpl. rewrite IH by auto. reflexivity.
Qed.

Lemma filter_removeIds_other (f : Job -> bool) (ids : list string) :
  forall q, (forall j, In j q -> f j = true -> ~ In (jobId j) ids) ->
            filter f (removeIds ids q) = filter f q.
Proof.
  induction ids as [|id ids IH]; intros q H; [reflexivity|].
  change (removeIds (id :: ids) q) with (removeIds ids (removeFirst id q)).
  rewrite IH.
  - apply filter_removeFirst_other. intros j Hj Fj E. apply (H j Hj Fj). now left.
  - intros j Hj Fj E. apply removeFirst_In in Hj. apply (H j Hj Fj). now right.
Qed.


(** The id of a job of another identity is none of the ids a
    cancellation looks up. *)
Lemma other_identity_id (phone phone' : string) (t t' : MonitoringTrack) (j : Job) :
  wellFormedJob j -> ofIdentity phone' t' j = true ->
  t <> AISymptom -> (phone', t') <> (phone, t) ->
  ~ In (jobId j) (cancelIds phone (trackTag t)).
Proof.
  intros W F Ht Other Hin.
  destruct (track_eqb t' AISymptom) eqn:A.
  - assert (t' = AISymptom) by (destruct t'; try discriminate; reflexivity). subst t'.
    assert (K : aiId (jobId j) = true).
    { destruct W as [(t'' & Ht'' & N'' & _)|(_ & K & _)]; [|exact K].
      unfold ofIdentity in F. rewrite Ht'' in F. apply andb_true_iff in F as [_ F].
      destruct t''; try discriminate. now elim N''. }
    pose proof (aiId_cancelIds phone (trackTag t)) as Fa.
    eapply Forall_forall in Fa; eauto. congruence.
  - assert (Ht' : t' <> AISymptom) by (intros ->; discriminate).
    destruct (tracked_job_key j phone' t' W Ht' F) as [Hid _].
    rewrite Hid in Hin. destruct Hin as [E|Hin].
    + apply (identityKey_inj phone phone' t t') in E as [-> <-]; auto.
    + apply in_map_iff in Hin as (i & E & _). symmetry in E.
      now apply identityKey_not_legacy in E.
Qed.

End Keys.

Section Cancellations.

Lemma trackTag_not_all (t : MonitoringTrack) : String.eqb (trackTag t) "all" = false.
Proof. destruct t; reflexivity. Qed.

(** A cancellation for the tag of a track keeps the pending jobs of
    every other identity. *)
Lemma cancelled_keeps (phone phone' : string) (t t' : MonitoringTrack) (q : list Job) :
  Forall wellFormedJob q -> t <> AISymptom -> (phone', t') <> (phone, t) ->
  filter (ofIdentity phone' t') (cancelled phone (trackTag t) q)
  = filter (ofIdentity phone' t') q.
Proof.
  intros C Ht Other. unfold cancelled. rewrite trackTag_not_all.
  apply filter_removeIds_other. intros j Hj F.
  eapply Forall_forall in C; eauto.
  now apply (other_identity_id phone phone' t t' j).
Qed.




Lemma kept_onBothChains : kept onBothChains.
Proof.
  apply (kept_scheduleAISymptomMonitoring "+15550100" samplePatient sampleAnalysis).
  split; [apply reachable_onHighChain | apply invariant_onHighChain].
Qed.

End Cancellations.

(** X25. Cancelling one track of a patient, on a store that answers,
    stops exactly that identity: it has no pending job afterwards, and
    the pending jobs of every other patient and of the patient's other
    tracks, the AI monitoring chain included, are as before. *)
Theorem cancel_stops_one_identity (phone : string) (t : MonitoringTrack) (w : World) :
  reachable w -> invariant w -> t <> AISymptom ->
  fst (cancelHealthCheckups phone (trackTag t) w) = Ret tt /\
  pendingFor phone t (snd (cancelHealthCheckups phone (trackTag t) w)) = [] /\
  forall phone' t', (phone', t') <> (phone, t) ->
    pendingFor phone' t' (snd (cancelHealthCheckups phone (trackTag t) w))
    = pendingFor phone' t' w.
Proof.
  intros R (U & C & _) Ht.
  destruct (cancelHealthCheckups_ok phone (trackTag t) w R) as (w' & Run & Q & _).
  unfold runs in Run. unfold pendingFor. rewrite Run. cbn [fst snd].
  split; [reflexivity|]. split.
  - rewrite Q. now apply cancelled_clears.
  - intros phone' t' Other. rewrite Q. now apply cancelled_keeps.
Qed.

Lemma cancel_stops_one_identity_witness :
  fst (cancelHealthCheckups "+15550100" (trackTag Symptom) (onHighChain answering)) = Ret tt /\
  pendingFor "+15550100" Symptom
    (snd (cancelHealthCheckups "+15550100" (trackTag Symptom) (onHighChain answering))) = [].
Proof.
  destruct (cancel_stops_one_identity "+15550100" Symptom (onHighChain answering))
    as (A & B & _).
  - apply reachable_onHighChain.
  - apply invariant_onHighChain.
  - discriminate.
  - split; [exact A | exact B].
Defined.



(* ================================================================== *)
(** * The two workers *)

(** X27. A due check-in of the AI monitoring chain is handled as a
    legacy symptom check: its name is not the one the worker routes to
    the AI check, so on a store that answers the patient is sent the
    legacy poll, the job leaves the queue and nothing is scheduled. *)
Theorem ai_checkin_sends_legacy_poll (sc : Scope) (i : nat) (j : Job) (w : World) :
  reachable w ->
  nth_error (healthCronQueue w) i = Some j ->
  name j = AI_SYMPTOM -> repeatEvery j = None ->
  fst (fire sc i w) = Ret tt /\
  trace (snd (fire sc i w)) = trace w ++ [TwilioSent (phoneNumber (data j)) LegacyPollMsg] /\
  healthCronQueue (snd (fire sc i w)) = removeNth i (healthCronQueue w).
Proof.
  intros R E Hn Hr. unfold fire. rewrite E, Hr. unfold healthCronWorker. rewrite Hn.
  cbn [route AI_SYMPTOM String.eqb Ascii.eqb Bool.eqb].
  set (w0 := setCron (removeNth i (healthCronQueue w)) w).
  assert (R0 : reachable w0) by exact R.
  assert (Run : processLegacySymptomCheck j w0
                = (Ret tt, bump (emit (TwilioSent (phoneNumber (data j)) LegacyPollMsg)
                                   (bump w0)))).
  { unfold processLegacySymptomCheck. apply catch_runs. unfold runs.
    erewrite (bind_run _ _ w0 _ tt); [|now apply twilioCreate_ok].
    now apply prismaCreate_ok. }
  rewrite Run. repeat split.
Qed.

Lemma ai_checkin_sends_legacy_poll_witness :
  fst (fire workerScope 1 onBothChains) = Ret tt /\
  trace (snd (fire workerScope 1 onBothChains))
  = trace onBothChains
    ++ [TwilioSent
          (phoneNumber
             (data (aiJob "+15550100" samplePatient sampleAnalysis
                      ("ai-symptom-+15550100-" ++ decimal (now (onHighChain answering)))
                      0 30)))
          LegacyPollMsg] /\
  healthCronQueue (snd (fire workerScope 1 onBothChains))
  = removeNth 1 (healthCronQueue onBothChains).
Proof.
  apply (ai_checkin_sends_legacy_poll workerScope 1
           (aiJob "+15550100" samplePatient sampleAnalysis
              ("ai-symptom-+15550100-" ++ decimal (now (onHighChain answering))) 0 30)
           onBothChains).
  - apply kept_onBothChains.
  - vm_compute. reflexivity.
  - reflexivity.
  - reflexivity.
Defined.

Section Outcomes.

Lemma bind_raise {A B} (m : M A) (k : A -> M B) (w w1 : World) (e : Err) :
  m w = (Raise e, w1) -> bind m k w = (Raise e, w1).
Proof. intros H. unfold bind. now rewrite H. Qed.

Lemma catch_raise {A} (m : M A) (h : Err -> M A) (w w1 : World) (e : Err) :
  m w = (Raise e, w1) -> catch m h w = h e w1.
Proof. intros H. unfold catch. now rewrite H. Qed.

Lemma call_outcome (e : Err) (w : World) :
  call e w = (if faults w (tick w) then Raise e else Ret tt, bump w).
Proof. unfold call. destruct (faults w (tick w)); reflexivity. Qed.

Lemma twilioCreate_outcome (recipient : string) (m : Msg) (w : World) :
  twilioCreate recipient m w
  = if faults w (tick w) then (Raise TwilioError, bump w)
    else (Ret tt, emit (TwilioSent recipient m) (bump w)).
Proof.
  unfold twilioCreate, bind, modify. rewrite call_outcome.
  destruct (faults w (tick w)); reflexivity.
Qed.

End Outcomes.

(** X28. The WhatsApp worker sends the message exactly when the call
    to Twilio succeeds, and completes exactly when the log that follows
    succeeds as well: a message that went out still fails the job when
    its log fails, and no job completes without a send. *)
Theorem whatsapp_worker_outcomes (job : WaJob) (w : World) :
  (fst (whatsappWorker job w) = Ret tt
   <-> faults w (tick w) = false /\ faults w (S (tick w)) = false) /\
  trace (snd (whatsappWorker job w))
  = trace w ++ (if faults w (tick w) then [] else [TwilioSent (to job) (message job)]).
Proof.
  assert (T := twilioCreate_outcome (to job) (message job) w).
  unfold whatsappWorker.
  destruct (faults w (tick w)) eqn:F1.
  - rewrite (catch_raise _ _ w (bump w) TwilioError) by (now apply bind_raise).
    unfold bind, prismaCreate. rewrite call_outcome.
    change (faults (bump w) (tick (bump w))) with (faults w (S (tick w))).
    rewrite app_nil_r.
    destruct (faults w (S (tick w))); cbn [fst snd];
      (split; [|reflexivity]); split; try discriminate; intros [? ?]; discriminate.
  - set (w1 := emit (TwilioSent (to job) (message job)) (bump w)) in T.
    assert (P : prismaCreate w1
                = (if faults w (S (tick w)) then Raise DbError else Ret tt, bump w1))
      by (unfold prismaCreate; now rewrite call_outcome).
    destruct (faults w (S (tick w))) eqn:F2.
    + rewrite (catch_raise _ _ w (bump w1) DbError)
        by (erewrite (bind_run _ _ w w1 tt); [exact P | exact T]).
      unfold bind, prismaCreate. rewrite call_outcome.
      destruct (faults (bump w1) (tick (bump w1))); cbn [fst snd];
        (split; [|reflexivity]); split; try discriminate; intros [? ?]; discriminate.
    + rewrite (catch_runs _ _ w tt (bump w1))
        by (unfold runs; erewrite (bind_run _ _ w w1 tt); [exact P | exact T]).
      cbn [fst snd]. split; [|reflexivity]. split; auto.
Qed.
